(** * Bar book-keeping application ([app.py]): model and verified properties

    The view functions of [app.py] are embedded as pure functions from a
    request and the committed store to a response, the messages flashed and
    the new store; a [try] block is a computation in a small monad of flashed
    messages and exceptions, and [db.session.rollback()] is the return of the
    store the request started from.

    - Python [str] is [string], read as code points below 256; [int] is [Z].
    - A [Float] column and the result of [float(...)] is an exact rational
      ([Q]), which every finite value of a [float] is; the values [inf] and
      [nan] are outside the model, and so is the rounding of the sums that
      the engine of the store and the views compute: [sql_sum] and the
      difference [net_profit] are exact.  What is proved of a total is
      only what holds of the rounded sum as well: that it is 0 over no
      row and that it is not negative.  The text of an amount field is
      not modelled, a form holds the result of [float] on it.
    - [date.today()] is an argument of the views that read it.
    - Templates are not rendered: a page is the constructor of [response]
      that carries its context.  The layout of the PDF and the quoting of
      the CSV writer are left out.  A header of a response that would hold
      a carriage return or a line feed is refused when the response is
      built: the view raises and the answer is an error.
    - A table is the list of its rows in the order of their identifiers,
      with the checks of the schema ([unique=True] on [sale_date]) done when
      a row is written. *)

From Stdlib Require Import ZArith QArith Qround Qabs List String Ascii Bool Lia.
From Stdlib Require Import Numbers.DecimalString.
From Stdlib Require Import Sorting.Permutation Sorting.Sorted.
Import ListNotations.

Local Open Scope string_scope.
Local Open Scope list_scope.
Local Open Scope Z_scope.

(* ------------------------------------------------------------------ *)
(** ** Python strings *)

Module PyStr.

(** [str.isspace] on the code points below 256: U+0009..U+000D,
    U+001C..U+0020, U+0085 and U+00A0. *)
Definition is_space (c : ascii) : bool :=
  let n := Z.of_N (N_of_ascii c) in
  ((9 <=? n) && (n <=? 13)) || ((28 <=? n) && (n <=? 32))
  || (n =? 133) || (n =? 160).

(** The space characters that [int] skips: those of C for an ASCII
    character, U+0085 and U+00A0 beyond. *)
Definition is_int_space (c : ascii) : bool :=
  let n := Z.of_N (N_of_ascii c) in
  ((9 <=? n) && (n <=? 13)) || (n =? 32) || (n =? 133) || (n =? 160).

Fixpoint lstrip_chars (sp : ascii -> bool) (l : list ascii) : list ascii :=
  match l with
  | c :: l' => if sp c then lstrip_chars sp l' else l
  | [] => []
  end.

Definition rstrip_chars (sp : ascii -> bool) (l : list ascii) : list ascii :=
  rev (lstrip_chars sp (rev l)).

Definition strip_chars (sp : ascii -> bool) (l : list ascii) : list ascii :=
  rstrip_chars sp (lstrip_chars sp l).

(** [s.strip()] *)
Definition strip (s : string) : string :=
  string_of_list_ascii (strip_chars is_space (list_ascii_of_string s)).

(** [s.split(sep)] for a one-character separator: the fields between the
    occurrences of [sep], never an empty list. *)
Fixpoint split_chars (sep : ascii) (l : list ascii) : list (list ascii) :=
  match l with
  | [] => [[]]
  | c :: l' =>
      if Ascii.eqb c sep then [] :: split_chars sep l'
      else match split_chars sep l' with
           | f :: fs => (c :: f) :: fs
           | [] => [[c]]
           end
  end.

Definition split (sep : ascii) (s : string) : list string :=
  map string_of_list_ascii (split_chars sep (list_ascii_of_string s)).

Definition digit_val (c : ascii) : option Z :=
  let n := Z.of_N (N_of_ascii c) in
  if (48 <=? n) && (n <=? 57) then Some (n - 48) else None.

(** The digits of an integer literal: [digit (["_"] digit)*].  [prev] tells
    whether the previous character was a digit. *)
Fixpoint digits_value (acc : Z) (prev : bool) (l : list ascii) : option Z :=
  match l with
  | [] => if prev then Some acc else None
  | c :: l' =>
      match digit_val c with
      | Some d => digits_value (10 * acc + d) true l'
      | None =>
          if Ascii.eqb c "_"%char && prev then digits_value acc false l'
          else None
      end
  end.

(** The number of digits of a literal, and the most that the interpreter
    converts ([sys.int_info.default_max_str_digits]). *)
Definition count_digits (l : list ascii) : Z :=
  Z.of_nat (List.length
              (filter (fun c => match digit_val c with
                                | Some _ => true
                                | None => false
                                end) l)).

Definition max_str_digits : Z := 4300.

(** [int(s)] in base 10: surrounding whitespace is dropped, one sign is
    allowed and a literal of more than [max_str_digits] digits is refused;
    [None] is [ValueError]. *)
Definition int (s : string) : option Z :=
  match strip_chars is_int_space (list_ascii_of_string s) with
  | c :: l =>
      if max_str_digits <? count_digits (c :: l) then None
      else if Ascii.eqb c "+"%char then digits_value 0 false l
      else if Ascii.eqb c "-"%char then option_map Z.opp (digits_value 0 false l)
      else digits_value 0 false (c :: l)
  | [] => None
  end.

(** The character of a decimal digit. *)
Definition digit_char (d : Z) : ascii := ascii_of_N (Z.to_N (48 + d)).

(** [n] printed as ["%02d"] and ["%04d"], for [n] within the width. *)
Definition pad2 (n : Z) : string :=
  String (digit_char (n / 10 mod 10)) (String (digit_char (n mod 10)) "").

Definition pad4 (n : Z) : string :=
  String (digit_char (n / 1000 mod 10))
    (String (digit_char (n / 100 mod 10)) (pad2 n)).

End PyStr.

(* ------------------------------------------------------------------ *)
(** ** Calendar dates ([datetime.date], [calendar.monthrange]) *)

Record date : Type := mkdate { year : Z; month : Z; day : Z }.

(** [calendar.isleap] *)
Definition isleap (y : Z) : bool :=
  (y mod 4 =? 0) && (negb (y mod 100 =? 0) || (y mod 400 =? 0)).

(** [calendar.mdays] *)
Definition mdays : list Z := [0; 31; 28; 31; 30; 31; 30; 31; 31; 30; 31; 30; 31].

(** [calendar.monthrange(y, m)[1]]; [None] is [IllegalMonthError]. *)
Definition monthrange_ndays (y m : Z) : option Z :=
  if (1 <=? m) && (m <=? 12)
  then Some (nth (Z.to_nat m) mdays 0 + (if (m =? 2) && isleap y then 1 else 0))
  else None.

(** [datetime._days_in_month], for a month in 1..12 *)
Definition days_in_month (y m : Z) : Z :=
  if (m =? 2) && isleap y then 29
  else nth (Z.to_nat m) [-1; 31; 28; 31; 30; 31; 30; 31; 31; 30; 31; 30; 31] 0.

(** The constructor [date(y, m, d)]; [None] is [ValueError]. *)
Definition date_new (y m d : Z) : option date :=
  if (1 <=? y) && (y <=? 9999) && (1 <=? m) && (m <=? 12)
     && (1 <=? d) && (d <=? days_in_month y m)
  then Some (mkdate y m d) else None.

Definition valid_date (d : date) : Prop :=
  date_new (year d) (month d) (day d) = Some d.

(** Comparison of dates, as [date.__le__] and as the store compares the
    ISO text of a [Date] column. *)
Definition date_eqb (a b : date) : bool :=
  (year a =? year b) && (month a =? month b) && (day a =? day b).

Definition date_leb (a b : date) : bool :=
  (year a <? year b)
  || ((year a =? year b)
      && ((month a <? month b) || ((month a =? month b) && (day a <=? day b)))).

(** [d.isoformat()] *)
Definition isoformat (d : date) : string :=
  (PyStr.pad4 (year d) ++ "-" ++ PyStr.pad2 (month d) ++ "-" ++ PyStr.pad2 (day d))%string.

(** [str(n)] of a natural number *)
Definition decimal (n : Z) : string :=
  DecimalString.NilZero.string_of_uint (N.to_uint (Z.to_N n)).

(** [d.strftime("%Y-%m")]: the year as the C library prints it, in decimal
    and without padding (four digits from the year 1000 on), and the month
    on two digits. *)
Definition strftime_Ym (d : date) : string :=
  (decimal (year d) ++ "-" ++ PyStr.pad2 (month d))%string.

(* ------------------------------------------------------------------ *)
(** ** Helpers of [app.py] *)

(** [month_bounds(yyyy_mm)]: [None] when any step raises. *)
Definition month_bounds (yyyy_mm : string) : option (date * date) :=
  match map PyStr.int (PyStr.split "-"%char yyyy_mm) with
  | [Some y; Some m] =>
      match date_new y m 1 with
      | Some start =>
          match monthrange_ndays y m with
          | Some n =>
              match date_new y m n with
              | Some end_ => Some (start, end_)
              | None => None
              end
          | None => None
          end
      | None => None
      end
  | _ => None
  end.

(** [datetime.strptime(value, "%Y-%m-%d")] reads the text with the pattern
    [\d\d\d\d-(1[0-2]|0[1-9]|[1-9])-(3[0-1]|[1-2]\d|0[1-9]|[1-9]| [1-9])],
    the alternatives tried in this order, and refuses text left over. *)
Definition in_range (lo hi : Z) (c : ascii) : option Z :=
  match PyStr.digit_val c with
  | Some v => if (lo <=? v) && (v <=? hi) then Some v else None
  | None => None
  end.

Definition strptime_month (l : list ascii) : list (Z * list ascii) :=
  (match l with
   | "1"%char :: c :: r =>
       match in_range 0 2 c with Some v => [(10 + v, r)] | None => [] end
   | _ => []
   end)
  ++ (match l with
      | "0"%char :: c :: r =>
          match in_range 1 9 c with Some v => [(v, r)] | None => [] end
      | _ => []
      end)
  ++ (match l with
      | c :: r => match in_range 1 9 c with Some v => [(v, r)] | None => [] end
      | _ => []
      end).

Definition strptime_day (l : list ascii) : list (Z * list ascii) :=
  (match l with
   | "3"%char :: c :: r =>
       match in_range 0 1 c with Some v => [(30 + v, r)] | None => [] end
   | _ => []
   end)
  ++ (match l with
      | c1 :: c2 :: r =>
          match in_range 1 2 c1, in_range 0 9 c2 with
          | Some v1, Some v2 => [(10 * v1 + v2, r)]
          | _, _ => []
          end
      | _ => []
      end)
  ++ (match l with
      | "0"%char :: c :: r =>
          match in_range 1 9 c with Some v => [(v, r)] | None => [] end
      | _ => []
      end)
  ++ (match l with
      | c :: r => match in_range 1 9 c with Some v => [(v, r)] | None => [] end
      | _ => []
      end)
  ++ (match l with
      | " "%char :: c :: r =>
          match in_range 1 9 c with Some v => [(v, r)] | None => [] end
      | _ => []
      end).

(** The first alternative after which the rest of the pattern matches. *)
Fixpoint first_match {A B : Type} (k : A -> option B) (alts : list A) : option B :=
  match alts with
  | [] => None
  | a :: alts' => match k a with Some b => Some b | None => first_match k alts' end
  end.

(** [parse_date(value)]; [None] is the [ValueError] of [strptime]. *)
Definition parse_date (value : string) : option date :=
  match list_ascii_of_string value with
  | y1 :: y2 :: y3 :: y4 :: l =>
      match in_range 0 9 y1, in_range 0 9 y2, in_range 0 9 y3, in_range 0 9 y4 with
      | Some a, Some b, Some c, Some d =>
          let y := 1000 * a + 100 * b + 10 * c + d in
          let found :=
            match l with
            | "-"%char :: l1 =>
                first_match
                  (fun '(m, l2) =>
                     match l2 with
                     | "-"%char :: l3 =>
                         match strptime_day l3 with
                         | (dd, rest) :: _ => Some (m, dd, rest)
                         | [] => None
                         end
                     | _ => None
                     end)
                  (strptime_month l1)
            | _ => None
            end in
          match found with
          | Some (m, dd, []) => date_new y m dd
          | _ => None
          end
      | _, _, _, _ => None
      end
  | _ => None
  end.

(* ------------------------------------------------------------------ *)
(** ** Exceptions, flashed messages and the body of a [try] block *)

Inductive exception : Type :=
| ValueError (msg : string)   (* [raise ValueError(msg)] in a view *)
| ConversionError             (* the [ValueError] of [strptime], [date] or [float] *)
| IntegrityError.             (* the store refuses the flush of a commit *)

Inductive result (A : Type) : Type :=
| Ok (a : A)
| Raise (e : exception).
Arguments Ok {A} a.
Arguments Raise {A} e.

(** The text of a flashed message: a literal, or a prefix followed by
    [str(e)] of the exception caught. *)
Inductive message : Type :=
| Text (s : string)
| TextOf (prefix : string) (e : exception).

Record flash_msg : Type := mkflash { flash_text : message; flash_category : string }.

(** A computation inside [try]: the messages flashed so far (they stay
    flashed when an exception follows) and the value or the exception. *)
Definition view (A : Type) : Type := (list flash_msg * result A)%type.

Definition ret {A} (a : A) : view A := ([], Ok a).
Definition raise {A} (e : exception) : view A := ([], Raise e).
Definition flash (text : string) (category : string) : view unit :=
  ([mkflash (Text text) category], Ok tt).

Definition bind {A B} (m : view A) (k : A -> view B) : view B :=
  match m with
  | (w, Ok a) => let (w', r) := k a in (w ++ w', r)
  | (w, Raise e) => (w, Raise e)
  end.

(** The value of a conversion, [ConversionError] when it raises. *)
Definition conv {A} (o : option A) : view A :=
  match o with Some a => ret a | None => raise ConversionError end.

Definition lift {A} (r : result A) : view A := ([], r).

Notation "x <- m ;; k" := (bind m (fun x => k))
  (at level 61, m at next level, right associativity).
Notation "m ;;; k" := (bind m (fun _ => k))
  (at level 61, right associativity).

(* ------------------------------------------------------------------ *)
(** ** Models and the store *)

Module DailySale.
Record t : Type := mk
  { id : Z; sale_date : date; total_sales : Q; daily_profit : Q }.
End DailySale.

Module Expense.
Record t : Type := mk
  { id : Z; expense_date : date; description : string; amount : Q }.
End Expense.

(** The committed content of the two tables, rows in the order of their
    row identifiers. *)
Record database : Type := mkdb
  { daily_sales_table : list DailySale.t; expenses_table : list Expense.t }.

Definition empty_db : database := mkdb [] [].

(** The identifier the store gives a new row: one more than the largest
    in use, 1 in an empty table. *)
Definition next_id (ids : list Z) : Z := 1 + fold_right Z.max 0 ids.

(** [INSERT] into [daily_sales]; [sale_date] is [unique=True]. *)
Definition insert_sale (rows : list DailySale.t) (d : date) (ts dp : Q)
  : result (list DailySale.t) :=
  if existsb (fun r => date_eqb (DailySale.sale_date r) d) rows
  then Raise IntegrityError
  else Ok (rows ++ [DailySale.mk (next_id (map DailySale.id rows)) d ts dp]).

(** [UPDATE daily_sales SET total_sales, daily_profit WHERE id = i] *)
Definition update_sale_amounts (rows : list DailySale.t) (i : Z) (ts dp : Q)
  : list DailySale.t :=
  map (fun r => if DailySale.id r =? i
                then DailySale.mk (DailySale.id r) (DailySale.sale_date r) ts dp
                else r) rows.

(** [UPDATE daily_sales SET sale_date, total_sales, daily_profit WHERE id = i] *)
Definition update_sale (rows : list DailySale.t) (i : Z) (d : date) (ts dp : Q)
  : result (list DailySale.t) :=
  if existsb (fun r => date_eqb (DailySale.sale_date r) d
                       && negb (DailySale.id r =? i)) rows
  then Raise IntegrityError
  else Ok (map (fun r => if DailySale.id r =? i
                         then DailySale.mk (DailySale.id r) d ts dp
                         else r) rows).

Definition delete_sale_row (rows : list DailySale.t) (i : Z) : list DailySale.t :=
  filter (fun r => negb (DailySale.id r =? i)) rows.

Definition insert_expense (rows : list Expense.t) (d : date) (desc : string)
  (amt : Q) : list Expense.t :=
  rows ++ [Expense.mk (next_id (map Expense.id rows)) d desc amt].

Definition update_expense (rows : list Expense.t) (i : Z) (d : date)
  (desc : string) (amt : Q) : list Expense.t :=
  map (fun r => if Expense.id r =? i then Expense.mk (Expense.id r) d desc amt
                else r) rows.

Definition delete_expense_row (rows : list Expense.t) (i : Z) : list Expense.t :=
  filter (fun r => negb (Expense.id r =? i)) rows.

(** [Model.query.get(i)] *)
Definition get_sale (db : database) (i : Z) : option DailySale.t :=
  find (fun r => DailySale.id r =? i) (daily_sales_table db).

Definition get_expense (db : database) (i : Z) : option Expense.t :=
  find (fun r => Expense.id r =? i) (expenses_table db).

(** [column.between(start, end)] *)
Definition between (start end_ x : date) : bool :=
  date_leb start x && date_leb x end_.

(** [ORDER BY]: a stable insertion sort for the order [leb]. *)
Fixpoint insert_by {A : Type} (leb : A -> A -> bool) (x : A) (l : list A) : list A :=
  match l with
  | [] => [x]
  | y :: l' => if leb x y then x :: l else y :: insert_by leb x l'
  end.

Definition order_by {A : Type} (leb : A -> A -> bool) (l : list A) : list A :=
  fold_right (insert_by leb) [] l.

Definition date_ltb (a b : date) : bool := date_leb a b && negb (date_eqb a b).

(** [DailySale.sale_date.asc()] and [.desc()] *)
Definition sale_date_asc (a b : DailySale.t) : bool :=
  date_leb (DailySale.sale_date a) (DailySale.sale_date b).

Definition sale_date_desc (a b : DailySale.t) : bool :=
  date_leb (DailySale.sale_date b) (DailySale.sale_date a).

(** [Expense.expense_date.asc(), Expense.id.asc()] and both [.desc()] *)
Definition expense_asc (a b : Expense.t) : bool :=
  date_ltb (Expense.expense_date a) (Expense.expense_date b)
  || (date_eqb (Expense.expense_date a) (Expense.expense_date b)
      && (Expense.id a <=? Expense.id b)).

Definition expense_desc (a b : Expense.t) : bool :=
  date_ltb (Expense.expense_date b) (Expense.expense_date a)
  || (date_eqb (Expense.expense_date b) (Expense.expense_date a)
      && (Expense.id b <=? Expense.id a)).

(** [func.sum]: [NULL] over no row *)
Definition sql_sum (l : list Q) : option Q :=
  match l with
  | [] => None
  | x :: l' => Some (fold_left Qplus l' x)
  end.

(** [func.coalesce(v, d)] *)
Definition coalesce (v : option Q) (d : Q) : Q :=
  match v with Some x => x | None => d end.

(** [x < 0] on amounts *)
Definition Qltb (x y : Q) : bool := negb (Qle_bool y x).

(* ------------------------------------------------------------------ *)
(** ** Requests and responses *)

(** A request to a view: the method and, for a POST, the form. *)
Inductive request (F : Type) : Type :=
| GET
| POST (form : F).
Arguments GET {F}.
Arguments POST {F} form.

(** The form of the sale pages.  An amount field holds what [float] made of
    the text, [None] when [float] raises. *)
Record sale_form : Type := mksale_form
  { form_sale_date : string;
    form_total_sales : option Q;
    form_daily_profit : option Q }.

Record expense_form : Type := mkexpense_form
  { form_expense_date : string;
    form_description : string;
    form_amount : option Q }.

(** The context of [summary.html]. *)
Record summary_context : Type := mksummary
  { ctx_month : string;
    ctx_start : date;
    ctx_end : date;
    ctx_total_sales : Q;
    ctx_total_profit : Q;
    ctx_total_expenses : Q;
    ctx_net_profit : Q;
    ctx_sales_rows : list DailySale.t;
    ctx_expense_rows : list Expense.t }.

(** The content of the monthly close document, layout left out. *)
Record monthly_document : Type := mkdocument
  { doc_title : string;
    doc_month_line : string;
    doc_period_line : string;
    summary_data : list (list string);
    sales_data : list (list string);
    exp_data : list (list string) }.

Inductive response : Type :=
| Redirect (endpoint : string)
| SalesPage (rows : list DailySale.t)
| SaleEditPage (sale : DailySale.t)
| ExpensesPage (rows : list Expense.t)
| ExpenseEditPage (exp : Expense.t)
| SummaryPage (ctx : summary_context)
| CsvFile (filename : string) (header : list string) (rows : list (list string))
| PdfFile (filename : string) (doc : monthly_document)
| SendFile (path : string) (download_name : string)
| NotFound         (* [abort(404)] and [get_or_404] *)
| ServerError.     (* an exception that no view catches: the answer is 500 *)

(** What a request leaves: the response, the messages flashed and the
    committed store. *)
Record outcome : Type := mkoutcome
  { resp : response; flashed : list flash_msg; store : database }.

(** A carriage return or a line feed: the characters that the headers of a
    response refuse in a value. *)
Definition is_newline (c : ascii) : bool :=
  let n := Z.of_N (N_of_ascii c) in (n =? 10) || (n =? 13).

Definition has_newline (s : string) : bool :=
  existsb is_newline (list_ascii_of_string s).

(** The text of one line feed. *)
Definition line_feed : string := String "010"%char EmptyString.

(** [Response(data, mimetype=..., headers={"Content-Disposition":
    f'attachment; filename="{filename}"'})]: the constructor raises a
    [ValueError] when the value of the header holds a carriage return or a
    line feed; no view catches it and the request is answered 500.
    [file] is the response built otherwise. *)
Definition attachment (filename : string) (file : response) : response :=
  if has_newline filename then ServerError else file.

(** [csv_response(filename, header, rows)]: the file with its header line
    and its lines, the quoting of [csv.writer] left out. *)
Definition csv_response (filename : string) (header : list string)
  (rows : list (list string)) : response :=
  attachment filename (CsvFile filename header rows).

(** [login_required_simple(view_func)]: every view below is wrapped in it
    and runs for a session that has [is_admin] only. *)
Definition login_required_simple (view_func : database -> outcome)
  (is_admin : bool) (db : database) : outcome :=
  if negb is_admin then mkoutcome (Redirect "login") [] db else view_func db.

(* ------------------------------------------------------------------ *)
(** ** Sales views *)

Definition could_not (prefix : string) (e : exception) : flash_msg :=
  mkflash (TextOf prefix e) "error".

(** [sales()] behind [/sales] *)
Definition sales (req : request sale_form) (db : database) : outcome :=
  match req with
  | POST form =>
      let body : view (list DailySale.t) :=
        d <- conv (parse_date (form_sale_date form)) ;;
        total_sales <- conv (form_total_sales form) ;;
        daily_profit <- conv (form_daily_profit form) ;;
        (if Qltb total_sales 0 || Qltb daily_profit 0
         then raise (ValueError "Values must be non-negative.")
         else ret tt) ;;;
        match find (fun r => date_eqb (DailySale.sale_date r) d) (daily_sales_table db) with
        | Some existing =>
            flash ("Updated sale for " ++ isoformat d ++ ".")%string "info" ;;;
            ret (update_sale_amounts (daily_sales_table db) (DailySale.id existing)
                   total_sales daily_profit)
        | None =>
            flash ("Added sale for " ++ isoformat d ++ ".")%string "success" ;;;
            lift (insert_sale (daily_sales_table db) d total_sales daily_profit)
        end in
      match body with
      | (w, Ok rows) => mkoutcome (Redirect "sales") w (mkdb rows (expenses_table db))
      | (w, Raise e) =>
          mkoutcome (Redirect "sales") (w ++ [could_not "Could not save sale: " e]) db
      end
  | GET =>
      mkoutcome (SalesPage (firstn 90 (order_by sale_date_desc (daily_sales_table db)))) [] db
  end.

(** [edit_sale(sale_id)] behind [/sales/<sale_id>/edit] *)
Definition edit_sale (sale_id : Z) (req : request sale_form) (db : database)
  : outcome :=
  match get_sale db sale_id with
  | None => mkoutcome NotFound [] db
  | Some sale =>
      match req with
      | POST form =>
          let body : view (list DailySale.t) :=
            d <- conv (parse_date (form_sale_date form)) ;;
            total_sales <- conv (form_total_sales form) ;;
            daily_profit <- conv (form_daily_profit form) ;;
            (if Qltb total_sales 0 || Qltb daily_profit 0
             then raise (ValueError "Values must be non-negative.")
             else ret tt) ;;;
            (match find (fun r => date_eqb (DailySale.sale_date r) d
                                  && negb (DailySale.id r =? DailySale.id sale))
                     (daily_sales_table db) with
             | Some other =>
                 raise (ValueError "Another sale entry already exists for that date.")
             | None => ret tt
             end) ;;;
            rows <- lift (update_sale (daily_sales_table db) (DailySale.id sale) d
                            total_sales daily_profit) ;;
            flash "Sale updated." "success" ;;;
            ret rows in
          match body with
          | (w, Ok rows) => mkoutcome (Redirect "sales") w (mkdb rows (expenses_table db))
          | (w, Raise e) =>
              mkoutcome (SaleEditPage sale)
                (w ++ [could_not "Could not update sale: " e]) db
          end
      | GET => mkoutcome (SaleEditPage sale) [] db
      end
  end.

(** [delete_sale(sale_id)] behind [/sales/<sale_id>/delete] *)
Definition delete_sale (sale_id : Z) (db : database) : outcome :=
  match get_sale db sale_id with
  | None => mkoutcome NotFound [] db
  | Some sale =>
      mkoutcome (Redirect "sales") [mkflash (Text "Sale deleted.") "success"]
        (mkdb (delete_sale_row (daily_sales_table db) (DailySale.id sale)) (expenses_table db))
  end.

(* ------------------------------------------------------------------ *)
(** ** Expense views *)

(** [not desc] *)
Definition is_empty (s : string) : bool :=
  match s with EmptyString => true | String _ _ => false end.

(** [expenses()] behind [/expenses] *)
Definition expenses (req : request expense_form) (db : database) : outcome :=
  match req with
  | POST form =>
      let body : view (list Expense.t) :=
        d <- conv (parse_date (form_expense_date form)) ;;
        let desc := PyStr.strip (form_description form) in
        amt <- conv (form_amount form) ;;
        (if is_empty desc then raise (ValueError "Description is required.")
         else ret tt) ;;;
        (if Qltb amt 0 then raise (ValueError "Amount must be non-negative.")
         else ret tt) ;;;
        let rows := insert_expense (expenses_table db) d desc amt in
        flash "Added expense." "success" ;;;
        ret rows in
      match body with
      | (w, Ok rows) => mkoutcome (Redirect "expenses") w (mkdb (daily_sales_table db) rows)
      | (w, Raise e) =>
          mkoutcome (Redirect "expenses")
            (w ++ [could_not "Could not save expense: " e]) db
      end
  | GET =>
      mkoutcome (ExpensesPage (firstn 150 (order_by expense_desc (expenses_table db)))) [] db
  end.

(** [edit_expense(expense_id)] behind [/expenses/<expense_id>/edit] *)
Definition edit_expense (expense_id : Z) (req : request expense_form)
  (db : database) : outcome :=
  match get_expense db expense_id with
  | None => mkoutcome NotFound [] db
  | Some exp =>
      match req with
      | POST form =>
          let body : view (list Expense.t) :=
            d <- conv (parse_date (form_expense_date form)) ;;
            let desc := PyStr.strip (form_description form) in
            amt <- conv (form_amount form) ;;
            (if is_empty desc then raise (ValueError "Description is required.")
             else ret tt) ;;;
            (if Qltb amt 0 then raise (ValueError "Amount must be non-negative.")
             else ret tt) ;;;
            let rows := update_expense (expenses_table db) (Expense.id exp) d desc amt in
            flash "Expense updated." "success" ;;;
            ret rows in
          match body with
          | (w, Ok rows) =>
              mkoutcome (Redirect "expenses") w (mkdb (daily_sales_table db) rows)
          | (w, Raise e) =>
              mkoutcome (ExpenseEditPage exp)
                (w ++ [could_not "Could not update expense: " e]) db
          end
      | GET => mkoutcome (ExpenseEditPage exp) [] db
      end
  end.

(** [delete_expense(expense_id)] behind [/expenses/<expense_id>/delete] *)
Definition delete_expense (expense_id : Z) (db : database) : outcome :=
  match get_expense db expense_id with
  | None => mkoutcome NotFound [] db
  | Some exp =>
      mkoutcome (Redirect "expenses") [mkflash (Text "Expense deleted.") "success"]
        (mkdb (daily_sales_table db) (delete_expense_row (expenses_table db) (Expense.id exp)))
  end.

(* ------------------------------------------------------------------ *)
(** ** Formatting *)

(** The nearest integer, a tie going to the even one. *)
Definition round_half_even (x : Q) : Z :=
  let f := Qfloor x in
  match Qcompare (x - inject_Z f) (1 # 2) with
  | Lt => f
  | Gt => f + 1
  | Eq => if Z.even f then f else f + 1
  end.

(** [f"{x:.2f}"] *)
Definition format_2f (x : Q) : string :=
  let n := round_half_even (Qabs x * inject_Z 100) in
  ((if Qltb x 0 then "-" else "")
   ++ decimal (n / 100) ++ "." ++ PyStr.pad2 (n mod 100))%string.

(** [d.toordinal()] of [datetime]: days since 0001-01-01, that day being 1. *)
Definition days_before_year (y : Z) : Z :=
  (y - 1) * 365 + (y - 1) / 4 - (y - 1) / 100 + (y - 1) / 400.

Definition days_before_month (y m : Z) : Z :=
  nth (Z.to_nat m) [-1; 0; 31; 59; 90; 120; 151; 181; 212; 243; 273; 304; 334] 0
  + (if (2 <? m) && isleap y then 1 else 0).

Definition toordinal (d : date) : Z :=
  days_before_year (year d) + days_before_month (year d) (month d) + day d.

(** [d.weekday()], Monday being 0 *)
Definition weekday (d : date) : Z := (toordinal d + 6) mod 7.

(** [DailySale.day_name]: [sale_date.strftime("%A")] in the C locale *)
Definition day_name (r : DailySale.t) : string :=
  nth (Z.to_nat (weekday (DailySale.sale_date r)))
    ["Monday"; "Tuesday"; "Wednesday"; "Thursday"; "Friday"; "Saturday"; "Sunday"]
    "".

(* ------------------------------------------------------------------ *)
(** ** Summary, exports and the monthly close *)

(** The three aggregate queries and the two listings, which [summary],
    [export_summary_csv] and [monthly_close_pdf] each spell out. *)
Definition query_total_sales (start end_ : date) (db : database) : Q :=
  coalesce
    (sql_sum (map DailySale.total_sales
                (filter (fun r => between start end_ (DailySale.sale_date r))
                   (daily_sales_table db))))
    0.

Definition query_total_profit (start end_ : date) (db : database) : Q :=
  coalesce
    (sql_sum (map DailySale.daily_profit
                (filter (fun r => between start end_ (DailySale.sale_date r))
                   (daily_sales_table db))))
    0.

Definition query_total_expenses (start end_ : date) (db : database) : Q :=
  coalesce
    (sql_sum (map Expense.amount
                (filter (fun r => between start end_ (Expense.expense_date r))
                   (expenses_table db))))
    0.

Definition query_sales_rows (start end_ : date) (db : database) : list DailySale.t :=
  order_by sale_date_asc
    (filter (fun r => between start end_ (DailySale.sale_date r))
       (daily_sales_table db)).

Definition query_expense_rows (start end_ : date) (db : database) : list Expense.t :=
  order_by expense_asc
    (filter (fun r => between start end_ (Expense.expense_date r))
       (expenses_table db)).

Definition invalid_month_notice : flash_msg :=
  mkflash (Text "Invalid month selected; showing current month instead.") "info".

(** [summary()] behind [/summary]; [month_arg] is [request.args.get("month")]
    and [today] is [date.today()]. *)
Definition summary (month_arg : option string) (today : date) (db : database)
  : outcome :=
  let default_month := strftime_Ym today in
  let month := match month_arg with Some m => m | None => default_month end in
  let resolved :=
    match month_bounds month with
    | Some (start, end_) => Some (month, start, end_, [])
    | None =>
        match month_bounds default_month with
        | Some (start, end_) => Some (default_month, start, end_, [invalid_month_notice])
        | None => None
        end
    end in
  match resolved with
  | None => mkoutcome ServerError [] db
  | Some (month, start, end_, w) =>
      let total_sales := query_total_sales start end_ db in
      let total_profit := query_total_profit start end_ db in
      let total_expenses := query_total_expenses start end_ db in
      let net_profit := (total_profit - total_expenses)%Q in
      let sales_rows := query_sales_rows start end_ db in
      let expense_rows := query_expense_rows start end_ db in
      mkoutcome
        (SummaryPage
           (mksummary month start end_ total_sales total_profit total_expenses
              net_profit sales_rows expense_rows))
        w db
  end.

(** [export_sales_csv()] behind [/export/sales.csv] *)
Definition export_sales_csv (db : database) : outcome :=
  let rows := order_by sale_date_asc (daily_sales_table db) in
  let data :=
    map (fun r => [isoformat (DailySale.sale_date r); day_name r;
                   format_2f (DailySale.total_sales r);
                   format_2f (DailySale.daily_profit r)]) rows in
  mkoutcome
    (csv_response "daily_sales.csv" ["date"; "day"; "total_sales"; "daily_profit"] data)
    [] db.

(** [export_expenses_csv()] behind [/export/expenses.csv] *)
Definition export_expenses_csv_rows (db : database) : list Expense.t :=
  order_by expense_asc (expenses_table db).

Definition export_expenses_csv (db : database) : outcome :=
  let rows := export_expenses_csv_rows db in
  let data :=
    map (fun r => [isoformat (Expense.expense_date r); Expense.description r;
                   format_2f (Expense.amount r)]) rows in
  mkoutcome (csv_response "expenses.csv" ["date"; "description"; "amount"] data) [] db.


(** [monthly_close_pdf()] behind [/report/monthly.pdf] *)
Definition monthly_close_pdf (month_arg : option string) (today : date)
  (db : database) : outcome :=
  let default_month := strftime_Ym today in
  let month := match month_arg with Some m => m | None => default_month end in
  let resolved :=
    match month_bounds month with
    | Some (start, end_) => Some (month, start, end_)
    | None =>
        match month_bounds default_month with
        | Some (start, end_) => Some (default_month, start, end_)
        | None => None
        end
    end in
  match resolved with
  | None => mkoutcome ServerError [] db
  | Some (month, start, end_) =>
      let total_sales := query_total_sales start end_ db in
      let total_profit := query_total_profit start end_ db in
      let total_expenses := query_total_expenses start end_ db in
      let net_profit := (total_profit - total_expenses)%Q in
      let sales_rows := query_sales_rows start end_ db in
      let expense_rows := query_expense_rows start end_ db in
      let summary_data :=
        [["Total Sales"; format_2f total_sales];
         ["Total Expenses"; format_2f total_expenses];
         ["Total Daily Profit"; format_2f total_profit];
         ["Net Profit"; format_2f net_profit]] in
      let sales_data :=
        ["Date"; "Day"; "Total Sales"; "Daily Profit"]
        :: map (fun r => [isoformat (DailySale.sale_date r); day_name r;
                          format_2f (DailySale.total_sales r);
                          format_2f (DailySale.daily_profit r)]) sales_rows in
      let sales_data :=
        if (Z.of_nat (List.length sales_data) =? 1)
        then sales_data ++ [["-"; "-"; "0.00"; "0.00"]] else sales_data in
      let exp_data :=
        ["Date"; "Description"; "Amount"]
        :: map (fun e => [isoformat (Expense.expense_date e); Expense.description e;
                          format_2f (Expense.amount e)]) expense_rows in
      let exp_data :=
        if (Z.of_nat (List.length exp_data) =? 1)
        then exp_data ++ [["-"; "-"; "0.00"]] else exp_data in
      let filename := ("monthly_close_" ++ month ++ ".pdf")%string in
      mkoutcome
        (attachment filename
           (PdfFile filename
              (mkdocument ("Monthly Close - " ++ month)%string
                 ("<b>Month:</b> " ++ month)%string
                 ("<b>Period:</b> " ++ isoformat start ++ " to " ++ isoformat end_)%string
                 summary_data sales_data exp_data)))
        [] db
  end.

(* ------------------------------------------------------------------ *)
(** ** The data file and its backup *)

(** What the process sees of its surroundings: the variable [DATA_DIR] of the
    environment, the directory of [app.py], and the paths that exist. *)
Record environment : Type := mkenv
  { env_DATA_DIR : option string;
    BASE_DIR : string;
    existing_paths : list string }.

Definition starts_with_sep (s : string) : bool :=
  match s with String "/"%char _ => true | _ => false end.

Fixpoint ends_with_sep (s : string) : bool :=
  match s with
  | EmptyString => false
  | String c EmptyString => Ascii.eqb c "/"%char
  | String _ s' => ends_with_sep s'
  end.

(** [os.path.join(a, b)] of [posixpath] *)
Definition path_join (a b : string) : string :=
  if starts_with_sep b then b
  else if is_empty a || ends_with_sep a then (a ++ b)%string
  else (a ++ "/" ++ b)%string.

(** [os.environ.get("DATA_DIR", os.path.join(BASE_DIR, "data"))] *)
Definition DATA_DIR (env : environment) : string :=
  match env_DATA_DIR env with
  | Some d => d
  | None => path_join (BASE_DIR env) "data"
  end.

Definition DB_PATH (env : environment) : string :=
  path_join (DATA_DIR env) "barbook.db".

(** [os.path.exists] *)
Definition path_exists (env : environment) (p : string) : bool :=
  existsb (String.eqb p) (existing_paths env).

(** The start of the module: [os.makedirs(DATA_DIR, exist_ok=True)] and
    [db.create_all()], which leaves the data file at [DB_PATH].  [BASE_DIR]
    is an absolute path ([os.path.abspath]) and so is the default of
    [DATA_DIR].  The result is [None] for a [DATA_DIR] of the environment
    that is not absolute: the engine resolves the path of such a URI
    against a folder of its own, and whether the start succeeds and where
    the file lies is not modelled. *)
Definition startup (env : environment) : option environment :=
  let started :=
    mkenv (env_DATA_DIR env) (BASE_DIR env)
      (DB_PATH env :: DATA_DIR env :: existing_paths env) in
  match env_DATA_DIR env with
  | None => Some started
  | Some d => if starts_with_sep d then Some started else None
  end.

(** [backup_db()] behind [/backup/db] *)
Definition backup_db (env : environment) : response :=
  let db_path := path_join (BASE_DIR env) "barbook.db" in
  if negb (path_exists env db_path) then NotFound
  else SendFile db_path "barbook_backup.db".

(* ------------------------------------------------------------------ *)
(** ** Reachable stores *)

(** One request that can write to the store. *)
Inductive operation : Type :=
| OpSales (form : sale_form)
| OpEditSale (sale_id : Z) (form : sale_form)
| OpDeleteSale (sale_id : Z)
| OpExpenses (form : expense_form)
| OpEditExpense (expense_id : Z) (form : expense_form)
| OpDeleteExpense (expense_id : Z).

Definition run_op (op : operation) (db : database) : outcome :=
  match op with
  | OpSales form => sales (POST form) db
  | OpEditSale i form => edit_sale i (POST form) db
  | OpDeleteSale i => delete_sale i db
  | OpExpenses form => expenses (POST form) db
  | OpEditExpense i form => edit_expense i (POST form) db
  | OpDeleteExpense i => delete_expense i db
  end.

(** The store after a sequence of requests. *)
Definition run_ops (ops : list operation) (db : database) : database :=
  fold_left (fun db op => store (run_op op db)) ops db.

(* ------------------------------------------------------------------ *)
(** ** Notions the properties are stated with *)

(** The Gregorian length of a month: thirty days for April, June, September
    and November, twenty-eight for February and twenty-nine in a leap year
    (a year divisible by 4 and not by 100, or divisible by 400), thirty-one
    otherwise. *)
Definition gregorian_leap (y : Z) : bool :=
  ((y mod 4 =? 0) && negb (y mod 100 =? 0)) || (y mod 400 =? 0).

Definition last_day_of_month (y m : Z) : Z :=
  if (m =? 4) || (m =? 6) || (m =? 9) || (m =? 11) then 30
  else if m =? 2 then (if gregorian_leap y then 29 else 28)
  else 31.

(** The token [YYYY-MM] of year [y] and month [m]. *)
Definition month_token (y m : Z) : string :=
  (PyStr.pad4 y ++ "-" ++ PyStr.pad2 m)%string.

(** A text of the form [YYYY-MM]: four digits, a dash, two digits. *)
Definition is_digit (c : ascii) : bool :=
  match PyStr.digit_val c with Some _ => true | None => false end.

Definition is_yyyy_mm (s : string) : bool :=
  match list_ascii_of_string s with
  | [a; b; c; d; sep; e; f] =>
      is_digit a && is_digit b && is_digit c && is_digit d
      && Ascii.eqb sep "-"%char && is_digit e && is_digit f
  | _ => false
  end.


(** The month a view resolves its [month] argument to, with the bounds. *)
Definition resolved_month (month_arg : option string) (today : date)
  : option (string * date * date) :=
  let default_month := strftime_Ym today in
  let month := match month_arg with Some m => m | None => default_month end in
  match month_bounds month with
  | Some (start, end_) => Some (month, start, end_)
  | None =>
      match month_bounds default_month with
      | Some (start, end_) => Some (default_month, start, end_)
      | None => None
      end
  end.

(** At most one row per [sale_date]. *)
Definition one_row_per_date (rows : list DailySale.t) : Prop :=
  NoDup (map DailySale.sale_date rows).

(** The row of date [d] that a query by date finds. *)
Definition sale_of_date (d : date) (rows : list DailySale.t) : option DailySale.t :=
  find (fun r => date_eqb (DailySale.sale_date r) d) rows.

(** The posts of [forms] to [/sales], one after the other. *)
Definition post_sales (forms : list sale_form) (db : database) : database :=
  fold_left (fun db form => store (sales (POST form) db)) forms db.

(** The exact sum of a list of amounts. *)
Definition total (l : list Q) : Q := fold_right Qplus 0%Q l.

(** An exception of the validation kind: a [ValueError]. *)
Definition validation_error (e : exception) : Prop :=
  match e with
  | ValueError _ | ConversionError => True
  | IntegrityError => False
  end.

(** A request refused: the store is as before and the one message flashed
    reports a validation error under [prefix]. *)
Definition rejected (prefix : string) (db : database) (out : outcome) : Prop :=
  store out = db
  /\ exists e, validation_error e /\ flashed out = [could_not prefix e].

(** Orders on dates and on expense rows. *)
Definition date_lt (a b : date) : Prop :=
  year a < year b
  \/ (year a = year b
      /\ (month a < month b \/ (month a = month b /\ day a < day b))).

Definition expense_before (a b : Expense.t) : Prop :=
  date_lt (Expense.expense_date a) (Expense.expense_date b)
  \/ (Expense.expense_date a = Expense.expense_date b
      /\ Expense.id a <= Expense.id b).

Definition expense_after (a b : Expense.t) : Prop := expense_before b a.

(** A text without white space at either end. *)
Definition no_space_at_ends (s : string) : Prop :=
  match list_ascii_of_string s with
  | [] => True
  | c :: l => PyStr.is_space c = false /\ PyStr.is_space (last l c) = false
  end.

(** A description as the expense views store it. *)
Definition trimmed (s : string) : Prop := s <> "" /\ no_space_at_ends s.

Definition trimmed_rows (rows : list Expense.t) : Prop :=
  Forall (fun e => trimmed (Expense.description e)) rows.

(** The line of a sale in the CSV export and in the monthly close. *)
Definition sale_line (r : DailySale.t) : list string :=
  [isoformat (DailySale.sale_date r); day_name r;
   format_2f (DailySale.total_sales r); format_2f (DailySale.daily_profit r)].

(** The line of an expense in the CSV export and in the monthly close. *)
Definition expense_csv_line (r : Expense.t) : list string :=
  [isoformat (Expense.expense_date r); Expense.description r;
   format_2f (Expense.amount r)].

(** What the schema keeps true of a store: identifiers are primary keys
    and [sale_date] is unique. *)
Definition store_ok (db : database) : Prop :=
  NoDup (map DailySale.id (daily_sales_table db))
  /\ NoDup (map Expense.id (expenses_table db))
  /\ one_row_per_date (daily_sales_table db).

(** The order of a boolean comparison. *)
Definition ordered_by {A : Type} (leb : A -> A -> bool) (a b : A) : Prop :=
  leb a b = true.

(* ------------------------------------------------------------------ *)
(** ** Settings, session and login *)

(** The three settings read from the environment at the start. *)
Record settings : Type := mksettings
  { ADMIN_USERNAME : string; ADMIN_PASSWORD : string; SECRET_KEY : string }.

(** [not v] for the result of [os.getenv]: unset or empty. *)
Definition missing (v : option string) : bool :=
  match v with None => true | Some s => is_empty s end.

(** The start of the module on [BAR_ADMIN_USERNAME], [BAR_ADMIN_PASSWORD]
    and [BAR_SECRET_KEY]: the settings, or the text of the [RuntimeError]. *)
Definition load_settings (username password secret : option string)
  : string + settings :=
  if missing username || missing password
  then inl "Missing BAR_ADMIN_USERNAME or BAR_ADMIN_PASSWORD in .env file"
  else if missing secret then inl "Missing BAR_SECRET_KEY in .env file"
  else inr (mksettings (match username with Some s => s | None => "" end)
              (match password with Some s => s | None => "" end)
              (match secret with Some s => s | None => "" end)).

(** The form of the login page, a field absent being [None]. *)
Record login_form : Type := mklogin_form
  { form_username : option string; form_password : option string }.

(** Where the session views send the browser. *)
Inductive auth_response : Type :=
| ToEndpoint (endpoint : string)   (* [redirect(url_for(endpoint))] *)
| ToUrl (url : string)             (* [redirect(url)] *)
| RefusedTarget (url : string)     (* [redirect(url)] raises: the answer is 500 *)
| LoginPage.                       (* [render_template("login.html")] *)

(** What a session view leaves: the response, the messages flashed and
    whether the session has [is_admin]. *)
Record auth_outcome : Type := mkauth
  { auth_resp : auth_response; auth_flashed : list flash_msg; is_admin : bool }.

(** [redirect(url)] for a target taken from the request: the target
    becomes the value of the header [Location], which is refused, as the
    name of a file is, when it holds a carriage return or a line feed. *)
Definition redirect_to (url : string) : auth_response :=
  if has_newline url then RefusedTarget url else ToUrl url.

(** [login()] behind [/login]; [admin] is [session.get("is_admin")] and
    [next] is [request.args.get("next")].  The session is written before
    [redirect] is called and is kept when the call raises. *)
Definition login (cfg : settings) (admin : bool) (req : request login_form)
  (next : option string) : auth_outcome :=
  if admin then mkauth (ToEndpoint "summary") [] admin
  else
    match req with
    | POST form =>
        let username :=
          PyStr.strip (match form_username form with Some s => s | None => "" end) in
        let password := match form_password form with Some s => s | None => "" end in
        if String.eqb username (ADMIN_USERNAME cfg)
           && String.eqb password (ADMIN_PASSWORD cfg)
        then
          mkauth
            (match next with
             | Some url =>
                 if is_empty url then ToEndpoint "summary" else redirect_to url
             | None => ToEndpoint "summary"
             end)
            [mkflash (Text "Logged in successfully.") "success"] true
        else
          mkauth LoginPage [mkflash (Text "Invalid username or password.") "error"]
            admin
    | GET => mkauth LoginPage [] admin
    end.

(** [logout()] behind [/logout] *)
Definition logout : auth_outcome :=
  mkauth (ToEndpoint "login") [mkflash (Text "Logged out.") "info"] false.

(** [home()] behind [/] *)
Definition home (db : database) : outcome := mkoutcome (Redirect "summary") [] db.

(* ------------------------------------------------------------------ *)
(** ** Further notions *)

(** A date of the month of [s]. *)
Definition same_month (s d : date) : Prop :=
  year d = year s /\ month d = month s.

(** A date not after another. *)
Definition date_le (a b : date) : Prop := date_lt a b \/ a = b.

(** Sale rows by date. *)
Definition sale_not_after (a b : DailySale.t) : Prop :=
  date_le (DailySale.sale_date a) (DailySale.sale_date b).

Definition sale_not_before (a b : DailySale.t) : Prop := sale_not_after b a.

(** Rows as the views write them: dates of the calendar and amounts that
    are not negative. *)
Definition sale_row_ok (r : DailySale.t) : Prop :=
  valid_date (DailySale.sale_date r)
  /\ (0 <= DailySale.total_sales r)%Q /\ (0 <= DailySale.daily_profit r)%Q.

Definition expense_row_ok (e : Expense.t) : Prop :=
  valid_date (Expense.expense_date e) /\ (0 <= Expense.amount e)%Q.

Definition rows_ok (db : database) : Prop :=
  Forall sale_row_ok (daily_sales_table db)
  /\ Forall expense_row_ok (expenses_table db).

(** A request that carries the credentials of the administrator: a POST
    whose username, white space at the ends apart, and whose password are
    those of the settings. *)
Definition credentials_ok (cfg : settings) (req : request login_form) : Prop :=
  exists form,
    req = POST form
    /\ PyStr.strip (match form_username form with Some s => s | None => "" end)
       = ADMIN_USERNAME cfg
    /\ match form_password form with Some s => s | None => "" end
       = ADMIN_PASSWORD cfg.

(** The step of [parse_date] after the four digits of the year: the month,
    the dash and the day read from [l]. *)
Definition month_and_day (l : list ascii) : option (Z * Z * list ascii) :=
  match l with
  | "-"%char :: l1 =>
      first_match
        (fun '(m, l2) =>
           match l2 with
           | "-"%char :: l3 =>
               match strptime_day l3 with
               | (dd, rest) :: _ => Some (m, dd, rest)
               | [] => None
               end
           | _ => None
           end)
        (strptime_month l1)
  | _ => None
  end.

(* ------------------------------------------------------------------ *)
(** ** Proof steps *)

(** Case analysis on the first [match] of the goal. *)
Ltac break_match :=
  match goal with
  | |- context [match ?x with _ => _ end] => destruct x eqn:?
  end.

(** The twelve cases of a month [m] in 1..12. *)
Ltac month_cases m H :=
  assert (m = 1 \/ m = 2 \/ m = 3 \/ m = 4 \/ m = 5 \/ m = 6 \/ m = 7
          \/ m = 8 \/ m = 9 \/ m = 10 \/ m = 11 \/ m = 12) as H by lia;
  repeat (destruct H as [-> | H]); [ .. | subst m].

(** The thirty-one cases of a day [d] in 1..31. *)
Ltac day_cases d H :=
  assert (d = 1 \/ d = 2 \/ d = 3 \/ d = 4 \/ d = 5 \/ d = 6 \/ d = 7
          \/ d = 8 \/ d = 9 \/ d = 10 \/ d = 11 \/ d = 12 \/ d = 13 \/ d = 14
          \/ d = 15 \/ d = 16 \/ d = 17 \/ d = 18 \/ d = 19 \/ d = 20
          \/ d = 21 \/ d = 22 \/ d = 23 \/ d = 24 \/ d = 25 \/ d = 26
          \/ d = 27 \/ d = 28 \/ d = 29 \/ d = 30 \/ d = 31) as H by lia;
  repeat (destruct H as [-> | H]); [ .. | subst d].

(* ================================================================== *)
(** * Properties *)

(* ------------------------------------------------------------------ *)
(** ** The model on examples *)

Example month_bounds_loose_text :
  month_bounds " +2_024-2" = Some (mkdate 2024 2 1, mkdate 2024 2 29).
Proof. reflexivity. Qed.

Example month_bounds_refused :
  month_bounds "2024-13" = None /\ month_bounds "2024" = None
  /\ month_bounds "0000-01" = None /\ month_bounds "2024-02-01" = None
  /\ month_bounds "" = None /\ month_bounds "abcd-ef" = None.
Proof. repeat split; reflexivity. Qed.

Example int_examples :
  PyStr.int " +2_024" = Some 2024 /\ PyStr.int "2__024" = None
  /\ PyStr.int "" = None /\ PyStr.int "-0" = Some 0
  /\ PyStr.int (string_of_list_ascii (repeat "0"%char 4300)) = Some 0
  /\ PyStr.int (string_of_list_ascii (repeat "0"%char 4301)) = None.
Proof. repeat split; vm_compute; reflexivity. Qed.

Example strftime_Ym_examples :
  strftime_Ym (mkdate 2026 11 4) = "2026-11"
  /\ strftime_Ym (mkdate 999 5 31) = "999-05"
  /\ isoformat (mkdate 999 5 31) = "0999-05-31"
  /\ month_bounds "999-05" = Some (mkdate 999 5 1, mkdate 999 5 31).
Proof. repeat split; reflexivity. Qed.

Example header_refused :
  has_newline ("summary_" ++ "2024-02" ++ line_feed ++ ".csv") = true
  /\ month_bounds ("2024-02" ++ line_feed)
     = Some (mkdate 2024 2 1, mkdate 2024 2 29)
  /\ csv_response ("summary_" ++ "2024-02" ++ line_feed ++ ".csv") [] []
     = ServerError
  /\ csv_response "expenses.csv" [] [] = CsvFile "expenses.csv" [] [].
Proof. repeat split; reflexivity. Qed.

Example parse_date_examples :
  parse_date "2024-02-29" = Some (mkdate 2024 2 29)
  /\ parse_date "2023-02-29" = None
  /\ parse_date "2024-2-9" = Some (mkdate 2024 2 9)
  /\ parse_date "2024-12-311" = None
  /\ parse_date "24-12-31" = None.
Proof. repeat split; reflexivity. Qed.

Example format_2f_examples :
  format_2f 0 = "0.00" /\ format_2f (1 # 8) = "0.12" /\ format_2f (3 # 8) = "0.38"
  /\ format_2f (12345 # 10) = "1234.50" /\ format_2f (-7 # 2) = "-3.50".
Proof. repeat split; reflexivity. Qed.

Example day_name_example :
  day_name (DailySale.mk 1 (mkdate 2024 2 29) 0 0) = "Thursday".
Proof. reflexivity. Qed.

Example strip_example : PyStr.strip "  ice and limes " = "ice and limes".
Proof. reflexivity. Qed.

(* ------------------------------------------------------------------ *)
(** ** Digits and integer literals *)

Section Digits.

Lemma digit_val_bounds (c : ascii) (d : Z) :
  PyStr.digit_val c = Some d ->
  0 <= d <= 9 /\ Z.of_N (N_of_ascii c) = 48 + d.
Proof.
  unfold PyStr.digit_val. generalize (Z.of_N (N_of_ascii c)). intros n.
  destruct (Z.leb_spec 48 n); destruct (Z.leb_spec n 57); cbv [andb];
    try discriminate.
  intros [= <-]. lia.
Qed.

Lemma digit_not_space (c : ascii) (d : Z) :
  PyStr.digit_val c = Some d -> PyStr.is_int_space c = false.
Proof.
  intros H. apply digit_val_bounds in H. destruct H as [Hd Hn].
  unfold PyStr.is_int_space. rewrite Hn. cbv zeta.
  repeat match goal with
         | |- context [?a <=? ?b] => destruct (Z.leb_spec a b); try lia
         | |- context [?a =? ?b] => destruct (Z.eqb_spec a b); try lia
         end; reflexivity.
Qed.

Lemma digit_not_char (c k : ascii) (d : Z) :
  PyStr.digit_val c = Some d -> PyStr.digit_val k = None -> Ascii.eqb c k = false.
Proof.
  intros Hc Hk. destruct (Ascii.eqb_spec c k) as [-> | ]; congruence.
Qed.

Lemma digit_val_digit_char (d : Z) :
  0 <= d <= 9 -> PyStr.digit_val (PyStr.digit_char d) = Some d.
Proof.
  intros H.
  assert (d = 0 \/ d = 1 \/ d = 2 \/ d = 3 \/ d = 4 \/ d = 5 \/ d = 6
          \/ d = 7 \/ d = 8 \/ d = 9) as Hd by lia.
  repeat (destruct Hd as [-> | Hd]; [reflexivity | ]). subst d. reflexivity.
Qed.

Lemma strip_chars_digits4 (sp : ascii -> bool) (c1 c2 c3 c4 : ascii) :
  sp c1 = false -> sp c4 = false ->
  PyStr.strip_chars sp [c1; c2; c3; c4] = [c1; c2; c3; c4].
Proof.
  intros H1 H4. unfold PyStr.strip_chars, PyStr.rstrip_chars.
  simpl. rewrite H1. simpl. rewrite H4. reflexivity.
Qed.

Lemma strip_chars_digits2 (sp : ascii -> bool) (c1 c2 : ascii) :
  sp c1 = false -> sp c2 = false ->
  PyStr.strip_chars sp [c1; c2] = [c1; c2].
Proof.
  intros H1 H2. unfold PyStr.strip_chars, PyStr.rstrip_chars.
  simpl. rewrite H1. simpl. rewrite H2. reflexivity.
Qed.

Lemma int_digits4 (c1 c2 c3 c4 : ascii) (d1 d2 d3 d4 : Z) :
  PyStr.digit_val c1 = Some d1 -> PyStr.digit_val c2 = Some d2 ->
  PyStr.digit_val c3 = Some d3 -> PyStr.digit_val c4 = Some d4 ->
  PyStr.int (string_of_list_ascii [c1; c2; c3; c4])
  = Some (1000 * d1 + 100 * d2 + 10 * d3 + d4).
Proof.
  intros H1 H2 H3 H4. unfold PyStr.int.
  rewrite list_ascii_of_string_of_list_ascii.
  rewrite strip_chars_digits4 by eauto using digit_not_space.
  unfold PyStr.count_digits. cbn [filter]. rewrite H1, H2, H3, H4.
  cbn [List.length]. change (PyStr.max_str_digits <? Z.of_nat 4) with false.
  cbv iota.
  rewrite (digit_not_char c1 "+" d1), (digit_not_char c1 "-" d1) by easy.
  cbn [PyStr.digits_value]. rewrite H1, H2, H3, H4. f_equal; lia.
Qed.

Lemma int_digits2 (c1 c2 : ascii) (d1 d2 : Z) :
  PyStr.digit_val c1 = Some d1 -> PyStr.digit_val c2 = Some d2 ->
  PyStr.int (string_of_list_ascii [c1; c2]) = Some (10 * d1 + d2).
Proof.
  intros H1 H2. unfold PyStr.int.
  rewrite list_ascii_of_string_of_list_ascii.
  rewrite strip_chars_digits2 by eauto using digit_not_space.
  unfold PyStr.count_digits. cbn [filter]. rewrite H1, H2.
  cbn [List.length]. change (PyStr.max_str_digits <? Z.of_nat 2) with false.
  cbv iota.
  rewrite (digit_not_char c1 "+" d1), (digit_not_char c1 "-" d1) by easy.
  cbn [PyStr.digits_value]. rewrite H1, H2. f_equal; lia.
Qed.

Lemma split_token (c1 c2 c3 c4 c5 c6 : ascii) (d1 d2 d3 d4 d5 d6 : Z) :
  PyStr.digit_val c1 = Some d1 -> PyStr.digit_val c2 = Some d2 ->
  PyStr.digit_val c3 = Some d3 -> PyStr.digit_val c4 = Some d4 ->
  PyStr.digit_val c5 = Some d5 -> PyStr.digit_val c6 = Some d6 ->
  PyStr.split "-"
    (string_of_list_ascii [c1; c2; c3; c4; "-"%char; c5; c6])
  = [string_of_list_ascii [c1; c2; c3; c4]; string_of_list_ascii [c5; c6]].
Proof.
  intros H1 H2 H3 H4 H5 H6. unfold PyStr.split.
  rewrite list_ascii_of_string_of_list_ascii.
  cbn [PyStr.split_chars].
  rewrite (digit_not_char c1 "-" d1), (digit_not_char c2 "-" d2),
    (digit_not_char c3 "-" d3), (digit_not_char c4 "-" d4),
    (digit_not_char c5 "-" d5), (digit_not_char c6 "-" d6) by easy.
  reflexivity.
Qed.

End Digits.

(* ------------------------------------------------------------------ *)
(** ** The calendar and [month_bounds] *)

Section Calendar.

Lemma isleap_gregorian (y : Z) : isleap y = gregorian_leap y.
Proof.
  unfold isleap, gregorian_leap.
  destruct (Z.eqb_spec (y mod 4) 0) as [H4 | H4];
    destruct (Z.eqb_spec (y mod 100) 0) as [H100 | H100];
    destruct (Z.eqb_spec (y mod 400) 0) as [H400 | H400];
    try reflexivity; exfalso; Z.div_mod_to_equations; lia.
Qed.

Lemma monthrange_last (y m : Z) :
  1 <= m <= 12 -> monthrange_ndays y m = Some (last_day_of_month y m).
Proof.
  intros Hm. unfold monthrange_ndays, last_day_of_month.
  rewrite isleap_gregorian.
  month_cases m H; try reflexivity.
  cbn. destruct (gregorian_leap y); reflexivity.
Qed.

Lemma days_in_month_last (y m : Z) :
  1 <= m <= 12 -> days_in_month y m = last_day_of_month y m.
Proof.
  intros Hm. unfold days_in_month, last_day_of_month.
  rewrite isleap_gregorian.
  month_cases m H; reflexivity.
Qed.

Lemma last_day_bounds (y m : Z) : 28 <= last_day_of_month y m <= 31.
Proof.
  unfold last_day_of_month.
  repeat match goal with
         | |- context [if ?b then _ else _] => destruct b; cbn [orb]
         end; lia.
Qed.

Lemma date_new_ok (y m d : Z) :
  1 <= y <= 9999 -> 1 <= m <= 12 -> 1 <= d <= last_day_of_month y m ->
  date_new y m d = Some (mkdate y m d).
Proof.
  intros Hy Hm Hd. unfold date_new. rewrite days_in_month_last by assumption.
  replace (1 <=? y) with true by (symmetry; apply Z.leb_le; lia).
  replace (y <=? 9999) with true by (symmetry; apply Z.leb_le; lia).
  replace (1 <=? m) with true by (symmetry; apply Z.leb_le; lia).
  replace (m <=? 12) with true by (symmetry; apply Z.leb_le; lia).
  replace (1 <=? d) with true by (symmetry; apply Z.leb_le; lia).
  replace (d <=? last_day_of_month y m) with true
    by (symmetry; apply Z.leb_le; lia).
  reflexivity.
Qed.

Lemma date_new_Some (y m d : Z) (x : date) :
  date_new y m d = Some x ->
  x = mkdate y m d /\ 1 <= y <= 9999 /\ 1 <= m <= 12
  /\ 1 <= d <= last_day_of_month y m.
Proof.
  unfold date_new.
  destruct (Z.leb_spec 1 y); [ | discriminate].
  destruct (Z.leb_spec y 9999); [ | discriminate].
  destruct (Z.leb_spec 1 m); [ | discriminate].
  destruct (Z.leb_spec m 12); [ | discriminate].
  destruct (Z.leb_spec 1 d); [ | discriminate].
  rewrite days_in_month_last by lia.
  destruct (Z.leb_spec d (last_day_of_month y m)); [ | discriminate].
  cbn. intros [= <-]. repeat split; lia.
Qed.

Lemma valid_date_bounds (d : date) :
  valid_date d ->
  1 <= year d <= 9999 /\ 1 <= month d <= 12
  /\ 1 <= day d <= last_day_of_month (year d) (month d).
Proof. intros H. apply date_new_Some in H. tauto. Qed.

Lemma pad4_digits (y : Z) :
  0 <= y <= 9999 ->
  exists c1 c2 c3 c4 d1 d2 d3 d4,
    PyStr.pad4 y = string_of_list_ascii [c1; c2; c3; c4]
    /\ PyStr.digit_val c1 = Some d1 /\ PyStr.digit_val c2 = Some d2
    /\ PyStr.digit_val c3 = Some d3 /\ PyStr.digit_val c4 = Some d4
    /\ 1000 * d1 + 100 * d2 + 10 * d3 + d4 = y.
Proof.
  intros Hy.
  exists (PyStr.digit_char (y / 1000 mod 10)), (PyStr.digit_char (y / 100 mod 10)),
    (PyStr.digit_char (y / 10 mod 10)), (PyStr.digit_char (y mod 10)),
    (y / 1000 mod 10), (y / 100 mod 10), (y / 10 mod 10), (y mod 10).
  split; [reflexivity | ].
  repeat split;
    try (apply digit_val_digit_char; Z.div_mod_to_equations; lia).
  Z.div_mod_to_equations; lia.
Qed.

Lemma pad2_digits (m : Z) :
  0 <= m <= 99 ->
  exists c1 c2 d1 d2,
    PyStr.pad2 m = string_of_list_ascii [c1; c2]
    /\ PyStr.digit_val c1 = Some d1 /\ PyStr.digit_val c2 = Some d2
    /\ 10 * d1 + d2 = m.
Proof.
  intros Hm.
  exists (PyStr.digit_char (m / 10 mod 10)), (PyStr.digit_char (m mod 10)),
    (m / 10 mod 10), (m mod 10).
  split; [reflexivity | ].
  repeat split;
    try (apply digit_val_digit_char; Z.div_mod_to_equations; lia).
  Z.div_mod_to_equations; lia.
Qed.

(** A token [YYYY-MM] of a year in 1..9999 and a month in 1..12 resolves to
    the first and the last day of the month. *)
Lemma month_bounds_token (y m : Z) :
  1 <= y <= 9999 -> 1 <= m <= 12 ->
  month_bounds (month_token y m)
  = Some (mkdate y m 1, mkdate y m (last_day_of_month y m)).
Proof.
  intros Hy Hm.
  destruct (pad4_digits y) as (c1 & c2 & c3 & c4 & d1 & d2 & d3 & d4 & E4 & H1 & H2 & H3 & H4 & Ey);
    [lia | ].
  destruct (pad2_digits m) as (c5 & c6 & d5 & d6 & E2 & H5 & H6 & Em); [lia | ].
  unfold month_bounds, month_token. rewrite E4, E2.
  change (string_of_list_ascii [c1; c2; c3; c4] ++ "-" ++ string_of_list_ascii [c5; c6])%string
    with (string_of_list_ascii [c1; c2; c3; c4; "-"%char; c5; c6]).
  rewrite (split_token c1 c2 c3 c4 c5 c6 d1 d2 d3 d4 d5 d6) by assumption.
  cbn [map].
  rewrite (int_digits4 c1 c2 c3 c4 d1 d2 d3 d4), (int_digits2 c5 c6 d5 d6)
    by assumption.
  rewrite Ey, Em.
  pose proof (last_day_bounds y m) as Hl.
  rewrite date_new_ok by lia.
  rewrite monthrange_last by lia.
  rewrite date_new_ok by lia.
  reflexivity.
Qed.

End Calendar.

Lemma month_token_form (y m : Z) :
  1 <= y <= 9999 -> 1 <= m <= 12 -> is_yyyy_mm (month_token y m) = true.
Proof.
  intros Hy Hm.
  destruct (pad4_digits y) as (c1 & c2 & c3 & c4 & d1 & d2 & d3 & d4 & E4 & H1 & H2 & H3 & H4 & _);
    [lia | ].
  destruct (pad2_digits m) as (c5 & c6 & d5 & d6 & E2 & H5 & H6 & _); [lia | ].
  unfold month_token. rewrite E4, E2.
  change (string_of_list_ascii [c1; c2; c3; c4] ++ "-" ++ string_of_list_ascii [c5; c6])%string
    with (string_of_list_ascii [c1; c2; c3; c4; "-"%char; c5; c6]).
  unfold is_yyyy_mm. rewrite list_ascii_of_string_of_list_ascii.
  unfold is_digit. rewrite H1, H2, H3, H4, H5, H6. reflexivity.
Qed.

Lemma digit_char_of_val (c : ascii) (d : Z) :
  PyStr.digit_val c = Some d -> PyStr.digit_char d = c.
Proof.
  intros H. apply digit_val_bounds in H. destruct H as [_ H].
  unfold PyStr.digit_char. rewrite <- H, N2Z.id. apply ascii_N_embedding.
Qed.

(** A text of the form YYYY-MM is the token of its year and month. *)
Lemma yyyy_mm_is_month_token (tok : string) :
  is_yyyy_mm tok = true ->
  exists y m, 0 <= y <= 9999 /\ 0 <= m <= 99 /\ tok = month_token y m.
Proof.
  unfold is_yyyy_mm. intros H.
  rewrite <- (string_of_list_ascii_of_string tok).
  destruct (list_ascii_of_string tok)
    as [ | a [ | b [ | c [ | d [ | sep [ | e [ | f [ | g l]]]]]]]];
    try discriminate.
  repeat (apply andb_true_iff in H; destruct H as [H ?]).
  unfold is_digit in *.
  destruct (PyStr.digit_val a) as [da | ] eqn:Ha; [ | discriminate].
  destruct (PyStr.digit_val b) as [db | ] eqn:Hb; [ | discriminate].
  destruct (PyStr.digit_val c) as [dc | ] eqn:Hc; [ | discriminate].
  destruct (PyStr.digit_val d) as [dd | ] eqn:Hd; [ | discriminate].
  destruct (PyStr.digit_val e) as [de | ] eqn:He; [ | discriminate].
  destruct (PyStr.digit_val f) as [df | ] eqn:Hf; [ | discriminate].
  match goal with E : Ascii.eqb sep _ = true |- _ => apply Ascii.eqb_eq in E; subst sep end.
  pose proof (digit_val_bounds a da Ha) as [Ba _].
  pose proof (digit_val_bounds b db Hb) as [Bb _].
  pose proof (digit_val_bounds c dc Hc) as [Bc _].
  pose proof (digit_val_bounds d dd Hd) as [Bd _].
  pose proof (digit_val_bounds e de He) as [Be _].
  pose proof (digit_val_bounds f df Hf) as [Bf _].
  exists (1000 * da + 100 * db + 10 * dc + dd), (10 * de + df).
  split; [lia | ]. split; [lia | ].
  unfold month_token, PyStr.pad4, PyStr.pad2.
  replace ((1000 * da + 100 * db + 10 * dc + dd) / 1000 mod 10) with da
    by (Z.div_mod_to_equations; lia).
  replace ((1000 * da + 100 * db + 10 * dc + dd) / 100 mod 10) with db
    by (Z.div_mod_to_equations; lia).
  replace ((1000 * da + 100 * db + 10 * dc + dd) / 10 mod 10) with dc
    by (Z.div_mod_to_equations; lia).
  replace ((1000 * da + 100 * db + 10 * dc + dd) mod 10) with dd
    by (Z.div_mod_to_equations; lia).
  replace ((10 * de + df) / 10 mod 10) with de by (Z.div_mod_to_equations; lia).
  replace ((10 * de + df) mod 10) with df by (Z.div_mod_to_equations; lia).
  rewrite (digit_char_of_val a da Ha), (digit_char_of_val b db Hb),
    (digit_char_of_val c dc Hc), (digit_char_of_val d dd Hd),
    (digit_char_of_val e de He), (digit_char_of_val f df Hf).
  reflexivity.
Qed.

(** A token of a year 0 or of a month outside 1..12 is refused. *)
Lemma month_bounds_token_out_of_range (y m : Z) :
  0 <= y <= 9999 -> 0 <= m <= 99 -> ~ (1 <= y /\ 1 <= m <= 12) ->
  month_bounds (month_token y m) = None.
Proof.
  intros Hy Hm Hout.
  destruct (pad4_digits y) as (c1 & c2 & c3 & c4 & d1 & d2 & d3 & d4 & E4 & H1 & H2 & H3 & H4 & Ey);
    [lia | ].
  destruct (pad2_digits m) as (c5 & c6 & d5 & d6 & E2 & H5 & H6 & Em); [lia | ].
  unfold month_bounds, month_token. rewrite E4, E2.
  change (string_of_list_ascii [c1; c2; c3; c4] ++ "-" ++ string_of_list_ascii [c5; c6])%string
    with (string_of_list_ascii [c1; c2; c3; c4; "-"%char; c5; c6]).
  rewrite (split_token c1 c2 c3 c4 c5 c6 d1 d2 d3 d4 d5 d6) by assumption.
  cbn [map].
  rewrite (int_digits4 c1 c2 c3 c4 d1 d2 d3 d4), (int_digits2 c5 c6 d5 d6)
    by assumption.
  rewrite Ey, Em.
  destruct (date_new y m 1) as [x | ] eqn:E; [ | reflexivity].
  apply date_new_Some in E. exfalso. apply Hout. lia.
Qed.

(** C5: a text of the form YYYY-MM is the token of a year [y] and a month
    [m]; when the year is in 1..9999 and the month in 1..12, [month_bounds]
    returns the first day of the month and its last day, the last day being
    the Gregorian length of the month (29 for February of a leap year): both
    are dates, day 0 and the day after the last are not; for the year 0000
    or another month the text is refused.  "2024-02" gives
    (2024-02-01, 2024-02-29) and "2023-02" gives (2023-02-01, 2023-02-28). *)
Theorem C5_month_bounds_first_and_last_day :
  forall tok : string,
    is_yyyy_mm tok = true ->
    (exists y m : Z,
        tok = month_token y m /\ 0 <= y <= 9999 /\ 0 <= m <= 99
        /\ (1 <= y -> 1 <= m <= 12 ->
            month_bounds tok
            = Some (mkdate y m 1, mkdate y m (last_day_of_month y m))
            /\ valid_date (mkdate y m 1)
            /\ valid_date (mkdate y m (last_day_of_month y m))
            /\ date_new y m 0 = None
            /\ date_new y m (last_day_of_month y m + 1) = None)
        /\ (~ (1 <= y /\ 1 <= m <= 12) -> month_bounds tok = None))
    /\ (forall y m : Z,
           1 <= y <= 9999 -> 1 <= m <= 12 -> is_yyyy_mm (month_token y m) = true)
    /\ month_bounds "2024-02" = Some (mkdate 2024 2 1, mkdate 2024 2 29)
    /\ month_bounds "2023-02" = Some (mkdate 2023 2 1, mkdate 2023 2 28).
Proof.
  intros tok Htok. split; [ | split; [ | split; reflexivity]].
  - destruct (yyyy_mm_is_month_token tok Htok) as (y & m & Hy & Hm & ->).
    exists y, m. split; [reflexivity | ]. split; [exact Hy | ].
    split; [exact Hm | ]. split.
    + intros Hy1 Hm1. pose proof (last_day_bounds y m) as Hl.
      split; [apply month_bounds_token; lia | ].
      split; [unfold valid_date; cbn [year month day]; apply date_new_ok; lia | ].
      split; [unfold valid_date; cbn [year month day]; apply date_new_ok; lia | ].
      split.
      * destruct (date_new y m 0) as [x | ] eqn:E; [ | reflexivity].
        apply date_new_Some in E. lia.
      * destruct (date_new y m (last_day_of_month y m + 1)) as [x | ] eqn:E;
          [ | reflexivity].
        apply date_new_Some in E. lia.
    + intros Hout. now apply month_bounds_token_out_of_range.
  - intros y m Hy Hm. now apply month_token_form.
Qed.

Lemma C5_witness :
  is_yyyy_mm "2024-02" = true
  /\ exists y m : Z,
      "2024-02" = month_token y m /\ 0 <= y <= 9999 /\ 0 <= m <= 99
      /\ (1 <= y -> 1 <= m <= 12 ->
          month_bounds "2024-02"
          = Some (mkdate y m 1, mkdate y m (last_day_of_month y m))
          /\ valid_date (mkdate y m 1)
          /\ valid_date (mkdate y m (last_day_of_month y m))
          /\ date_new y m 0 = None
          /\ date_new y m (last_day_of_month y m + 1) = None)
      /\ (~ (1 <= y /\ 1 <= m <= 12) -> month_bounds "2024-02" = None).
Proof.
  split; [reflexivity | ].
  apply (C5_month_bounds_first_and_last_day "2024-02" eq_refl).
Defined.

(* ------------------------------------------------------------------ *)
(** ** [ORDER BY] *)

Section Ordering.

Context {A : Type} (leb : A -> A -> bool).

Hypothesis leb_total : forall a b, leb a b = true \/ leb b a = true.
Hypothesis leb_trans :
  forall a b c, leb a b = true -> leb b c = true -> leb a c = true.

Lemma insert_by_perm (x : A) (l : list A) :
  Permutation (x :: l) (insert_by leb x l).
Proof.
  induction l as [ | y l IH]; cbn.
  - apply Permutation_refl.
  - destruct (leb x y).
    + apply Permutation_refl.
    + eapply perm_trans; [apply perm_swap | ]. now apply perm_skip.
Qed.

Lemma order_by_perm (l : list A) : Permutation l (order_by leb l).
Proof.
  induction l as [ | x l IH]; cbn.
  - apply perm_nil.
  - eapply perm_trans; [ | apply insert_by_perm]. now apply perm_skip.
Qed.

Lemma insert_by_sorted (x : A) (l : list A) :
  StronglySorted (ordered_by leb) l -> StronglySorted (ordered_by leb) (insert_by leb x l).
Proof.
  induction 1 as [ | y l Hs IH Hy]; cbn.
  - repeat constructor.
  - destruct (leb x y) eqn:E.
    + constructor; [now constructor | ].
      constructor; [exact E | ].
      eapply Forall_impl; [ | exact Hy]. intros z Hz. now apply (leb_trans x y z).
    + constructor; [exact IH | ].
      apply (Permutation_Forall (insert_by_perm x l)).
      constructor; [ | exact Hy].
      destruct (leb_total x y) as [H | H]; [congruence | exact H].
Qed.

Lemma order_by_sorted (l : list A) : StronglySorted (ordered_by leb) (order_by leb l).
Proof.
  induction l as [ | x l IH]; cbn.
  - constructor.
  - now apply insert_by_sorted.
Qed.

End Ordering.

Lemma StronglySorted_impl {A : Type} (R S : A -> A -> Prop) (l : list A) :
  (forall a b, R a b -> S a b) -> StronglySorted R l -> StronglySorted S l.
Proof.
  intros HRS. induction 1 as [ | x l Hs IH Hx]; constructor.
  - exact IH.
  - eapply Forall_impl; [ | exact Hx]. intros b. apply HRS.
Qed.

Lemma StronglySorted_firstn {A : Type} (R : A -> A -> Prop) (n : nat) (l : list A) :
  StronglySorted R l -> StronglySorted R (firstn n l).
Proof.
  intros H. revert n. induction H as [ | x l Hs IH Hx]; intros [ | n]; cbn;
    try constructor.
  - apply IH.
  - apply Forall_forall. intros y Hy. rewrite Forall_forall in Hx. apply Hx.
    revert Hy. clear. revert n. induction l as [ | z l IHl]; intros [ | n]; cbn;
      try tauto.
    intros [-> | H]; [now left | right; eauto].
Qed.

(* ------------------------------------------------------------------ *)
(** ** Dates compared *)

Lemma date_eqb_eq (a b : date) : date_eqb a b = true <-> a = b.
Proof.
  unfold date_eqb. destruct a as [ya ma da], b as [yb mb db]. cbn.
  rewrite !andb_true_iff, !Z.eqb_eq. split.
  - intros [[-> ->] ->]. reflexivity.
  - intros [= -> -> ->]. auto.
Qed.

Lemma date_eqb_refl (a : date) : date_eqb a a = true.
Proof. now apply date_eqb_eq. Qed.

Lemma date_eqb_neq (a b : date) : date_eqb a b = false <-> a <> b.
Proof.
  rewrite <- date_eqb_eq. destruct (date_eqb a b); split; congruence.
Qed.

Lemma date_ltb_lt (a b : date) : date_ltb a b = true <-> date_lt a b.
Proof.
  unfold date_ltb, date_leb, date_eqb, date_lt.
  destruct a as [ya ma da], b as [yb mb db]. cbn.
  rewrite andb_true_iff, negb_true_iff, !orb_true_iff, !andb_true_iff,
    !orb_true_iff, !andb_true_iff, !andb_false_iff, !Z.ltb_lt, !Z.eqb_eq,
    Z.leb_le, !Z.eqb_neq.
  lia.
Qed.

Lemma expense_asc_before (a b : Expense.t) :
  expense_asc a b = true <-> expense_before a b.
Proof.
  unfold expense_asc, expense_before.
  rewrite orb_true_iff, andb_true_iff, date_ltb_lt, date_eqb_eq, Z.leb_le.
  tauto.
Qed.

Lemma expense_desc_after (a b : Expense.t) :
  expense_desc a b = true <-> expense_after a b.
Proof. apply (expense_asc_before b a). Qed.

Lemma date_lt_trichotomy (a b : date) : date_lt a b \/ a = b \/ date_lt b a.
Proof.
  unfold date_lt. destruct a as [ya ma da], b as [yb mb db]. cbn.
  destruct (Z.lt_trichotomy ya yb) as [H | [-> | H]]; [lia | | lia].
  destruct (Z.lt_trichotomy ma mb) as [H | [-> | H]]; [lia | | lia].
  destruct (Z.lt_trichotomy da db) as [H | [-> | H]]; [lia | | lia].
  right; left; reflexivity.
Qed.

Lemma date_lt_trans (a b c : date) : date_lt a b -> date_lt b c -> date_lt a c.
Proof. unfold date_lt. lia. Qed.

Lemma date_lt_irrefl (a : date) : ~ date_lt a a.
Proof. unfold date_lt. lia. Qed.

Lemma expense_before_total (a b : Expense.t) :
  expense_before a b \/ expense_before b a.
Proof.
  unfold expense_before.
  destruct (date_lt_trichotomy (Expense.expense_date a) (Expense.expense_date b))
    as [H | [H | H]]; [tauto | | tauto].
  rewrite H. destruct (Z.le_ge_cases (Expense.id a) (Expense.id b)); tauto.
Qed.

Lemma expense_before_trans (a b c : Expense.t) :
  expense_before a b -> expense_before b c -> expense_before a c.
Proof.
  unfold expense_before.
  intros [H1 | [E1 L1]] [H2 | [E2 L2]].
  - left. eapply date_lt_trans; eauto.
  - left. now rewrite <- E2.
  - left. now rewrite E1.
  - right. split; [congruence | lia].
Qed.

Lemma expense_asc_total (a b : Expense.t) :
  expense_asc a b = true \/ expense_asc b a = true.
Proof. rewrite !expense_asc_before. apply expense_before_total. Qed.

Lemma expense_asc_trans (a b c : Expense.t) :
  expense_asc a b = true -> expense_asc b c = true -> expense_asc a c = true.
Proof. rewrite !expense_asc_before. apply expense_before_trans. Qed.

Lemma expense_desc_total (a b : Expense.t) :
  expense_desc a b = true \/ expense_desc b a = true.
Proof. apply (expense_asc_total b a). Qed.

Lemma expense_desc_trans (a b c : Expense.t) :
  expense_desc a b = true -> expense_desc b c = true -> expense_desc a c = true.
Proof. intros H1 H2. apply (expense_asc_trans c b a); assumption. Qed.

Lemma order_by_expense_asc (l : list Expense.t) :
  StronglySorted expense_before (order_by expense_asc l).
Proof.
  eapply StronglySorted_impl; [ | apply (order_by_sorted expense_asc)].
  - intros a b. apply expense_asc_before.
  - apply expense_asc_total.
  - apply expense_asc_trans.
Qed.

Lemma order_by_expense_desc (l : list Expense.t) :
  StronglySorted expense_after (order_by expense_desc l).
Proof.
  eapply StronglySorted_impl; [ | apply (order_by_sorted expense_desc)].
  - intros a b. apply expense_desc_after.
  - apply expense_desc_total.
  - apply expense_desc_trans.
Qed.

(* ------------------------------------------------------------------ *)
(** ** The order of the expense listings *)

Lemma summary_page_inv (month_arg : option string) (today : date) (db : database)
  (ctx : summary_context) :
  resp (summary month_arg today db) = SummaryPage ctx ->
  exists month,
    ctx = mksummary month (ctx_start ctx) (ctx_end ctx)
            (query_total_sales (ctx_start ctx) (ctx_end ctx) db)
            (query_total_profit (ctx_start ctx) (ctx_end ctx) db)
            (query_total_expenses (ctx_start ctx) (ctx_end ctx) db)
            (query_total_profit (ctx_start ctx) (ctx_end ctx) db
             - query_total_expenses (ctx_start ctx) (ctx_end ctx) db)%Q
            (query_sales_rows (ctx_start ctx) (ctx_end ctx) db)
            (query_expense_rows (ctx_start ctx) (ctx_end ctx) db).
Proof.
  unfold summary.
  destruct (month_bounds _) as [[s e] | ].
  - cbn. intros [= <-]. cbn. eexists. reflexivity.
  - destruct (month_bounds _) as [[s e] | ].
    + cbn. intros [= <-]. cbn. eexists. reflexivity.
    + cbn. discriminate.
Qed.

(** C7, as the code has it: the CSV export of the expenses and the listing
    of the summary page give the rows by (expense_date, id) ascending, all
    rows for the export and those of the period for the summary; the
    expenses page gives the first 150 rows by (expense_date, id)
    descending. *)
Theorem C7_expense_listings_order :
  forall (db : database) (month_arg : option string) (today : date)
         (ctx : summary_context),
    resp (summary month_arg today db) = SummaryPage ctx ->
    (exists rows,
        resp (export_expenses_csv db)
        = CsvFile "expenses.csv" ["date"; "description"; "amount"]
            (map expense_csv_line rows)
        /\ StronglySorted expense_before rows
        /\ Permutation (expenses_table db) rows)
    /\ (StronglySorted expense_before (ctx_expense_rows ctx)
        /\ Permutation
             (filter (fun r => between (ctx_start ctx) (ctx_end ctx)
                                 (Expense.expense_date r))
                (expenses_table db))
             (ctx_expense_rows ctx))
    /\ (exists all,
           resp (expenses GET db) = ExpensesPage (firstn 150 all)
           /\ StronglySorted expense_after (firstn 150 all)
           /\ StronglySorted expense_after all
           /\ Permutation (expenses_table db) all).
Proof.
  intros db month_arg today ctx H. split; [ | split].
  - exists (order_by expense_asc (expenses_table db)).
    split; [reflexivity | ]. split.
    + apply order_by_expense_asc.
    + apply order_by_perm.
  - apply summary_page_inv in H. destruct H as [mo H]. rewrite H. cbn.
    split.
    + apply order_by_expense_asc.
    + apply order_by_perm.
  - exists (order_by expense_desc (expenses_table db)).
    split; [reflexivity | ]. split; [ | split].
    + apply StronglySorted_firstn. apply order_by_expense_desc.
    + apply order_by_expense_desc.
    + apply order_by_perm.
Qed.

Lemma C7_witness :
  let db := mkdb []
              [Expense.mk 1 (mkdate 2024 2 1) "ice" 5;
               Expense.mk 2 (mkdate 2024 2 3) "rent" 700;
               Expense.mk 3 (mkdate 2024 2 1) "limes" 12] in
  StronglySorted expense_before
    (ctx_expense_rows
       (mksummary "2024-02" (mkdate 2024 2 1) (mkdate 2024 2 29) 0 0 717 (-717)
          []
          [Expense.mk 1 (mkdate 2024 2 1) "ice" 5;
           Expense.mk 3 (mkdate 2024 2 1) "limes" 12;
           Expense.mk 2 (mkdate 2024 2 3) "rent" 700])).
Proof.
  intros db.
  apply (C7_expense_listings_order db (Some "2024-02") (mkdate 2026 11 4)).
  reflexivity.
Defined.

(** C7 as stated fails on the expenses page: with an expense on 2024-01-01
    and one on 2024-01-02 the page lists the later one first. *)
Lemma C7_counterexample :
  ~ (forall (db : database) (rows : list Expense.t),
        resp (expenses GET db) = ExpensesPage rows ->
        StronglySorted expense_before rows).
Proof.
  intros H.
  specialize (H (mkdb []
                   [Expense.mk 1 (mkdate 2024 1 1) "ice" 5;
                    Expense.mk 2 (mkdate 2024 1 2) "rent" 700])
                [Expense.mk 2 (mkdate 2024 1 2) "rent" 700;
                 Expense.mk 1 (mkdate 2024 1 1) "ice" 5]
                eq_refl).
  inversion H as [ | a l Hs Hf]. subst.
  inversion Hf as [ | b l' Hb Hf']. subst.
  unfold expense_before, date_lt in Hb. cbn in Hb.
  destruct Hb as [Hb | [Hb _]]; [lia | discriminate].
Qed.

(* ------------------------------------------------------------------ *)
(** ** Aggregates and listings *)

Lemma fold_left_Qplus_total (l : list Q) (x : Q) :
  (fold_left Qplus l x == x + total l)%Q.
Proof.
  revert x. induction l as [ | y l IH]; intros x; unfold total in *;
    cbn [fold_left fold_right].
  - ring.
  - rewrite IH. ring.
Qed.

Lemma coalesce_sql_sum_total (l : list Q) : (coalesce (sql_sum l) 0 == total l)%Q.
Proof.
  destruct l as [ | x l]; cbn [sql_sum coalesce].
  - reflexivity.
  - apply fold_left_Qplus_total.
Qed.

(* ------------------------------------------------------------------ *)
(** ** The sale views and the store *)

Lemma Qltb_nonneg (x : Q) : (0 <= x)%Q -> Qltb x 0 = false.
Proof.
  intros H. unfold Qltb. apply negb_false_iff. now apply Qle_bool_iff.
Qed.

Lemma Qltb_neg (x : Q) : (x < 0)%Q -> Qltb x 0 = true.
Proof.
  intros H. unfold Qltb. apply negb_true_iff.
  destruct (Qle_bool 0 x) eqn:E; [ | reflexivity].
  apply Qle_bool_iff in E. exfalso. now apply (Qlt_not_le x 0).
Qed.

Lemma find_none_existsb {A : Type} (f : A -> bool) (l : list A) :
  find f l = None -> existsb f l = false.
Proof.
  induction l as [ | x l IH]; cbn; [reflexivity | ].
  destruct (f x); [discriminate | exact IH].
Qed.

Lemma find_app_none {A : Type} (f : A -> bool) (l l' : list A) :
  find f l = None -> find f (l ++ l') = find f l'.
Proof.
  induction l as [ | x l IH]; cbn; [reflexivity | ].
  destruct (f x); [discriminate | exact IH].
Qed.

Lemma find_satisfied {A : Type} (f : A -> bool) (l : list A) (x : A) :
  In x l -> f x = true -> exists y, find f l = Some y.
Proof.
  intros Hin Hf. destruct (find f l) as [y | ] eqn:E; [eauto | ].
  rewrite (find_none f l E x Hin) in Hf. discriminate.
Qed.

(** What a valid post to [/sales] does. *)
Lemma sales_post_valid (db : database) (form : sale_form) (d : date) (ts dp : Q) :
  parse_date (form_sale_date form) = Some d ->
  form_total_sales form = Some ts -> form_daily_profit form = Some dp ->
  (0 <= ts)%Q -> (0 <= dp)%Q ->
  sales (POST form) db
  = match sale_of_date d (daily_sales_table db) with
    | Some existing =>
        mkoutcome (Redirect "sales")
          [mkflash (Text ("Updated sale for " ++ isoformat d ++ ".")) "info"]
          (mkdb (update_sale_amounts (daily_sales_table db) (DailySale.id existing) ts dp)
             (expenses_table db))
    | None =>
        mkoutcome (Redirect "sales")
          [mkflash (Text ("Added sale for " ++ isoformat d ++ ".")) "success"]
          (mkdb (daily_sales_table db
                 ++ [DailySale.mk (next_id (map DailySale.id (daily_sales_table db)))
                       d ts dp])
             (expenses_table db))
    end.
Proof.
  intros Hd Hts Hdp Hts0 Hdp0. unfold sales, sale_of_date.
  rewrite Hd, Hts, Hdp. cbn [conv bind ret].
  rewrite (Qltb_nonneg ts), (Qltb_nonneg dp) by assumption. cbn [orb bind ret].
  destruct (find _ (daily_sales_table db)) as [existing | ] eqn:E.
  - reflexivity.
  - unfold insert_sale. rewrite (find_none_existsb _ _ E). reflexivity.
Qed.

(** The rows of [daily_sales] after any post to [/sales]. *)
Lemma sales_post_rows (db : database) (form : sale_form) :
  let rows := daily_sales_table db in
  let rows' := daily_sales_table (store (sales (POST form) db)) in
  rows' = rows
  \/ (exists i ts dp, rows' = update_sale_amounts rows i ts dp)
  \/ (exists d ts dp, insert_sale rows d ts dp = Ok rows').
Proof.
  cbv zeta. unfold sales.
  destruct (parse_date _) as [d | ]; [ | left; reflexivity].
  destruct (form_total_sales form) as [ts | ]; [ | left; reflexivity].
  destruct (form_daily_profit form) as [dp | ]; [ | left; reflexivity].
  cbn [conv bind ret].
  destruct (Qltb ts 0 || Qltb dp 0); [left; reflexivity | ].
  cbn [bind ret].
  destruct (find _ (daily_sales_table db)) as [existing | ].
  - right; left. cbn. eauto.
  - cbn. destruct (insert_sale _ d ts dp) as [rows' | e] eqn:E; cbn.
    + right; right. eauto.
    + left. reflexivity.
Qed.

Lemma update_sale_amounts_dates (rows : list DailySale.t) (i : Z) (ts dp : Q) :
  map DailySale.sale_date (update_sale_amounts rows i ts dp)
  = map DailySale.sale_date rows.
Proof.
  unfold update_sale_amounts. rewrite map_map. apply map_ext.
  intros r. destruct (DailySale.id r =? i); reflexivity.
Qed.

Lemma insert_sale_one_row_per_date (rows rows' : list DailySale.t) (d : date)
  (ts dp : Q) :
  insert_sale rows d ts dp = Ok rows' ->
  one_row_per_date rows -> one_row_per_date rows'.
Proof.
  unfold insert_sale, one_row_per_date.
  destruct (existsb _ rows) eqn:E; [discriminate | ].
  intros [= <-] H. rewrite map_app. cbn.
  apply NoDup_rev in H. rewrite <- (rev_involutive (_ ++ _)).
  apply NoDup_rev. rewrite rev_app_distr. cbn. constructor; [ | exact H].
  rewrite <- in_rev. rewrite in_map_iff. intros [r [Hr Hin]].
  assert (existsb (fun r => date_eqb (DailySale.sale_date r) d) rows = true) as E'.
  { apply existsb_exists. exists r. split; [exact Hin | ]. now apply date_eqb_eq. }
  congruence.
Qed.

Lemma sales_post_one_row_per_date (db : database) (form : sale_form) :
  one_row_per_date (daily_sales_table db) ->
  one_row_per_date (daily_sales_table (store (sales (POST form) db))).
Proof.
  intros H.
  destruct (sales_post_rows db form) as [E | [(i & ts & dp & E) | (d & ts & dp & E)]].
  - now rewrite E.
  - rewrite E. unfold one_row_per_date. now rewrite update_sale_amounts_dates.
  - eapply insert_sale_one_row_per_date; eassumption.
Qed.

Lemma post_sales_one_row_per_date (forms : list sale_form) (db : database) :
  one_row_per_date (daily_sales_table db) ->
  one_row_per_date (daily_sales_table (post_sales forms db)).
Proof.
  revert db. induction forms as [ | form forms IH]; intros db H; cbn.
  - exact H.
  - apply IH. now apply sales_post_one_row_per_date.
Qed.

Lemma update_sale_amounts_found (rows : list DailySale.t) (d : date)
  (existing : DailySale.t) (ts dp : Q) :
  sale_of_date d rows = Some existing ->
  sale_of_date d (update_sale_amounts rows (DailySale.id existing) ts dp)
  = Some (DailySale.mk (DailySale.id existing) d ts dp).
Proof.
  unfold sale_of_date, update_sale_amounts.
  induction rows as [ | r rows IH]; cbn; [discriminate | ].
  destruct (date_eqb (DailySale.sale_date r) d) eqn:Er.
  - intros [= ->]. rewrite Z.eqb_refl. cbn. rewrite Er.
    apply date_eqb_eq in Er. now rewrite Er.
  - intros H. destruct (DailySale.id r =? DailySale.id existing); cbn; rewrite Er;
      now apply IH.
Qed.

Lemma update_sale_amounts_others (rows : list DailySale.t) (i : Z) (ts dp : Q)
  (r : DailySale.t) :
  In r rows -> DailySale.id r <> i -> In r (update_sale_amounts rows i ts dp).
Proof.
  intros Hin Hne. unfold update_sale_amounts. apply in_map_iff. exists r.
  split; [ | exact Hin]. apply Z.eqb_neq in Hne. now rewrite Hne.
Qed.

Lemma rows_of_date_at_most_one (rows : list DailySale.t) (d : date) :
  one_row_per_date rows ->
  (List.length (filter (fun r => date_eqb (DailySale.sale_date r) d) rows) <= 1)%nat.
Proof.
  unfold one_row_per_date. induction rows as [ | r rows IH]; cbn; [lia | ].
  intros H. inversion H as [ | x l Hnotin Hnodup]. subst.
  destruct (date_eqb (DailySale.sale_date r) d) eqn:Er; [ | now apply IH].
  apply date_eqb_eq in Er.
  destruct (filter _ rows) as [ | r' l'] eqn:Ef; [cbn; lia | exfalso].
  assert (In r' (filter (fun r => date_eqb (DailySale.sale_date r) d) rows)) as Hin
    by (rewrite Ef; now left).
  apply filter_In in Hin. destruct Hin as [Hin Hr'].
  apply date_eqb_eq in Hr'. apply Hnotin. rewrite Er, <- Hr'.
  now apply in_map.
Qed.

Lemma rows_of_date_at_least_one (rows : list DailySale.t) (d : date)
  (r : DailySale.t) :
  sale_of_date d rows = Some r ->
  (1 <= List.length (filter (fun r => date_eqb (DailySale.sale_date r) d) rows))%nat.
Proof.
  intros H. apply find_some in H. destruct H as [Hin Hr].
  assert (In r (filter (fun r => date_eqb (DailySale.sale_date r) d) rows)) as Hf
    by (apply filter_In; now split).
  destruct (filter _ rows); [contradiction | cbn; lia].
Qed.

Lemma sale_of_date_after_post (db : database) (form : sale_form) (d : date)
  (ts dp : Q) :
  parse_date (form_sale_date form) = Some d ->
  form_total_sales form = Some ts -> form_daily_profit form = Some dp ->
  (0 <= ts)%Q -> (0 <= dp)%Q ->
  exists i,
    sale_of_date d (daily_sales_table (store (sales (POST form) db)))
    = Some (DailySale.mk i d ts dp).
Proof.
  intros Hd Hts Hdp Hts0 Hdp0.
  rewrite (sales_post_valid db form d ts dp) by assumption.
  destruct (sale_of_date d (daily_sales_table db)) as [existing | ] eqn:E; cbn.
  - exists (DailySale.id existing). now apply update_sale_amounts_found.
  - exists (next_id (map DailySale.id (daily_sales_table db))).
    unfold sale_of_date in *. rewrite (find_app_none _ _ _ E). cbn.
    now rewrite date_eqb_refl.
Qed.

Lemma same_key_same_row {A K : Type} (key : A -> K) (l : list A) (a b : A) :
  NoDup (map key l) -> In a l -> In b l -> key a = key b -> a = b.
Proof.
  induction l as [ | x l IH]; cbn; [contradiction | ].
  intros H Ha Hb E. inversion H as [ | k ks Hnotin Hnodup]. subst.
  destruct Ha as [-> | Ha], Hb as [-> | Hb].
  - reflexivity.
  - exfalso. apply Hnotin. rewrite E. now apply in_map.
  - exfalso. apply Hnotin. rewrite <- E. now apply in_map.
  - now apply IH.
Qed.

(* ------------------------------------------------------------------ *)
(** ** Editing a sale *)

Lemma get_sale_id (db : database) (i : Z) (s : DailySale.t) :
  get_sale db i = Some s -> In s (daily_sales_table db) /\ DailySale.id s = i.
Proof.
  unfold get_sale. intros H. apply find_some in H. destruct H as [Hin Hid].
  split; [exact Hin | now apply Z.eqb_eq].
Qed.

Lemma get_expense_id (db : database) (i : Z) (e : Expense.t) :
  get_expense db i = Some e -> In e (expenses_table db) /\ Expense.id e = i.
Proof.
  unfold get_expense. intros H. apply find_some in H. destruct H as [Hin Hid].
  split; [exact Hin | now apply Z.eqb_eq].
Qed.

Lemma find_map_update {A : Type} (key : A -> Z) (upd : A -> A) (rows : list A)
  (i : Z) (r : A) :
  (forall a, key (upd a) = key a) ->
  find (fun a => key a =? i) rows = Some r ->
  find (fun a => key a =? i) (map (fun a => if key a =? i then upd a else a) rows)
  = Some (upd r).
Proof.
  intros Hkey. induction rows as [ | a rows IH]; cbn; [discriminate | ].
  destruct (key a =? i) eqn:E.
  - intros [= ->]. cbn. now rewrite Hkey, E.
  - intros H. cbn. rewrite E. now apply IH.
Qed.

(** An edit of a sale towards a date that another row owns. *)
Lemma edit_sale_conflict (db : database) (sale_id : Z) (s other : DailySale.t)
  (form : sale_form) (d : date) :
  get_sale db sale_id = Some s ->
  parse_date (form_sale_date form) = Some d ->
  In other (daily_sales_table db) ->
  DailySale.id other <> DailySale.id s ->
  DailySale.sale_date other = d ->
  exists e,
    edit_sale sale_id (POST form) db
    = mkoutcome (SaleEditPage s) [could_not "Could not update sale: " e] db
    /\ validation_error e
    /\ (forall ts dp,
           form_total_sales form = Some ts -> form_daily_profit form = Some dp ->
           (0 <= ts)%Q -> (0 <= dp)%Q ->
           e = ValueError "Another sale entry already exists for that date.").
Proof.
  intros Hs Hd Hin Hne Hdate. unfold edit_sale. rewrite Hs, Hd.
  destruct (form_total_sales form) as [ts | ].
  2:{ exists ConversionError. cbn. repeat split. discriminate. }
  destruct (form_daily_profit form) as [dp | ].
  2:{ exists ConversionError. cbn. repeat split. discriminate. }
  cbn [conv bind ret].
  destruct (Qltb ts 0 || Qltb dp 0) eqn:Eneg.
  - exists (ValueError "Values must be non-negative."). cbn. repeat split.
    intros ts' dp' [= <-] [= <-] H1 H2.
    rewrite (Qltb_nonneg ts), (Qltb_nonneg dp) in Eneg by assumption.
    discriminate.
  - destruct (find_satisfied
                (fun r => date_eqb (DailySale.sale_date r) d
                          && negb (DailySale.id r =? DailySale.id s))
                (daily_sales_table db) other Hin) as [o Ho].
    { apply andb_true_iff. split; [now apply date_eqb_eq | ].
      apply negb_true_iff. now apply Z.eqb_neq. }
    exists (ValueError "Another sale entry already exists for that date.").
    cbn [bind ret]. rewrite Ho. cbn. repeat split.
Qed.

(** C3: when another row (an identifier other than that of [s]) has
    sale_date [d], a post to the edit page of [s] with the date [d] fails:
    it changes nothing in the store, so both rows are as before, shows the
    edit page again and flashes one error; for amounts that pass the
    validation the error is the conflict "Another sale entry already exists
    for that date.". *)
Theorem C3_edit_sale_conflict_leaves_store :
  forall (db : database) (sale_id : Z) (s other : DailySale.t)
         (form : sale_form) (d : date),
    get_sale db sale_id = Some s ->
    parse_date (form_sale_date form) = Some d ->
    In other (daily_sales_table db) ->
    DailySale.id other <> DailySale.id s ->
    DailySale.sale_date other = d ->
    let out := edit_sale sale_id (POST form) db in
    store out = db
    /\ get_sale (store out) sale_id = Some s
    /\ In other (daily_sales_table (store out))
    /\ resp out = SaleEditPage s
    /\ (exists e, flashed out = [could_not "Could not update sale: " e])
    /\ (forall ts dp,
           form_total_sales form = Some ts -> form_daily_profit form = Some dp ->
           (0 <= ts)%Q -> (0 <= dp)%Q ->
           out = mkoutcome (SaleEditPage s)
                   [could_not "Could not update sale: "
                      (ValueError "Another sale entry already exists for that date.")]
                   db).
Proof.
  intros db sale_id s other form d Hs Hd Hin Hne Hdate out.
  destruct (edit_sale_conflict db sale_id s other form d Hs Hd Hin Hne Hdate)
    as (e & Hout & _ & He).
  subst out. rewrite Hout. cbn [store resp flashed].
  repeat split; try assumption.
  - now exists e.
  - intros ts dp Hts Hdp Hts0 Hdp0. now rewrite (He ts dp Hts Hdp Hts0 Hdp0).
Qed.

Lemma C3_witness :
  let db := mkdb [DailySale.mk 1 (mkdate 2024 2 28) 100 40;
                  DailySale.mk 2 (mkdate 2024 2 29) 80 30] [] in
  let form := mksale_form "2024-02-28" (Some 90%Q) (Some 35%Q) in
  (get_sale db 2 = Some (DailySale.mk 2 (mkdate 2024 2 29) 80 30)
   /\ parse_date (form_sale_date form) = Some (mkdate 2024 2 28)
   /\ In (DailySale.mk 1 (mkdate 2024 2 28) 100 40) (daily_sales_table db))
  /\ edit_sale 2 (POST form) db
     = mkoutcome (SaleEditPage (DailySale.mk 2 (mkdate 2024 2 29) 80 30))
         [could_not "Could not update sale: "
            (ValueError "Another sale entry already exists for that date.")]
         db.
Proof.
  intros db form.
  assert (In (DailySale.mk 1 (mkdate 2024 2 28) 100 40) (daily_sales_table db))
    as Hin by (cbn; left; reflexivity).
  assert (0 <= 90)%Q as H1 by (unfold Qle; cbn; lia).
  assert (0 <= 35)%Q as H2 by (unfold Qle; cbn; lia).
  assert (DailySale.id (DailySale.mk 1 (mkdate 2024 2 28) 100 40)
          <> DailySale.id (DailySale.mk 2 (mkdate 2024 2 29) 80 30)) as Hne
    by (cbn; lia).
  split; [repeat split; try reflexivity; exact Hin | ].
  apply (C3_edit_sale_conflict_leaves_store db 2
           (DailySale.mk 2 (mkdate 2024 2 29) 80 30)
           (DailySale.mk 1 (mkdate 2024 2 28) 100 40)
           form (mkdate 2024 2 28) eq_refl eq_refl Hin Hne eq_refl)
    with (ts := 90%Q) (dp := 35%Q);
    [reflexivity | reflexivity | exact H1 | exact H2].
Defined.

(* ------------------------------------------------------------------ *)
(** ** Validation of the amounts *)

Lemma sales_post_negative (db : database) (form : sale_form) (x : Q) :
  (x < 0)%Q ->
  form_total_sales form = Some x \/ form_daily_profit form = Some x ->
  rejected "Could not save sale: " db (sales (POST form) db).
Proof.
  intros Hx Hf. unfold rejected, sales.
  destruct (parse_date _) as [d | ].
  2:{ cbn. split; [reflexivity | ]. exists ConversionError. now split. }
  destruct (form_total_sales form) as [ts | ].
  2:{ cbn. split; [reflexivity | ]. exists ConversionError. now split. }
  destruct (form_daily_profit form) as [dp | ].
  2:{ cbn. split; [reflexivity | ]. exists ConversionError. now split. }
  cbn [conv bind ret].
  assert (Qltb ts 0 || Qltb dp 0 = true) as ->.
  { apply orb_true_iff.
    destruct Hf as [[= ->] | [= ->]]; [left | right]; now apply Qltb_neg. }
  cbn. split; [reflexivity | ].
  exists (ValueError "Values must be non-negative."). now split.
Qed.

Lemma edit_sale_negative (db : database) (sale_id : Z) (s : DailySale.t)
  (form : sale_form) (x : Q) :
  get_sale db sale_id = Some s ->
  (x < 0)%Q ->
  form_total_sales form = Some x \/ form_daily_profit form = Some x ->
  rejected "Could not update sale: " db (edit_sale sale_id (POST form) db).
Proof.
  intros Hs Hx Hf. unfold rejected, edit_sale. rewrite Hs.
  destruct (parse_date _) as [d | ].
  2:{ cbn. split; [reflexivity | ]. exists ConversionError. now split. }
  destruct (form_total_sales form) as [ts | ].
  2:{ cbn. split; [reflexivity | ]. exists ConversionError. now split. }
  destruct (form_daily_profit form) as [dp | ].
  2:{ cbn. split; [reflexivity | ]. exists ConversionError. now split. }
  cbn [conv bind ret].
  assert (Qltb ts 0 || Qltb dp 0 = true) as ->.
  { apply orb_true_iff.
    destruct Hf as [[= ->] | [= ->]]; [left | right]; now apply Qltb_neg. }
  cbn. split; [reflexivity | ].
  exists (ValueError "Values must be non-negative."). now split.
Qed.

Lemma expenses_post_negative (db : database) (form : expense_form) (x : Q) :
  (x < 0)%Q -> form_amount form = Some x ->
  rejected "Could not save expense: " db (expenses (POST form) db).
Proof.
  intros Hx Hf. unfold rejected, expenses. rewrite Hf.
  destruct (parse_date _) as [d | ].
  2:{ cbn. split; [reflexivity | ]. exists ConversionError. now split. }
  cbn [conv bind ret].
  destruct (is_empty _).
  { cbn. split; [reflexivity | ].
    exists (ValueError "Description is required."). now split. }
  cbn [bind ret]. rewrite (Qltb_neg x Hx). cbn. split; [reflexivity | ].
  exists (ValueError "Amount must be non-negative."). now split.
Qed.

Lemma edit_expense_negative (db : database) (expense_id : Z) (e : Expense.t)
  (form : expense_form) (x : Q) :
  get_expense db expense_id = Some e ->
  (x < 0)%Q -> form_amount form = Some x ->
  rejected "Could not update expense: " db (edit_expense expense_id (POST form) db).
Proof.
  intros He Hx Hf. unfold rejected, edit_expense. rewrite He, Hf.
  destruct (parse_date _) as [d | ].
  2:{ cbn. split; [reflexivity | ]. exists ConversionError. now split. }
  cbn [conv bind ret].
  destruct (is_empty _).
  { cbn. split; [reflexivity | ].
    exists (ValueError "Description is required."). now split. }
  cbn [bind ret]. rewrite (Qltb_neg x Hx). cbn. split; [reflexivity | ].
  exists (ValueError "Amount must be non-negative."). now split.
Qed.

Lemma edit_sale_accepted (db : database) (sale_id : Z) (s : DailySale.t)
  (form : sale_form) (d : date) (ts dp : Q) :
  get_sale db sale_id = Some s ->
  parse_date (form_sale_date form) = Some d ->
  form_total_sales form = Some ts -> form_daily_profit form = Some dp ->
  (0 <= ts)%Q -> (0 <= dp)%Q ->
  (forall r, In r (daily_sales_table db) -> DailySale.sale_date r = d ->
             DailySale.id r = sale_id) ->
  edit_sale sale_id (POST form) db
  = mkoutcome (Redirect "sales") [mkflash (Text "Sale updated.") "success"]
      (mkdb (map (fun r => if DailySale.id r =? sale_id
                           then DailySale.mk (DailySale.id r) d ts dp else r)
               (daily_sales_table db))
         (expenses_table db)).
Proof.
  intros Hs Hd Hts Hdp Hts0 Hdp0 Hfree.
  destruct (get_sale_id db sale_id s Hs) as [_ Hid].
  unfold edit_sale. rewrite Hs, Hd, Hts, Hdp. cbn [conv bind ret].
  rewrite (Qltb_nonneg ts), (Qltb_nonneg dp) by assumption. cbn [orb bind ret].
  rewrite Hid.
  assert (find (fun r => date_eqb (DailySale.sale_date r) d
                         && negb (DailySale.id r =? sale_id))
            (daily_sales_table db) = None) as Hnone.
  { destruct (find _ (daily_sales_table db)) as [o | ] eqn:E; [ | reflexivity].
    apply find_some in E. destruct E as [Hin Ho].
    apply andb_true_iff in Ho. destruct Ho as [Ho1 Ho2].
    apply date_eqb_eq in Ho1. apply negb_true_iff, Z.eqb_neq in Ho2.
    exfalso. apply Ho2. now apply Hfree. }
  rewrite Hnone. cbn [bind ret]. unfold update_sale.
  rewrite (find_none_existsb _ _ Hnone). reflexivity.
Qed.

Lemma expenses_post_accepted (db : database) (form : expense_form) (d : date)
  (amt : Q) :
  parse_date (form_expense_date form) = Some d ->
  form_amount form = Some amt -> (0 <= amt)%Q ->
  PyStr.strip (form_description form) <> "" ->
  expenses (POST form) db
  = mkoutcome (Redirect "expenses") [mkflash (Text "Added expense.") "success"]
      (mkdb (daily_sales_table db)
         (expenses_table db
          ++ [Expense.mk (next_id (map Expense.id (expenses_table db))) d
                (PyStr.strip (form_description form)) amt])).
Proof.
  intros Hd Hamt Hamt0 Hdesc. unfold expenses. rewrite Hd, Hamt.
  cbn [conv bind ret].
  destruct (PyStr.strip (form_description form)) as [ | c rest] eqn:E;
    [congruence | ].
  cbn [is_empty bind ret]. rewrite (Qltb_nonneg amt) by assumption.
  reflexivity.
Qed.

Lemma edit_expense_accepted (db : database) (expense_id : Z) (e : Expense.t)
  (form : expense_form) (d : date) (amt : Q) :
  get_expense db expense_id = Some e ->
  parse_date (form_expense_date form) = Some d ->
  form_amount form = Some amt -> (0 <= amt)%Q ->
  PyStr.strip (form_description form) <> "" ->
  edit_expense expense_id (POST form) db
  = mkoutcome (Redirect "expenses") [mkflash (Text "Expense updated.") "success"]
      (mkdb (daily_sales_table db)
         (update_expense (expenses_table db) expense_id d
            (PyStr.strip (form_description form)) amt)).
Proof.
  intros He Hd Hamt Hamt0 Hdesc.
  destruct (get_expense_id db expense_id e He) as [_ Hid].
  unfold edit_expense. rewrite He, Hd, Hamt. cbn [conv bind ret].
  destruct (PyStr.strip (form_description form)) as [ | c rest] eqn:E;
    [congruence | ].
  cbn [is_empty bind ret]. rewrite (Qltb_nonneg amt) by assumption.
  rewrite Hid. reflexivity.
Qed.

(** C4: for every store, a post to [/sales] with a negative total_sales or
    daily_profit and a post to [/expenses] with a negative amount leave the
    store as it was and flash one validation error; with non-negative
    amounts, zero included, a valid date and, for an expense, a description
    that is not blank, the values are stored: the sale of the date carries
    them after a post to [/sales] and the new expense is appended.  A post to
    the edit page of a sale or of an expense with a negative amount never
    changes the store; when the row exists it flashes one validation error,
    and with non-negative amounts, zero included, the edited row carries the
    values (for a sale, when no other row owns the date). *)
Theorem C4_negative_rejected_zero_accepted :
  forall (db : database),
    (forall (form : sale_form) (x : Q),
        (x < 0)%Q ->
        form_total_sales form = Some x \/ form_daily_profit form = Some x ->
        rejected "Could not save sale: " db (sales (POST form) db)
        /\ forall sale_id, store (edit_sale sale_id (POST form) db) = db)
    /\ (forall (form : expense_form) (x : Q),
           (x < 0)%Q -> form_amount form = Some x ->
           rejected "Could not save expense: " db (expenses (POST form) db)
           /\ forall expense_id,
                store (edit_expense expense_id (POST form) db) = db)
    /\ (forall (form : sale_form) (d : date) (ts dp : Q),
           parse_date (form_sale_date form) = Some d ->
           form_total_sales form = Some ts -> form_daily_profit form = Some dp ->
           (0 <= ts)%Q -> (0 <= dp)%Q ->
           exists i,
             sale_of_date d (daily_sales_table (store (sales (POST form) db)))
             = Some (DailySale.mk i d ts dp))
    /\ (forall (form : expense_form) (d : date) (amt : Q),
           parse_date (form_expense_date form) = Some d ->
           form_amount form = Some amt -> (0 <= amt)%Q ->
           PyStr.strip (form_description form) <> "" ->
           expenses_table (store (expenses (POST form) db))
           = expenses_table db
             ++ [Expense.mk (next_id (map Expense.id (expenses_table db))) d
                   (PyStr.strip (form_description form)) amt])
    /\ (forall (sale_id : Z) (s : DailySale.t),
           get_sale db sale_id = Some s ->
           (forall (form : sale_form) (x : Q),
               (x < 0)%Q ->
               form_total_sales form = Some x \/ form_daily_profit form = Some x ->
               rejected "Could not update sale: " db
                 (edit_sale sale_id (POST form) db))
           /\ (forall (form : sale_form) (d : date) (ts dp : Q),
                  parse_date (form_sale_date form) = Some d ->
                  form_total_sales form = Some ts ->
                  form_daily_profit form = Some dp ->
                  (0 <= ts)%Q -> (0 <= dp)%Q ->
                  (forall r, In r (daily_sales_table db) ->
                             DailySale.sale_date r = d -> DailySale.id r = sale_id) ->
                  get_sale (store (edit_sale sale_id (POST form) db)) sale_id
                  = Some (DailySale.mk sale_id d ts dp)))
    /\ (forall (expense_id : Z) (e : Expense.t),
           get_expense db expense_id = Some e ->
           (forall (form : expense_form) (x : Q),
               (x < 0)%Q -> form_amount form = Some x ->
               rejected "Could not update expense: " db
                 (edit_expense expense_id (POST form) db))
           /\ (forall (form : expense_form) (d : date) (amt : Q),
                  parse_date (form_expense_date form) = Some d ->
                  form_amount form = Some amt -> (0 <= amt)%Q ->
                  PyStr.strip (form_description form) <> "" ->
                  get_expense (store (edit_expense expense_id (POST form) db))
                    expense_id
                  = Some (Expense.mk expense_id d
                            (PyStr.strip (form_description form)) amt))).
Proof.
  intros db.
  split; [ | split; [ | split; [ | split; [ | split]]]];
    [ | | | | intros sale_id s H; split | intros expense_id e H; split].
  - intros form x Hx Hf. split.
    + now apply (sales_post_negative db form x).
    + intros sale_id. destruct (get_sale db sale_id) as [s | ] eqn:Hs.
      * now apply (edit_sale_negative db sale_id s form x).
      * unfold edit_sale. now rewrite Hs.
  - intros form x Hx Hf. split.
    + now apply (expenses_post_negative db form x).
    + intros expense_id. destruct (get_expense db expense_id) as [e | ] eqn:He.
      * now apply (edit_expense_negative db expense_id e form x).
      * unfold edit_expense. now rewrite He.
  - intros form d ts dp Hd Hts Hdp Hts0 Hdp0.
    now apply sale_of_date_after_post.
  - intros form d amt Hd Hamt Hamt0 Hdesc.
    now rewrite (expenses_post_accepted db form d amt) by assumption.
  - intros form x Hx Hf.
    now apply (edit_sale_negative db sale_id s form x).
  - intros form d ts dp Hd Hts Hdp Hts0 Hdp0 Hfree.
    destruct (get_sale_id db sale_id s H) as [_ Hsid].
    rewrite (edit_sale_accepted db sale_id s form d ts dp) by assumption.
    cbn [store]. unfold get_sale. cbn [daily_sales_table].
    rewrite (find_map_update DailySale.id
               (fun r => DailySale.mk (DailySale.id r) d ts dp)
               (daily_sales_table db) sale_id s); [ | reflexivity | exact H].
    now rewrite Hsid.
  - intros form x Hx Hf.
    now apply (edit_expense_negative db expense_id e form x).
  - intros form d amt Hd Hamt Hamt0 Hdesc.
    destruct (get_expense_id db expense_id e H) as [_ Heid].
    rewrite (edit_expense_accepted db expense_id e form d amt) by assumption.
    cbn [store]. unfold get_expense, update_expense. cbn [expenses_table].
    rewrite (find_map_update Expense.id
               (fun r => Expense.mk (Expense.id r) d
                           (PyStr.strip (form_description form)) amt)
               (expenses_table db) expense_id e); [ | reflexivity | exact H].
    now rewrite Heid.
Qed.

(** The creates on the empty store, and the edits of a store of one sale
    and one expense. *)
Lemma C4_witness :
  (rejected "Could not save sale: " empty_db
     (sales (POST (mksale_form "2024-02-29" (Some (-1 # 100)%Q) (Some 3%Q))) empty_db)
   /\ rejected "Could not save expense: " empty_db
        (expenses (POST (mkexpense_form "2024-02-29" "ice" (Some (-1 # 100)%Q)))
           empty_db)
   /\ (exists i,
          sale_of_date (mkdate 2024 2 29)
            (daily_sales_table
               (store (sales (POST (mksale_form "2024-02-29" (Some 0%Q) (Some 0%Q)))
                         empty_db)))
          = Some (DailySale.mk i (mkdate 2024 2 29) 0 0))
   /\ expenses_table
        (store (expenses (POST (mkexpense_form "2024-02-29" " tips " (Some 0%Q)))
                  empty_db))
      = [Expense.mk 1 (mkdate 2024 2 29) "tips" 0])
  /\ (let db := mkdb [DailySale.mk 1 (mkdate 2024 2 28) 100 40]
                  [Expense.mk 1 (mkdate 2024 2 9) "ice" 5] in
      rejected "Could not update sale: " db
        (edit_sale 1 (POST (mksale_form "2024-02-28" (Some 3%Q) (Some (-1 # 100)%Q))) db)
      /\ get_sale
           (store (edit_sale 1 (POST (mksale_form "2024-02-28" (Some 0%Q) (Some 0%Q)))
                     db)) 1
         = Some (DailySale.mk 1 (mkdate 2024 2 28) 0 0)
      /\ rejected "Could not update expense: " db
           (edit_expense 1 (POST (mkexpense_form "2024-02-09" "ice" (Some (-5)%Q))) db)
      /\ get_expense
           (store (edit_expense 1 (POST (mkexpense_form "2024-02-09" "ice " (Some 0%Q)))
                     db)) 1
         = Some (Expense.mk 1 (mkdate 2024 2 9) "ice" 0)).
Proof.
  assert (0 <= 0)%Q as H0 by (unfold Qle; cbn; lia).
  assert (-1 # 100 < 0)%Q as Hneg by (unfold Qlt; cbn; lia).
  assert (-5 < 0)%Q as Hneg5 by (unfold Qlt; cbn; lia).
  split.
  - destruct (C4_negative_rejected_zero_accepted empty_db)
      as (Hs & He & Hsale & Hexp & _).
    split; [ | split; [ | split]].
    + apply (proj1 (Hs (mksale_form "2024-02-29" (Some (-1 # 100)%Q) (Some 3%Q))
                      (-1 # 100)%Q Hneg (or_introl eq_refl))).
    + apply (proj1 (He (mkexpense_form "2024-02-29" "ice" (Some (-1 # 100)%Q))
                      (-1 # 100)%Q Hneg eq_refl)).
    + apply (Hsale (mksale_form "2024-02-29" (Some 0%Q) (Some 0%Q))
               (mkdate 2024 2 29) 0%Q 0%Q eq_refl eq_refl eq_refl H0 H0).
    + apply (Hexp (mkexpense_form "2024-02-29" " tips " (Some 0%Q))
               (mkdate 2024 2 29) 0%Q eq_refl eq_refl H0).
      cbv. discriminate.
  - intros db.
    destruct (C4_negative_rejected_zero_accepted db)
      as (_ & _ & _ & _ & Hes & Hee).
    destruct (Hes 1 (DailySale.mk 1 (mkdate 2024 2 28) 100 40) eq_refl)
      as [Hes1 Hes2].
    destruct (Hee 1 (Expense.mk 1 (mkdate 2024 2 9) "ice" 5) eq_refl)
      as [Hee1 Hee2].
    split; [ | split; [ | split]].
    + apply (Hes1 (mksale_form "2024-02-28" (Some 3%Q) (Some (-1 # 100)%Q))
               (-1 # 100)%Q Hneg). right. reflexivity.
    + apply (Hes2 (mksale_form "2024-02-28" (Some 0%Q) (Some 0%Q))
               (mkdate 2024 2 28) 0%Q 0%Q eq_refl eq_refl eq_refl H0 H0).
      intros r [<- | []] _. reflexivity.
    + apply (Hee1 (mkexpense_form "2024-02-09" "ice" (Some (-5)%Q)) (-5)%Q Hneg5
               eq_refl).
    + apply (Hee2 (mkexpense_form "2024-02-09" "ice " (Some 0%Q))
               (mkdate 2024 2 9) 0%Q eq_refl eq_refl H0).
      cbv. discriminate.
Defined.

(* ------------------------------------------------------------------ *)
(** ** The month of a request *)






(** The name of a file made from the label of the current month holds no
    carriage return and no line feed. *)
Lemma has_newline_app (a b : string) :
  has_newline (a ++ b) = has_newline a || has_newline b.
Proof.
  unfold has_newline. induction a as [ | c a IH]; [reflexivity | ].
  cbn [append list_ascii_of_string existsb]. rewrite IH. apply orb_assoc.
Qed.

Lemma digit_char_not_newline (n : Z) :
  is_newline (PyStr.digit_char (n mod 10)) = false.
Proof.
  assert (0 <= n mod 10 < 10) as H by (apply Z.mod_pos_bound; lia).
  assert (n mod 10 = 0 \/ n mod 10 = 1 \/ n mod 10 = 2 \/ n mod 10 = 3
          \/ n mod 10 = 4 \/ n mod 10 = 5 \/ n mod 10 = 6 \/ n mod 10 = 7
          \/ n mod 10 = 8 \/ n mod 10 = 9) as E by lia.
  repeat (destruct E as [-> | E]; [reflexivity | ]). now rewrite E.
Qed.

Lemma pad2_no_newline (n : Z) : has_newline (PyStr.pad2 n) = false.
Proof.
  unfold has_newline, PyStr.pad2. cbn [list_ascii_of_string existsb].
  now rewrite !digit_char_not_newline.
Qed.

Lemma decimal_no_newline (n : Z) : has_newline (decimal n) = false.
Proof.
  unfold decimal, DecimalString.NilZero.string_of_uint.
  assert (forall u, has_newline (DecimalString.NilEmpty.string_of_uint u) = false)
    as H by (induction u; cbn; assumption || reflexivity).
  destruct (N.to_uint (Z.to_N n)); [reflexivity | apply H ..].
Qed.

Lemma strftime_Ym_no_newline (d : date) : has_newline (strftime_Ym d) = false.
Proof.
  unfold strftime_Ym.
  now rewrite !has_newline_app, decimal_no_newline, pad2_no_newline.
Qed.





(* ------------------------------------------------------------------ *)
(** ** The monthly close *)

Lemma filter_none {A : Type} (f : A -> bool) (l : list A) :
  (forall x, In x l -> f x = false) -> filter f l = [].
Proof.
  induction l as [ | x l IH]; cbn; [reflexivity | ].
  intros H. rewrite (H x) by now left. apply IH. intros y Hy. apply H. now right.
Qed.

Lemma placeholder_when_header_only {A : Type} (header placeholder : A)
  (lines : list A) :
  (if Z.of_nat (List.length (header :: lines)) =? 1
   then (header :: lines) ++ [placeholder] else header :: lines)
  = header :: match lines with [] => [placeholder] | _ :: _ => lines end.
Proof.
  destruct lines as [ | x lines]; [reflexivity | ].
  replace (Z.of_nat (List.length (header :: x :: lines)) =? 1) with false;
    [reflexivity | ].
  symmetry. apply Z.eqb_neq. cbn [List.length]. lia.
Qed.

(** The tables of the monthly close, for the month the view resolves. *)
Lemma monthly_close_pdf_document (month_arg : option string) (today : date)
  (db : database) (month : string) (start end_ : date) :
  resolved_month month_arg today = Some (month, start, end_) ->
  exists doc,
    monthly_close_pdf month_arg today db
    = mkoutcome
        (attachment ("monthly_close_" ++ month ++ ".pdf")
           (PdfFile ("monthly_close_" ++ month ++ ".pdf") doc)) [] db
    /\ summary_data doc
       = [["Total Sales"; format_2f (query_total_sales start end_ db)];
          ["Total Expenses"; format_2f (query_total_expenses start end_ db)];
          ["Total Daily Profit"; format_2f (query_total_profit start end_ db)];
          ["Net Profit";
           format_2f (query_total_profit start end_ db
                      - query_total_expenses start end_ db)%Q]]
    /\ sales_data doc
       = ["Date"; "Day"; "Total Sales"; "Daily Profit"]
         :: match map sale_line (query_sales_rows start end_ db) with
            | [] => [["-"; "-"; "0.00"; "0.00"]]
            | _ :: _ => map sale_line (query_sales_rows start end_ db)
            end
    /\ exp_data doc
       = ["Date"; "Description"; "Amount"]
         :: match map expense_csv_line (query_expense_rows start end_ db) with
            | [] => [["-"; "-"; "0.00"]]
            | _ :: _ => map expense_csv_line (query_expense_rows start end_ db)
            end.
Proof.
  intros H.
  assert (match month_bounds
                  (match month_arg with Some m => m | None => strftime_Ym today end)
          with
          | Some (start, end_) =>
              Some (match month_arg with Some m => m | None => strftime_Ym today end,
                    start, end_)
          | None =>
              match month_bounds (strftime_Ym today) with
              | Some (start, end_) => Some (strftime_Ym today, start, end_)
              | None => None
              end
          end = Some (month, start, end_)) as E by exact H.
  unfold monthly_close_pdf. cbv zeta. rewrite E.
  rewrite !placeholder_when_header_only.
  eexists. split; [reflexivity | ]. cbn [summary_data sales_data exp_data].
  repeat split; reflexivity.
Qed.

Lemma attachment_cases (filename : string) (file : response) :
  (has_newline filename = false -> attachment filename file = file)
  /\ (has_newline filename = true -> attachment filename file = ServerError).
Proof. unfold attachment. split; intros ->; reflexivity. Qed.

Lemma has_newline_file_name (pre month suf : string) :
  has_newline pre = false -> has_newline suf = false ->
  has_newline (pre ++ month ++ suf) = has_newline month.
Proof.
  intros Hp Hs. rewrite !has_newline_app, Hp, Hs. cbn [orb]. apply orb_false_r.
Qed.

(** C8: when no sale row and no expense row lies in the period of the month
    the view resolves, the document of the monthly close has the four
    amounts of its summary table printed 0.00, a sales table made of the
    header and the one row "-", "-", "0.00", "0.00", and an expenses table
    made of the header and the one row "-", "-", "0.00".  The view sends
    this document whenever the text of the month holds no carriage return
    and no line feed, which is so for every month it falls back to; for a
    text of the request that resolves and holds one, the header of the
    response is refused, no document is sent and the answer is an error. *)
Theorem C8_monthly_close_of_empty_period :
  forall (month_arg : option string) (today : date) (db : database)
         (month : string) (start end_ : date),
    resolved_month month_arg today = Some (month, start, end_) ->
    (forall r, In r (daily_sales_table db) ->
               between start end_ (DailySale.sale_date r) = false) ->
    (forall e, In e (expenses_table db) ->
               between start end_ (Expense.expense_date e) = false) ->
    (has_newline month = false ->
     exists doc,
       resp (monthly_close_pdf month_arg today db)
       = PdfFile ("monthly_close_" ++ month ++ ".pdf") doc
       /\ summary_data doc
          = [["Total Sales"; "0.00"]; ["Total Expenses"; "0.00"];
             ["Total Daily Profit"; "0.00"]; ["Net Profit"; "0.00"]]
       /\ sales_data doc
          = [["Date"; "Day"; "Total Sales"; "Daily Profit"];
             ["-"; "-"; "0.00"; "0.00"]]
       /\ exp_data doc
          = [["Date"; "Description"; "Amount"]; ["-"; "-"; "0.00"]])
    /\ (has_newline month = true ->
        month_arg = Some month
        /\ resp (monthly_close_pdf month_arg today db) = ServerError)
    /\ (forall fn doc,
           resp (monthly_close_pdf month_arg today db) = PdfFile fn doc ->
           summary_data doc
           = [["Total Sales"; "0.00"]; ["Total Expenses"; "0.00"];
              ["Total Daily Profit"; "0.00"]; ["Net Profit"; "0.00"]]
           /\ sales_data doc
              = [["Date"; "Day"; "Total Sales"; "Daily Profit"];
                 ["-"; "-"; "0.00"; "0.00"]]
           /\ exp_data doc
              = [["Date"; "Description"; "Amount"]; ["-"; "-"; "0.00"]]).
Proof.
  intros month_arg today db month start end_ Hres Hsales Hexp.
  destruct (monthly_close_pdf_document month_arg today db month start end_ Hres)
    as (doc & Hout & Hsum & Hs & He).
  assert (summary_data doc
          = [["Total Sales"; "0.00"]; ["Total Expenses"; "0.00"];
             ["Total Daily Profit"; "0.00"]; ["Net Profit"; "0.00"]]
          /\ sales_data doc
             = [["Date"; "Day"; "Total Sales"; "Daily Profit"];
                ["-"; "-"; "0.00"; "0.00"]]
          /\ exp_data doc
             = [["Date"; "Description"; "Amount"]; ["-"; "-"; "0.00"]]) as Hdoc.
  { rewrite Hsum, Hs, He.
    unfold query_total_sales, query_total_profit, query_total_expenses,
      query_sales_rows, query_expense_rows.
    rewrite (filter_none _ _ Hsales), (filter_none _ _ Hexp).
    repeat split; reflexivity. }
  rewrite Hout. cbn [resp].
  pose proof (has_newline_file_name "monthly_close_" month ".pdf" eq_refl eq_refl)
    as Hname.
  destruct (attachment_cases ("monthly_close_" ++ month ++ ".pdf")
              (PdfFile ("monthly_close_" ++ month ++ ".pdf") doc)) as [Hfile Herr].
  rewrite Hname in Hfile, Herr.
  split; [ | split].
  - intros Hn. exists doc. now rewrite (Hfile Hn).
  - intros Hn. split; [ | exact (Herr Hn)].
    unfold resolved_month in Hres. cbv zeta in Hres.
    destruct month_arg as [tok | ].
    + destruct (month_bounds tok) as [[s0 e0] | ].
      * now injection Hres as -> _ _.
      * destruct (month_bounds (strftime_Ym today)) as [[s0 e0] | ];
          [ | discriminate].
        injection Hres as <- _ _. now rewrite strftime_Ym_no_newline in Hn.
    + destruct (month_bounds (strftime_Ym today)) as [[s0 e0] | ];
        [ | discriminate].
      injection Hres as <- _ _. now rewrite strftime_Ym_no_newline in Hn.
  - intros fn doc' Hpdf.
    destruct (has_newline month) eqn:Hn.
    + rewrite (Herr eq_refl) in Hpdf. discriminate.
    + rewrite (Hfile eq_refl) in Hpdf. injection Hpdf as _ <-. exact Hdoc.
Qed.

Lemma C8_witness :
  let db := mkdb [DailySale.mk 1 (mkdate 2024 3 1) 100 40]
              [Expense.mk 1 (mkdate 2024 1 31) "ice" 5] in
  resolved_month (Some "2024-02") (mkdate 2026 11 4)
  = Some ("2024-02", mkdate 2024 2 1, mkdate 2024 2 29)
  /\ exists doc,
      resp (monthly_close_pdf (Some "2024-02") (mkdate 2026 11 4) db)
      = PdfFile "monthly_close_2024-02.pdf" doc
      /\ summary_data doc
         = [["Total Sales"; "0.00"]; ["Total Expenses"; "0.00"];
            ["Total Daily Profit"; "0.00"]; ["Net Profit"; "0.00"]]
      /\ sales_data doc
         = [["Date"; "Day"; "Total Sales"; "Daily Profit"];
            ["-"; "-"; "0.00"; "0.00"]]
      /\ exp_data doc
         = [["Date"; "Description"; "Amount"]; ["-"; "-"; "0.00"]].
Proof.
  intros db. split; [reflexivity | ].
  refine (proj1 (C8_monthly_close_of_empty_period (Some "2024-02")
                   (mkdate 2026 11 4) db "2024-02" (mkdate 2024 2 1)
                   (mkdate 2024 2 29) eq_refl _ _) eq_refl).
  - intros r [<- | []]. reflexivity.
  - intros e [<- | []]. reflexivity.
Defined.

(* ------------------------------------------------------------------ *)
(** ** Stripped descriptions *)

Section Strip.

Lemma lstrip_chars_head (l : list ascii) :
  match PyStr.lstrip_chars PyStr.is_space l with
  | [] => True
  | c :: _ => PyStr.is_space c = false
  end.
Proof.
  induction l as [ | c l IH]; cbn; [exact I | ].
  destruct (PyStr.is_space c) eqn:E; [exact IH | exact E].
Qed.

Lemma lstrip_chars_suffix (l : list ascii) :
  exists p, l = p ++ PyStr.lstrip_chars PyStr.is_space l.
Proof.
  induction l as [ | c l [p IH]]; cbn.
  - now exists [].
  - destruct (PyStr.is_space c).
    + exists (c :: p). cbn. now rewrite <- IH.
    + now exists [].
Qed.

Lemma lstrip_chars_fixed (l : list ascii) :
  match l with [] => True | c :: _ => PyStr.is_space c = false end ->
  PyStr.lstrip_chars PyStr.is_space l = l.
Proof. destruct l as [ | c l]; cbn; [reflexivity | ]. now intros ->. Qed.

Lemma last_cons {A : Type} (x d : A) (l : list A) : last (x :: l) d = last l x.
Proof.
  revert x d. induction l as [ | y l IH]; intros x d; [reflexivity | ].
  change (last (x :: y :: l) d) with (last (y :: l) d).
  now rewrite (IH y d), (IH y x).
Qed.

Lemma strip_chars_ends (l : list ascii) :
  match PyStr.strip_chars PyStr.is_space l with
  | [] => True
  | c :: r => PyStr.is_space c = false /\ PyStr.is_space (last r c) = false
  end.
Proof.
  unfold PyStr.strip_chars, PyStr.rstrip_chars.
  pose proof (lstrip_chars_head l) as Ha.
  set (a := PyStr.lstrip_chars PyStr.is_space l) in *.
  pose proof (lstrip_chars_head (rev a)) as Hb.
  destruct (lstrip_chars_suffix (rev a)) as [p Hp].
  set (b := PyStr.lstrip_chars PyStr.is_space (rev a)) in *.
  assert (a = rev b ++ rev p) as Ea.
  { rewrite <- rev_app_distr, <- Hp. symmetry. apply rev_involutive. }
  destruct (rev b) as [ | c r] eqn:Er; [exact I | ].
  split.
  - rewrite Ea in Ha. exact Ha.
  - rewrite <- (last_cons c c r), <- Er.
    destruct b as [ | x b']; [discriminate | ].
    cbn [rev]. now rewrite last_last.
Qed.

Lemma strip_chars_fixed (l : list ascii) :
  match l with
  | [] => True
  | c :: r => PyStr.is_space c = false /\ PyStr.is_space (last r c) = false
  end ->
  PyStr.strip_chars PyStr.is_space l = l.
Proof.
  intros H. unfold PyStr.strip_chars, PyStr.rstrip_chars.
  destruct l as [ | c r]; [reflexivity | ]. destruct H as [Hc Hl].
  rewrite (lstrip_chars_fixed (c :: r)) by exact Hc.
  rewrite lstrip_chars_fixed; [apply rev_involutive | ].
  destruct (rev (c :: r)) as [ | x t] eqn:E; [exact I | ].
  assert (c :: r = rev t ++ [x]) as E'.
  { rewrite <- (rev_involutive (c :: r)), E. reflexivity. }
  rewrite <- (last_cons c c r), E', last_last in Hl. exact Hl.
Qed.

Lemma strip_no_space_at_ends (s : string) : no_space_at_ends (PyStr.strip s).
Proof.
  unfold no_space_at_ends, PyStr.strip.
  rewrite list_ascii_of_string_of_list_ascii. apply strip_chars_ends.
Qed.

Lemma strip_fixed (s : string) : no_space_at_ends s -> PyStr.strip s = s.
Proof.
  unfold no_space_at_ends, PyStr.strip. intros H.
  rewrite strip_chars_fixed by exact H. apply string_of_list_ascii_of_string.
Qed.

Lemma strip_trimmed (s : string) :
  is_empty (PyStr.strip s) = false -> trimmed (PyStr.strip s).
Proof.
  intros H. split.
  - intros E. rewrite E in H. discriminate.
  - apply strip_no_space_at_ends.
Qed.

End Strip.

(* ------------------------------------------------------------------ *)
(** ** The expense rows of a reachable store *)

(* ------------------------------------------------------------------ *)
(** ** The expense rows of a reachable store *)

Lemma sale_views_keep_expenses (db : database) :
  (forall req, expenses_table (store (sales req db)) = expenses_table db)
  /\ (forall i req, expenses_table (store (edit_sale i req db)) = expenses_table db)
  /\ (forall i, expenses_table (store (delete_sale i db)) = expenses_table db).
Proof.
  split; [ | split].
  - intros [ | form]; [reflexivity | ].
    unfold sales, bind, conv, ret, raise, flash, lift.
    repeat break_match; reflexivity.
  - intros i [ | form]; unfold edit_sale, bind, conv, ret, raise, flash, lift;
      repeat break_match; reflexivity.
  - intros i. unfold delete_sale. break_match; reflexivity.
Qed.

Lemma expenses_post_rows (db : database) (form : expense_form) :
  let rows' := expenses_table (store (expenses (POST form) db)) in
  rows' = expenses_table db
  \/ exists d amt,
       is_empty (PyStr.strip (form_description form)) = false
       /\ rows' = insert_expense (expenses_table db) d
                    (PyStr.strip (form_description form)) amt.
Proof.
  cbv zeta. unfold expenses.
  destruct (parse_date _) as [d | ]; [ | left; reflexivity].
  destruct (form_amount form) as [amt | ]; [ | left; reflexivity].
  cbn [conv bind ret].
  destruct (is_empty _) eqn:E; [left; reflexivity | ].
  cbn [bind ret]. destruct (Qltb amt 0); [left; reflexivity | ].
  right. exists d, amt. split; reflexivity.
Qed.

Lemma edit_expense_post_rows (db : database) (i : Z) (form : expense_form) :
  let rows' := expenses_table (store (edit_expense i (POST form) db)) in
  rows' = expenses_table db
  \/ exists j d amt,
       is_empty (PyStr.strip (form_description form)) = false
       /\ rows' = update_expense (expenses_table db) j d
                    (PyStr.strip (form_description form)) amt.
Proof.
  cbv zeta. unfold edit_expense.
  destruct (get_expense db i) as [exp | ]; [ | left; reflexivity].
  destruct (parse_date _) as [d | ]; [ | left; reflexivity].
  destruct (form_amount form) as [amt | ]; [ | left; reflexivity].
  cbn [conv bind ret].
  destruct (is_empty _) eqn:E; [left; reflexivity | ].
  cbn [bind ret]. destruct (Qltb amt 0); [left; reflexivity | ].
  right. exists (Expense.id exp), d, amt. split; reflexivity.
Qed.

Lemma run_op_trimmed (op : operation) (db : database) :
  trimmed_rows (expenses_table db) ->
  trimmed_rows (expenses_table (store (run_op op db))).
Proof.
  intros H. destruct (sale_views_keep_expenses db) as (Hs & He & Hd).
  destruct op as [form | i form | i | form | i form | i]; cbn [run_op].
  - now rewrite Hs.
  - now rewrite He.
  - now rewrite Hd.
  - destruct (expenses_post_rows db form) as [-> | (d & amt & Hne & ->)];
      [exact H | ].
    unfold insert_expense. apply Forall_app. split; [exact H | ].
    constructor; [ | constructor]. cbn. now apply strip_trimmed.
  - destruct (edit_expense_post_rows db i form) as [-> | (j & d & amt & Hne & ->)];
      [exact H | ].
    unfold update_expense, trimmed_rows. rewrite Forall_map.
    eapply Forall_impl; [ | exact H]. intros r Hr.
    destruct (Expense.id r =? j); [ | exact Hr]. cbn. now apply strip_trimmed.
  - unfold delete_expense. destruct (get_expense db i) as [exp | ]; [ | exact H].
    cbn. unfold delete_expense_row, trimmed_rows.
    apply Forall_forall. intros r Hr. apply filter_In in Hr.
    unfold trimmed_rows in H. rewrite Forall_forall in H. now apply H.
Qed.

Lemma run_ops_trimmed (ops : list operation) (db : database) :
  trimmed_rows (expenses_table db) ->
  trimmed_rows (expenses_table (run_ops ops db)).
Proof.
  revert db. induction ops as [ | op ops IH]; intros db H; cbn.
  - exact H.
  - apply IH. now apply run_op_trimmed.
Qed.

(** C10: in the store reached from the empty one by any sequence of posts
    to the sale and expense views, every expense row has a description that
    is not empty and has no white space at either end: stripping it again
    gives it back. *)
Theorem C10_stored_descriptions_trimmed :
  forall (ops : list operation) (e : Expense.t),
    In e (expenses_table (run_ops ops empty_db)) ->
    Expense.description e <> ""
    /\ no_space_at_ends (Expense.description e)
    /\ PyStr.strip (Expense.description e) = Expense.description e.
Proof.
  intros ops e Hin.
  assert (trimmed_rows (expenses_table (run_ops ops empty_db))) as H
    by (apply run_ops_trimmed; constructor).
  unfold trimmed_rows in H. rewrite Forall_forall in H.
  destruct (H e Hin) as [Hne Hends].
  split; [exact Hne | ]. split; [exact Hends | ]. now apply strip_fixed.
Qed.

Lemma C10_witness :
  let ops := [OpExpenses (mkexpense_form "2024-02-09" "  ice and limes " (Some 5%Q));
              OpExpenses (mkexpense_form "2024-02-09" "   " (Some 5%Q));
              OpEditExpense 1 (mkexpense_form "2024-02-10" " ice	" (Some 6%Q))] in
  let e := Expense.mk 1 (mkdate 2024 2 10) "ice" 6 in
  In e (expenses_table (run_ops ops empty_db))
  /\ PyStr.strip (Expense.description e) = Expense.description e.
Proof.
  intros ops e.
  assert (In e (expenses_table (run_ops ops empty_db))) as Hin
    by (left; reflexivity).
  split; [exact Hin | ].
  apply (C10_stored_descriptions_trimmed ops e Hin).
Defined.

(* ------------------------------------------------------------------ *)
(** ** The backup of the data file *)

Lemma string_length_append (a b : string) :
  String.length (a ++ b) = (String.length a + String.length b)%nat.
Proof. induction a as [ | c a IH]; cbn; [reflexivity | now rewrite IH]. Qed.

Lemma path_join_length (a b : string) :
  starts_with_sep b = false ->
  (String.length a + String.length b <= String.length (path_join a b)
   <= String.length a + String.length b + 1)%nat.
Proof.
  intros H. unfold path_join. rewrite H.
  destruct (is_empty a || ends_with_sep a).
  - rewrite string_length_append. lia.
  - rewrite !string_length_append. cbn. lia.
Qed.

Lemma backup_path_is_not_DB_PATH (base : string) (paths : list string) :
  path_join base "barbook.db" <> DB_PATH (mkenv None base paths).
Proof.
  intros E. apply (f_equal String.length) in E.
  unfold DB_PATH, DATA_DIR in E. cbn [env_DATA_DIR BASE_DIR] in E.
  pose proof (path_join_length base "barbook.db" eq_refl) as H1.
  pose proof (path_join_length base "data" eq_refl) as H2.
  pose proof (path_join_length (path_join base "data") "barbook.db" eq_refl) as H3.
  cbn [String.length] in H1, H2, H3. lia.
Qed.

(** C9 fails on the code: with [DATA_DIR] unset the data file is
    [BASE_DIR/data/barbook.db] while [backup_db] looks at
    [BASE_DIR/barbook.db].  For the directory [/srv/barbook] and no other
    file, the data file exists after the start and the route answers 404;
    for every directory, whatever the route sends is not the data file. *)
Theorem C9_backup_misses_the_data_file :
  (exists env,
      startup (mkenv None "/srv/barbook" []) = Some env
      /\ DB_PATH env = "/srv/barbook/data/barbook.db"
      /\ path_exists env (DB_PATH env) = true
      /\ backup_db env = NotFound)
  /\ (forall (base : string) (paths : list string),
         exists env,
           startup (mkenv None base paths) = Some env
           /\ path_exists env (DB_PATH env) = true
           /\ backup_db env <> SendFile (DB_PATH env) "barbook_backup.db").
Proof.
  split; [eexists; repeat split; reflexivity | ].
  intros base paths. eexists. split; [reflexivity | ]. split.
  - unfold path_exists. cbn [existing_paths existsb].
    unfold DB_PATH at 1. cbn [DATA_DIR env_DATA_DIR BASE_DIR].
    unfold DB_PATH, DATA_DIR. cbn [env_DATA_DIR BASE_DIR].
    now rewrite String.eqb_refl.
  - unfold backup_db. destruct (negb _); [discriminate | ].
    intros [= E].
    now apply (backup_path_is_not_DB_PATH base paths).
Qed.

(* ------------------------------------------------------------------ *)
(** ** What the schema keeps true of every reachable store *)

Lemma next_id_above (ids : list Z) (i : Z) : In i ids -> i < next_id ids.
Proof.
  unfold next_id. induction ids as [ | x ids IH]; cbn [fold_right In];
    [contradiction | ].
  intros [-> | H]; [lia | ]. specialize (IH H). lia.
Qed.

Lemma NoDup_snoc {A : Type} (l : list A) (x : A) :
  NoDup l -> ~ In x l -> NoDup (l ++ [x]).
Proof.
  intros H Hx. apply NoDup_rev in H. rewrite <- (rev_involutive (l ++ [x])).
  apply NoDup_rev. rewrite rev_app_distr. cbn. constructor; [ | exact H].
  now rewrite <- in_rev.
Qed.

Lemma next_id_fresh (ids : list Z) : NoDup ids -> NoDup (ids ++ [next_id ids]).
Proof.
  intros H. apply NoDup_snoc; [exact H | ].
  intros Hin. apply next_id_above in Hin. lia.
Qed.

Lemma NoDup_map_filter {A K : Type} (key : A -> K) (f : A -> bool) (l : list A) :
  NoDup (map key l) -> NoDup (map key (filter f l)).
Proof.
  induction l as [ | x l IH]; cbn; [now intros | ].
  intros H. inversion H as [ | k ks Hnotin Hnodup]. subst.
  destruct (f x); [ | now apply IH].
  cbn. constructor; [ | now apply IH].
  intros Hin. apply Hnotin. apply in_map_iff in Hin.
  destruct Hin as [y [Ey Hy]]. apply filter_In in Hy. rewrite <- Ey.
  apply in_map. tauto.
Qed.

Lemma update_sale_ids (rows rows' : list DailySale.t) (i : Z) (d : date)
  (ts dp : Q) :
  update_sale rows i d ts dp = Ok rows' ->
  map DailySale.id rows' = map DailySale.id rows.
Proof.
  unfold update_sale. destruct (existsb _ rows); [discriminate | ].
  intros [= <-]. rewrite map_map. apply map_ext.
  intros r. destruct (DailySale.id r =? i); reflexivity.
Qed.

Lemma update_sale_one_row_per_date (rows rows' : list DailySale.t) (i : Z)
  (d : date) (ts dp : Q) :
  update_sale rows i d ts dp = Ok rows' ->
  NoDup (map DailySale.id rows) ->
  one_row_per_date rows -> one_row_per_date rows'.
Proof.
  unfold update_sale, one_row_per_date.
  destruct (existsb _ rows) eqn:E; [discriminate | ].
  intros [= <-].
  assert (forall r, In r rows -> DailySale.sale_date r = d -> DailySale.id r = i)
    as Hfree.
  { intros r Hin Hr. destruct (Z.eq_dec (DailySale.id r) i) as [ | Hne]; [assumption | ].
    exfalso.
    assert (existsb (fun r => date_eqb (DailySale.sale_date r) d
                              && negb (DailySale.id r =? i)) rows = true) as E'.
    { apply existsb_exists. exists r. split; [exact Hin | ].
      apply andb_true_iff. split; [now apply date_eqb_eq | ].
      now apply negb_true_iff, Z.eqb_neq. }
    congruence. }
  clear E. induction rows as [ | r rows IH]; cbn; [now intros | ].
  intros Hpk Hd. inversion Hpk as [ | k ks Hk Hpk']. subst.
  inversion Hd as [ | k ks Hdr Hd']. subst.
  assert (forall x, In x rows -> DailySale.sale_date x = d -> DailySale.id x = i)
    as Hfree' by (intros x Hx; apply Hfree; now right).
  specialize (IH Hfree' Hpk' Hd').
  constructor; [ | exact IH].
  rewrite in_map_iff. intros [y [Ey Hy]]. apply in_map_iff in Hy.
  destruct Hy as [x [Ex Hx]].
  destruct (Z.eqb_spec (DailySale.id r) i) as [Eri | Nri]; cbn in Ey.
  - destruct (Z.eqb_spec (DailySale.id x) i) as [Exi | Nxi].
    + apply Hk. rewrite Eri, <- Exi. now apply in_map.
    + subst y. apply Nxi. now apply Hfree'.
  - destruct (Z.eqb_spec (DailySale.id x) i) as [Exi | Nxi].
    + subst y. cbn in Ey. apply Nri. apply Hfree; [now left | now symmetry].
    + subst y. apply Hdr. rewrite <- Ey. now apply in_map.
Qed.

Lemma insert_sale_ids (rows rows' : list DailySale.t) (d : date) (ts dp : Q) :
  insert_sale rows d ts dp = Ok rows' ->
  map DailySale.id rows'
  = map DailySale.id rows ++ [next_id (map DailySale.id rows)].
Proof.
  unfold insert_sale. destruct (existsb _ rows); [discriminate | ].
  intros [= <-]. now rewrite map_app.
Qed.

Lemma edit_sale_rows (db : database) (i : Z) (req : request sale_form) :
  let rows := daily_sales_table db in
  let rows' := daily_sales_table (store (edit_sale i req db)) in
  rows' = rows \/ exists j d ts dp, update_sale rows j d ts dp = Ok rows'.
Proof.
  cbv zeta. unfold edit_sale.
  destruct (get_sale db i) as [sale | ]; [ | left; reflexivity].
  destruct req as [ | form]; [left; reflexivity | ].
  destruct (parse_date _) as [d | ]; [ | left; reflexivity].
  destruct (form_total_sales form) as [ts | ]; [ | left; reflexivity].
  destruct (form_daily_profit form) as [dp | ]; [ | left; reflexivity].
  cbn [conv bind ret].
  destruct (Qltb ts 0 || Qltb dp 0); [left; reflexivity | ].
  cbn [bind ret]. destruct (find _ _); [left; reflexivity | ].
  cbn [bind ret lift].
  destruct (update_sale _ (DailySale.id sale) d ts dp) as [rows' | e] eqn:E;
    cbn; [ | left; reflexivity].
  right. exists (DailySale.id sale), d, ts, dp. exact E.
Qed.

Lemma expense_views_keep_sales (db : database) :
  (forall req, daily_sales_table (store (expenses req db)) = daily_sales_table db)
  /\ (forall i req,
         daily_sales_table (store (edit_expense i req db)) = daily_sales_table db)
  /\ (forall i, daily_sales_table (store (delete_expense i db)) = daily_sales_table db).
Proof.
  split; [ | split].
  - intros [ | form]; [reflexivity | ].
    unfold expenses, bind, conv, ret, raise, flash, lift.
    repeat break_match; reflexivity.
  - intros i [ | form]; unfold edit_expense, bind, conv, ret, raise, flash, lift;
      repeat break_match; reflexivity.
  - intros i. unfold delete_expense. break_match; reflexivity.
Qed.

Lemma run_op_store_ok (op : operation) (db : database) :
  store_ok db -> store_ok (store (run_op op db)).
Proof.
  intros (Hs & He & Hd). unfold store_ok.
  destruct (sale_views_keep_expenses db) as (Ks1 & Ks2 & Ks3).
  destruct (expense_views_keep_sales db) as (Ke1 & Ke2 & Ke3).
  destruct op as [form | i form | i | form | i form | i]; cbn [run_op].
  - rewrite Ks1. split; [ | split; [exact He | ]].
    + destruct (sales_post_rows db form)
        as [-> | [(j & ts & dp & ->) | (d & ts & dp & E)]]; [exact Hs | | ].
      * unfold update_sale_amounts. rewrite map_map.
        erewrite map_ext; [exact Hs | ].
        intros r. cbn. destruct (DailySale.id r =? j); reflexivity.
      * rewrite (insert_sale_ids _ _ _ _ _ E). now apply next_id_fresh.
    + now apply sales_post_one_row_per_date.
  - rewrite Ks2.
    destruct (edit_sale_rows db i (POST form)) as [-> | (j & d & ts & dp & E)];
      [tauto | ].
    split; [ | split; [exact He | ]].
    + now rewrite (update_sale_ids _ _ _ _ _ _ E).
    + eapply update_sale_one_row_per_date; eassumption.
  - rewrite Ks3. unfold delete_sale.
    destruct (get_sale db i) as [sale | ]; [ | tauto].
    cbn [store daily_sales_table]. unfold delete_sale_row, one_row_per_date.
    split; [ | split; [exact He | ]]; now apply NoDup_map_filter.
  - rewrite Ke1. split; [exact Hs | split; [ | exact Hd]].
    destruct (expenses_post_rows db form) as [-> | (d & amt & _ & ->)];
      [exact He | ].
    unfold insert_expense. rewrite map_app. now apply next_id_fresh.
  - rewrite Ke2. split; [exact Hs | split; [ | exact Hd]].
    destruct (edit_expense_post_rows db i form) as [-> | (j & d & amt & _ & ->)];
      [exact He | ].
    unfold update_expense. rewrite map_map.
    erewrite map_ext; [exact He | ].
    intros r. cbn. destruct (Expense.id r =? j); reflexivity.
  - rewrite Ke3. split; [exact Hs | split; [ | exact Hd]].
    unfold delete_expense. destruct (get_expense db i) as [exp | ]; [ | exact He].
    cbn [store expenses_table]. unfold delete_expense_row.
    now apply NoDup_map_filter.
Qed.

Lemma run_ops_store_ok (ops : list operation) (db : database) :
  store_ok db -> store_ok (run_ops ops db).
Proof.
  revert db. induction ops as [ | op ops IH]; intros db H; cbn.
  - exact H.
  - apply IH. now apply run_op_store_ok.
Qed.

Lemma empty_db_store_ok : store_ok empty_db.
Proof. repeat split; constructor. Qed.

(* ------------------------------------------------------------------ *)
(** ** One row per sale date *)

(** C1: after any sequence of posts to [/sales], valid or not, no two rows
    have the same sale_date (from a store where this holds, the empty one
    for instance), and so it is after any sequence of posts to the six
    writing views.  A post with a valid date [d] and non-negative amounts
    appends a row for [d] when the store has none; otherwise it keeps the
    number of rows and overwrites total_sales and daily_profit of the row
    for [d], the other rows staying as they were; posting it twice leaves
    exactly one row for [d]. *)
Theorem C1_sale_upsert_one_row_per_date :
  forall (db : database) (forms : list sale_form),
    one_row_per_date (daily_sales_table db) ->
    one_row_per_date (daily_sales_table (post_sales forms db))
    /\ (forall d,
           (List.length
              (filter (fun r => date_eqb (DailySale.sale_date r) d)
                 (daily_sales_table (post_sales forms db))) <= 1)%nat)
    /\ one_row_per_date (daily_sales_table (post_sales forms empty_db))
    /\ (forall ops : list operation,
           one_row_per_date (daily_sales_table (run_ops ops empty_db)))
    /\ (forall (form : sale_form) (d : date) (ts dp : Q),
           parse_date (form_sale_date form) = Some d ->
           form_total_sales form = Some ts -> form_daily_profit form = Some dp ->
           (0 <= ts)%Q -> (0 <= dp)%Q ->
           let rows := daily_sales_table db in
           let rows' := daily_sales_table (store (sales (POST form) db)) in
           (sale_of_date d rows = None ->
            rows' = rows ++ [DailySale.mk (next_id (map DailySale.id rows)) d ts dp])
           /\ (forall existing,
                  sale_of_date d rows = Some existing ->
                  List.length rows' = List.length rows
                  /\ sale_of_date d rows'
                     = Some (DailySale.mk (DailySale.id existing) d ts dp)
                  /\ (forall r, In r rows ->
                                DailySale.id r <> DailySale.id existing ->
                                In r rows')
                  /\ (NoDup (map DailySale.id rows) ->
                      forall r, In r rows -> r <> existing -> In r rows'))
           /\ List.length
                (filter (fun r => date_eqb (DailySale.sale_date r) d)
                   (daily_sales_table (post_sales [form; form] db))) = 1%nat).
Proof.
  intros db forms Hinv. split; [ | split; [ | split; [ | split]]].
  - now apply post_sales_one_row_per_date.
  - intros d. apply rows_of_date_at_most_one. now apply post_sales_one_row_per_date.
  - apply post_sales_one_row_per_date. constructor.
  - intros ops. apply (run_ops_store_ok ops empty_db empty_db_store_ok).
  - intros form d ts dp Hd Hts Hdp Hts0 Hdp0 rows rows'. subst rows rows'.
    split; [ | split].
    + intros E. rewrite (sales_post_valid db form d ts dp) by assumption.
      now rewrite E.
    + intros existing E.
      rewrite (sales_post_valid db form d ts dp) by assumption.
      rewrite E. cbn [store daily_sales_table]. split; [ | split; [ | split]].
      * unfold update_sale_amounts. apply length_map.
      * now apply update_sale_amounts_found.
      * intros r. apply update_sale_amounts_others.
      * intros Hpk r Hin Hne. apply update_sale_amounts_others; [exact Hin | ].
        intros Eid. apply Hne.
        apply (same_key_same_row DailySale.id (daily_sales_table db));
          try assumption.
        apply find_some in E. tauto.
    + apply Nat.le_antisymm.
      * apply rows_of_date_at_most_one.
        now apply (post_sales_one_row_per_date [form; form]).
      * cbn [post_sales fold_left].
        destruct (sale_of_date_after_post (store (sales (POST form) db)) form d ts dp)
          as [i Hi]; try assumption.
        eapply rows_of_date_at_least_one. exact Hi.
Qed.

Lemma C1_witness :
  let db := mkdb [DailySale.mk 1 (mkdate 2024 2 28) 100 40] [] in
  let form := mksale_form "2024-02-29" (Some (2505 # 10)%Q) (Some 0%Q) in
  one_row_per_date (daily_sales_table db)
  /\ daily_sales_table (store (sales (POST form) db))
     = [DailySale.mk 1 (mkdate 2024 2 28) 100 40;
        DailySale.mk 2 (mkdate 2024 2 29) (2505 # 10) 0]
  /\ List.length
       (filter (fun r => date_eqb (DailySale.sale_date r) (mkdate 2024 2 29))
          (daily_sales_table (post_sales [form; form] db))) = 1%nat.
Proof.
  intros db form.
  assert (one_row_per_date (daily_sales_table db)) as Hinv.
  { unfold one_row_per_date. cbn. constructor; [intros [] | constructor]. }
  assert (0 <= 2505 # 10)%Q as H1 by (unfold Qle; cbn; lia).
  assert (0 <= 0)%Q as H2 by (unfold Qle; cbn; lia).
  destruct (C1_sale_upsert_one_row_per_date db [] Hinv) as (_ & _ & _ & _ & H).
  destruct (H form (mkdate 2024 2 29) (2505 # 10)%Q 0%Q eq_refl eq_refl eq_refl H1 H2)
    as (Hnew & _ & Htwice).
  split; [exact Hinv | ]. split; [ | exact Htwice].
  apply Hnew. reflexivity.
Defined.

(* ================================================================== *)
(** * Further properties of the views *)

(* ------------------------------------------------------------------ *)
(** ** [parse_date] and [isoformat] *)

Lemma in_range_digit (c : ascii) (d : Z) :
  PyStr.digit_val c = Some d -> in_range 0 9 c = Some d.
Proof.
  intros H. unfold in_range. rewrite H. apply digit_val_bounds in H.
  destruct H as [[H0 H9] _].
  apply Z.leb_le in H0. apply Z.leb_le in H9. now rewrite H0, H9.
Qed.

Lemma parse_date_unfold (c1 c2 c3 c4 : ascii) (d1 d2 d3 d4 : Z) (l : list ascii) :
  PyStr.digit_val c1 = Some d1 -> PyStr.digit_val c2 = Some d2 ->
  PyStr.digit_val c3 = Some d3 -> PyStr.digit_val c4 = Some d4 ->
  parse_date (string_of_list_ascii (c1 :: c2 :: c3 :: c4 :: l))
  = match month_and_day l with
    | Some (m, dd, []) => date_new (1000 * d1 + 100 * d2 + 10 * d3 + d4) m dd
    | _ => None
    end.
Proof.
  intros H1 H2 H3 H4. unfold parse_date.
  rewrite list_ascii_of_string_of_list_ascii.
  rewrite (in_range_digit c1 d1 H1), (in_range_digit c2 d2 H2),
    (in_range_digit c3 d3 H3), (in_range_digit c4 d4 H4).
  reflexivity.
Qed.

Lemma month_and_day_padded (m dd : Z) :
  1 <= m <= 12 -> 1 <= dd <= 31 ->
  month_and_day
    (list_ascii_of_string ("-" ++ PyStr.pad2 m ++ "-" ++ PyStr.pad2 dd)%string)
  = Some (m, dd, []).
Proof.
  intros Hm Hd. month_cases m Hm'; day_cases dd Hd'; reflexivity.
Qed.

Lemma date_new_valid (y m dd : Z) (d : date) :
  date_new y m dd = Some d -> valid_date d.
Proof.
  intros H. pose proof (date_new_Some y m dd d H) as (-> & _). exact H.
Qed.

Lemma parse_date_valid (s : string) (d : date) :
  parse_date s = Some d -> valid_date d.
Proof.
  unfold parse_date. repeat break_match; try discriminate.
  apply date_new_valid.
Qed.

(** X1: the ISO text of a date of the calendar is read back by
    [parse_date] as that date. *)
Theorem X1_parse_date_reads_isoformat :
  forall d : date, valid_date d -> parse_date (isoformat d) = Some d.
Proof.
  intros [y m dd] Hv. pose proof (valid_date_bounds _ Hv) as (Hy & Hm & Hd).
  cbn [year month day] in *.
  pose proof (last_day_bounds y m) as Hl.
  destruct (pad4_digits y)
    as (c1 & c2 & c3 & c4 & d1 & d2 & d3 & d4 & E4 & H1 & H2 & H3 & H4 & Ey);
    [lia | ].
  unfold isoformat. cbn [year month day]. rewrite E4.
  change (string_of_list_ascii [c1; c2; c3; c4]
          ++ "-" ++ PyStr.pad2 m ++ "-" ++ PyStr.pad2 dd)%string
    with (string_of_list_ascii
            (c1 :: c2 :: c3 :: c4
             :: list_ascii_of_string ("-" ++ PyStr.pad2 m ++ "-" ++ PyStr.pad2 dd)%string)).
  rewrite (parse_date_unfold c1 c2 c3 c4 d1 d2 d3 d4) by assumption.
  rewrite month_and_day_padded by lia. rewrite Ey. exact Hv.
Qed.

Lemma X1_witness :
  valid_date (mkdate 2024 2 29)
  /\ parse_date (isoformat (mkdate 2024 2 29)) = Some (mkdate 2024 2 29).
Proof.
  assert (valid_date (mkdate 2024 2 29)) as Hv by reflexivity.
  split; [exact Hv | ]. apply (X1_parse_date_reads_isoformat _ Hv).
Defined.

(* ------------------------------------------------------------------ *)
(** ** The period of a month *)

Lemma month_bounds_inv (tok : string) (s e : date) :
  month_bounds tok = Some (s, e) ->
  exists y m,
    1 <= y <= 9999 /\ 1 <= m <= 12
    /\ s = mkdate y m 1 /\ e = mkdate y m (last_day_of_month y m).
Proof.
  unfold month_bounds.
  destruct (map PyStr.int (PyStr.split "-" tok)) as [ | [y | ] [ | [m | ] [ | c l]]];
    try discriminate.
  destruct (date_new y m 1) as [x | ] eqn:E1; [ | discriminate].
  pose proof (date_new_Some y m 1 x E1) as (-> & Hy & Hm & _).
  rewrite monthrange_last by assumption.
  destruct (date_new y m (last_day_of_month y m)) as [x | ] eqn:E2; [ | discriminate].
  pose proof (date_new_Some _ _ _ x E2) as (-> & _).
  intros [= <- <-]. exists y, m. tauto.
Qed.

Lemma between_month (y m : Z) (d : date) :
  valid_date d ->
  between (mkdate y m 1) (mkdate y m (last_day_of_month y m)) d = true
  <-> year d = y /\ month d = m.
Proof.
  intros Hv. apply valid_date_bounds in Hv. destruct Hv as (Hy & Hm & Hd).
  unfold between, date_leb. cbn [year month day].
  rewrite andb_true_iff, !orb_true_iff, !andb_true_iff, !orb_true_iff,
    !andb_true_iff, !Z.ltb_lt, !Z.eqb_eq, !Z.leb_le.
  split.
  - lia.
  - intros [<- <-]. lia.
Qed.

(** X2: the two dates that [month_bounds] returns are the first and the
    last day of one month, and a date of the calendar lies between them
    exactly when it is a date of that month. *)
Theorem X2_month_bounds_period_is_the_month :
  forall (tok : string) (s e d : date),
    month_bounds tok = Some (s, e) ->
    valid_date d ->
    valid_date s /\ valid_date e
    /\ day s = 1 /\ same_month s e
    /\ day e = last_day_of_month (year s) (month s)
    /\ (between s e d = true <-> same_month s d).
Proof.
  intros tok s e d H Hv.
  destruct (month_bounds_inv tok s e H) as (y & m & Hy & Hm & -> & ->).
  pose proof (last_day_bounds y m) as Hl.
  unfold same_month. cbn [year month day].
  split; [unfold valid_date; cbn [year month day]; apply date_new_ok; lia | ].
  split; [unfold valid_date; cbn [year month day]; apply date_new_ok; lia | ].
  split; [reflexivity | ]. split; [split; reflexivity | ].
  split; [reflexivity | ]. now apply between_month.
Qed.

Lemma X2_witness :
  (month_bounds "2024-02" = Some (mkdate 2024 2 1, mkdate 2024 2 29)
   /\ valid_date (mkdate 2024 3 1))
  /\ (between (mkdate 2024 2 1) (mkdate 2024 2 29) (mkdate 2024 3 1) = true
      <-> same_month (mkdate 2024 2 1) (mkdate 2024 3 1)).
Proof.
  assert (valid_date (mkdate 2024 3 1)) as Hv by reflexivity.
  split; [split; [reflexivity | exact Hv] | ].
  apply (X2_month_bounds_period_is_the_month "2024-02" _ _ (mkdate 2024 3 1)
           eq_refl Hv).
Defined.

Lemma summary_page_month (month_arg : option string) (today : date)
  (db : database) (ctx : summary_context) :
  resp (summary month_arg today db) = SummaryPage ctx ->
  month_bounds (ctx_month ctx) = Some (ctx_start ctx, ctx_end ctx)
  /\ resolved_month month_arg today
     = Some (ctx_month ctx, ctx_start ctx, ctx_end ctx).
Proof.
  unfold summary, resolved_month. cbv zeta.
  set (month := match month_arg with Some m => m | None => strftime_Ym today end).
  destruct (month_bounds month) as [[s e] | ] eqn:E.
  - cbn [resp]. intros [= <-]. cbn [ctx_month ctx_start ctx_end]. now rewrite E.
  - destruct (month_bounds (strftime_Ym today)) as [[s e] | ] eqn:E'.
    + cbn [resp]. intros [= <-]. cbn [ctx_month ctx_start ctx_end].
      now rewrite E'.
    + cbn [resp]. discriminate.
Qed.

Lemma in_order_by {A : Type} (leb : A -> A -> bool) (l : list A) (x : A) :
  In x (order_by leb l) <-> In x l.
Proof.
  split; intros H.
  - eapply Permutation_in; [apply Permutation_sym, (order_by_perm leb) | exact H].
  - eapply Permutation_in; [apply (order_by_perm leb) | exact H].
Qed.

(** X3: the summary page shows the month whose label it carries: its period
    is that of the label, a sale row with a date of the calendar is listed
    exactly when it is in the table with a date of that month, and so is an
    expense row. *)
Theorem X3_summary_lists_the_rows_of_its_month :
  forall (month_arg : option string) (today : date) (db : database)
         (ctx : summary_context),
    resp (summary month_arg today db) = SummaryPage ctx ->
    month_bounds (ctx_month ctx) = Some (ctx_start ctx, ctx_end ctx)
    /\ (forall r, valid_date (DailySale.sale_date r) ->
                  (In r (ctx_sales_rows ctx)
                   <-> In r (daily_sales_table db)
                       /\ same_month (ctx_start ctx) (DailySale.sale_date r)))
    /\ (forall e, valid_date (Expense.expense_date e) ->
                  (In e (ctx_expense_rows ctx)
                   <-> In e (expenses_table db)
                       /\ same_month (ctx_start ctx) (Expense.expense_date e))).
Proof.
  intros month_arg today db ctx H.
  destruct (summary_page_month month_arg today db ctx H) as [Hb _].
  split; [exact Hb | ].
  destruct (month_bounds_inv _ _ _ Hb) as (y & m & Hy & Hm & Es & Ee).
  apply summary_page_inv in H. destruct H as [mo H].
  split.
  - intros r Hv. rewrite H. cbn [ctx_sales_rows]. unfold query_sales_rows.
    rewrite in_order_by, filter_In, Es, Ee, (between_month y m _ Hv).
    unfold same_month. cbn [year month]. tauto.
  - intros e Hv. rewrite H. cbn [ctx_expense_rows]. unfold query_expense_rows.
    rewrite in_order_by, filter_In, Es, Ee, (between_month y m _ Hv).
    unfold same_month. cbn [year month]. tauto.
Qed.

Lemma X3_witness :
  let db := mkdb [DailySale.mk 1 (mkdate 2024 2 3) 100 40;
                  DailySale.mk 2 (mkdate 2024 3 1) 75 20] [] in
  let ctx := mksummary "2024-02" (mkdate 2024 2 1) (mkdate 2024 2 29)
               100 40 0 (40 - 0)
               [DailySale.mk 1 (mkdate 2024 2 3) 100 40] [] in
  resp (summary (Some "2024-02") (mkdate 2026 11 4) db) = SummaryPage ctx
  /\ month_bounds (ctx_month ctx) = Some (ctx_start ctx, ctx_end ctx).
Proof.
  intros db ctx.
  assert (resp (summary (Some "2024-02") (mkdate 2026 11 4) db) = SummaryPage ctx)
    as H by (vm_compute; reflexivity).
  split; [exact H | ].
  apply (X3_summary_lists_the_rows_of_its_month _ _ _ _ H).
Defined.

(* ------------------------------------------------------------------ *)
(** ** The three views of a month *)


Lemma summary_resolved (month_arg : option string) (today : date)
  (db : database) (month : string) (s e : date) :
  resolved_month month_arg today = Some (month, s, e) ->
  exists w,
    summary month_arg today db
    = mkoutcome
        (SummaryPage
           (mksummary month s e (query_total_sales s e db)
              (query_total_profit s e db) (query_total_expenses s e db)
              (query_total_profit s e db - query_total_expenses s e db)%Q
              (query_sales_rows s e db) (query_expense_rows s e db)))
        w db
    /\ (w = [] \/ w = [invalid_month_notice]).
Proof.
  unfold resolved_month, summary. cbv zeta.
  set (tok := match month_arg with Some m => m | None => strftime_Ym today end).
  destruct (month_bounds tok) as [[s0 e0] | ].
  - intros [= <- <- <-]. exists []. split; [reflexivity | now left].
  - destruct (month_bounds (strftime_Ym today)) as [[s0 e0] | ]; [ | discriminate].
    intros [= <- <- <-]. exists [invalid_month_notice].
    split; [reflexivity | now right].
Qed.





(* ------------------------------------------------------------------ *)
(** ** The listings of the sales *)

Lemma date_leb_le (a b : date) : date_leb a b = true <-> date_le a b.
Proof.
  unfold date_le. rewrite <- date_ltb_lt, <- date_eqb_eq. unfold date_ltb.
  destruct (date_eqb a b) eqn:E.
  - apply date_eqb_eq in E. subst b. split; [now right | intros _].
    unfold date_leb. rewrite !Z.eqb_refl, Z.leb_refl, !orb_true_r. reflexivity.
  - rewrite andb_true_r. split; [now left | ]. intros [H | H]; [exact H | discriminate].
Qed.

Lemma date_le_total (a b : date) : date_le a b \/ date_le b a.
Proof.
  unfold date_le. destruct (date_lt_trichotomy a b) as [H | [H | H]]; auto.
Qed.

Lemma date_le_trans (a b c : date) : date_le a b -> date_le b c -> date_le a c.
Proof.
  unfold date_le. intros [H1 | ->] [H2 | ->]; auto.
  left. eapply date_lt_trans; eauto.
Qed.

Lemma order_by_sale_date_asc (l : list DailySale.t) :
  StronglySorted sale_not_after (order_by sale_date_asc l).
Proof.
  eapply StronglySorted_impl; [ | apply (order_by_sorted sale_date_asc)].
  - intros a b. apply date_leb_le.
  - intros a b. unfold sale_date_asc. rewrite !date_leb_le. apply date_le_total.
  - intros a b c. unfold sale_date_asc. rewrite !date_leb_le. apply date_le_trans.
Qed.

Lemma order_by_sale_date_desc (l : list DailySale.t) :
  StronglySorted sale_not_before (order_by sale_date_desc l).
Proof.
  eapply StronglySorted_impl; [ | apply (order_by_sorted sale_date_desc)].
  - intros a b. apply date_leb_le.
  - intros a b. unfold sale_date_desc. rewrite !date_leb_le. apply date_le_total.
  - intros a b c. unfold sale_date_desc. rewrite !date_leb_le.
    intros H1 H2. eapply date_le_trans; eauto.
Qed.

Lemma StronglySorted_app_cross {A : Type} (R : A -> A -> Prop) (l1 l2 : list A) :
  StronglySorted R (l1 ++ l2) ->
  forall x y, In x l1 -> In y l2 -> R x y.
Proof.
  induction l1 as [ | a l1 IH]; cbn; [contradiction | ].
  intros H x y Hx Hy. inversion H as [ | a' l' Hs Hf]. subst.
  destruct Hx as [-> | Hx].
  - rewrite Forall_forall in Hf. apply Hf. apply in_or_app. now right.
  - now apply IH.
Qed.

(** The first [n] rows of a sorted listing and the rows it leaves out. *)
Lemma page_of_listing {A : Type} (R : A -> A -> Prop) (n : nat)
  (table all : list A) :
  Permutation table all -> StronglySorted R all ->
  Permutation table (firstn n all ++ skipn n all)
  /\ (List.length (firstn n all) <= n)%nat
  /\ (List.length (firstn n all) = Nat.min n (List.length table))
  /\ StronglySorted R (firstn n all)
  /\ (forall x y, In x (firstn n all) -> In y (skipn n all) -> R x y).
Proof.
  intros Hp Hs. rewrite firstn_skipn. split; [exact Hp | ].
  split; [apply firstn_le_length | ].
  split; [rewrite length_firstn; now rewrite (Permutation_length Hp) | ].
  split; [now apply StronglySorted_firstn | ].
  apply StronglySorted_app_cross. now rewrite firstn_skipn.
Qed.

(** X6: the CSV export of the sales has one line per row of the table, in
    the order of the dates, each line made of the ISO date, the name of the
    day and the two amounts with two decimals. *)
Theorem X6_export_sales_csv_by_date :
  forall db : database,
    exists rows,
      resp (export_sales_csv db)
      = CsvFile "daily_sales.csv" ["date"; "day"; "total_sales"; "daily_profit"]
          (map sale_line rows)
      /\ Permutation (daily_sales_table db) rows
      /\ StronglySorted sale_not_after rows
      /\ store (export_sales_csv db) = db.
Proof.
  intros db. exists (order_by sale_date_asc (daily_sales_table db)).
  split; [reflexivity | ]. split; [apply order_by_perm | ].
  split; [apply order_by_sale_date_asc | reflexivity].
Qed.

(** X7: the sales page shows at most 90 rows, the expenses page at most
    150: all rows when the table has no more, the page in descending order
    (of the date for sales, of the date then the identifier for expenses),
    and no row left out comes before a row shown in that order. *)
Theorem X7_listing_pages_show_the_latest_rows :
  forall db : database,
    (exists page rest,
        resp (sales GET db) = SalesPage page
        /\ Permutation (daily_sales_table db) (page ++ rest)
        /\ List.length page = Nat.min 90 (List.length (daily_sales_table db))
        /\ StronglySorted sale_not_before page
        /\ (forall x y, In x page -> In y rest -> sale_not_before x y))
    /\ (exists page rest,
           resp (expenses GET db) = ExpensesPage page
           /\ Permutation (expenses_table db) (page ++ rest)
           /\ List.length page = Nat.min 150 (List.length (expenses_table db))
           /\ StronglySorted expense_after page
           /\ (forall x y, In x page -> In y rest -> expense_after x y))
    /\ store (sales GET db) = db /\ store (expenses GET db) = db.
Proof.
  intros db. split; [ | split; [ | split; reflexivity]].
  - destruct (page_of_listing sale_not_before 90 (daily_sales_table db)
                (order_by sale_date_desc (daily_sales_table db)))
      as (Hp & _ & Hl & Hs & Hc).
    + apply order_by_perm.
    + apply order_by_sale_date_desc.
    + exists (firstn 90 (order_by sale_date_desc (daily_sales_table db))),
        (skipn 90 (order_by sale_date_desc (daily_sales_table db))).
      split; [reflexivity | ]. repeat split; assumption.
  - destruct (page_of_listing expense_after 150 (expenses_table db)
                (order_by expense_desc (expenses_table db)))
      as (Hp & _ & Hl & Hs & Hc).
    + apply order_by_perm.
    + apply order_by_expense_desc.
    + exists (firstn 150 (order_by expense_desc (expenses_table db))),
        (skipn 150 (order_by expense_desc (expenses_table db))).
      split; [reflexivity | ]. repeat split; assumption.
Qed.

(* ------------------------------------------------------------------ *)
(** ** The tables of the monthly close *)

Lemma monthly_close_pdf_inv (month_arg : option string) (today : date)
  (db : database) (fn : string) (doc : monthly_document) :
  resp (monthly_close_pdf month_arg today db) = PdfFile fn doc ->
  exists month s e, resolved_month month_arg today = Some (month, s, e).
Proof.
  unfold resolved_month, monthly_close_pdf. cbv zeta.
  set (tok := match month_arg with Some m => m | None => strftime_Ym today end).
  destruct (month_bounds tok) as [[s0 e0] | ]; [eauto | ].
  destruct (month_bounds (strftime_Ym today)) as [[s0 e0] | ]; [eauto | ].
  cbn [resp]. discriminate.
Qed.

(** X8: in the monthly close the sales table is the header followed by one
    line per sale row of the period in the order of the dates, or by the one
    placeholder line when the period has no sale row, and the expenses table
    likewise; every line of the sales table has four fields and every line
    of the expenses table three. *)
Theorem X8_monthly_close_tables :
  forall (month_arg : option string) (today : date) (db : database)
         (fn : string) (doc : monthly_document),
    resp (monthly_close_pdf month_arg today db) = PdfFile fn doc ->
    exists (month : string) (s e : date),
      month_bounds month = Some (s, e)
      /\ fn = ("monthly_close_" ++ month ++ ".pdf")%string
      /\ (query_sales_rows s e db <> [] ->
          sales_data doc
          = ["Date"; "Day"; "Total Sales"; "Daily Profit"]
            :: map sale_line (query_sales_rows s e db))
      /\ (query_expense_rows s e db <> [] ->
          exp_data doc
          = ["Date"; "Description"; "Amount"]
            :: map expense_csv_line (query_expense_rows s e db))
      /\ List.length (sales_data doc)
         = (1 + Nat.max 1 (List.length (query_sales_rows s e db)))%nat
      /\ List.length (exp_data doc)
         = (1 + Nat.max 1 (List.length (query_expense_rows s e db)))%nat
      /\ Forall (fun line => List.length line = 4%nat) (sales_data doc)
      /\ Forall (fun line => List.length line = 3%nat) (exp_data doc)
      /\ Forall (fun line => List.length line = 2%nat) (summary_data doc)
      /\ List.length (summary_data doc) = 4%nat.
Proof.
  intros month_arg today db fn doc H.
  destruct (monthly_close_pdf_inv _ _ _ _ _ H) as (month & s & e & Hr).
  destruct (monthly_close_pdf_document month_arg today db month s e Hr)
    as (doc' & Hp & Hsum & Hs & He).
  rewrite Hp in H. cbn [resp] in H. unfold attachment in H.
  destruct (has_newline _); [discriminate | ]. injection H as <- <-.
  exists month, s, e.
  assert (month_bounds month = Some (s, e)) as Hb.
  { destruct (summary_resolved month_arg today db month s e Hr) as (w & Hsm & _).
    assert (resp (summary month_arg today db)
            = SummaryPage
                (mksummary month s e (query_total_sales s e db)
                   (query_total_profit s e db) (query_total_expenses s e db)
                   (query_total_profit s e db - query_total_expenses s e db)%Q
                   (query_sales_rows s e db) (query_expense_rows s e db))) as Hpage
      by now rewrite Hsm.
    now destruct (summary_page_month _ _ _ _ Hpage) as [Hb _]. }
  split; [exact Hb | ]. split; [reflexivity | ].
  rewrite Hs, He, Hsum.
  destruct (query_sales_rows s e db) as [ | r rows];
    destruct (query_expense_rows s e db) as [ | x xs]; cbn [map List.length];
    rewrite ?length_map;
    repeat split; try congruence; try lia;
    repeat constructor; apply Forall_forall; intros l Hl;
    apply in_map_iff in Hl; destruct Hl as [y [<- _]]; reflexivity.
Qed.

Lemma X8_witness :
  let db := mkdb [DailySale.mk 1 (mkdate 2024 2 3) 100 40;
                  DailySale.mk 2 (mkdate 2024 2 1) 80 (305 # 10)] [] in
  exists doc,
    resp (monthly_close_pdf (Some "2024-02") (mkdate 2026 11 4) db)
    = PdfFile "monthly_close_2024-02.pdf" doc
    /\ sales_data doc
       = [["Date"; "Day"; "Total Sales"; "Daily Profit"];
          ["2024-02-01"; "Thursday"; "80.00"; "30.50"];
          ["2024-02-03"; "Saturday"; "100.00"; "40.00"]]
    /\ Forall (fun line => List.length line = 4%nat) (sales_data doc).
Proof.
  intros db.
  destruct (monthly_close_pdf_document (Some "2024-02") (mkdate 2026 11 4) db
              "2024-02" (mkdate 2024 2 1) (mkdate 2024 2 29) eq_refl)
    as (doc & Hp & _ & Hs & _).
  exists doc.
  assert (resp (monthly_close_pdf (Some "2024-02") (mkdate 2026 11 4) db)
          = PdfFile "monthly_close_2024-02.pdf" doc) as H by now rewrite Hp.
  split; [exact H | ]. split; [rewrite Hs; reflexivity | ].
  destruct (X8_monthly_close_tables _ _ _ _ _ H)
    as (month & s & e & _ & _ & _ & _ & _ & _ & H4 & _).
  exact H4.
Defined.

(* ------------------------------------------------------------------ *)
(** ** Deleting rows *)

Lemma find_filter_out {A : Type} (key : A -> Z) (i : Z) (l : list A) :
  find (fun r => key r =? i) (filter (fun r => negb (key r =? i)) l) = None.
Proof.
  destruct (find _ (filter _ l)) as [x | ] eqn:E; [ | reflexivity].
  apply find_some in E. destruct E as [Hin Hx].
  apply filter_In in Hin. destruct Hin as [_ Hn]. rewrite Hx in Hn. discriminate.
Qed.

Lemma filter_shorter {A : Type} (f : A -> bool) (l : list A) (x : A) :
  In x l -> f x = false -> (List.length (filter f l) < List.length l)%nat.
Proof.
  induction l as [ | y l IH]; cbn; [contradiction | ].
  intros [-> | Hin] Hx.
  - rewrite Hx. pose proof (filter_length_le f l). lia.
  - specialize (IH Hin Hx). destruct (f y); cbn; lia.
Qed.

(** X9: deleting a sale or an expense by an identifier that no row has
    answers 404 and changes nothing; by the identifier of a row it removes
    that identifier from its table and keeps every other row, leaves the
    other table alone, and the identifier is then no longer found. *)
Theorem X9_delete_removes_the_row_only :
  forall (db : database) (i : Z),
    (get_sale db i = None -> delete_sale i db = mkoutcome NotFound [] db)
    /\ (get_expense db i = None -> delete_expense i db = mkoutcome NotFound [] db)
    /\ (forall s, get_sale db i = Some s ->
          let out := delete_sale i db in
          resp out = Redirect "sales"
          /\ flashed out = [mkflash (Text "Sale deleted.") "success"]
          /\ get_sale (store out) i = None
          /\ (forall r, In r (daily_sales_table (store out))
                        <-> In r (daily_sales_table db) /\ DailySale.id r <> i)
          /\ (List.length (daily_sales_table (store out))
              < List.length (daily_sales_table db))%nat
          /\ expenses_table (store out) = expenses_table db
          /\ resp (delete_sale i (store out)) = NotFound)
    /\ (forall e, get_expense db i = Some e ->
          let out := delete_expense i db in
          resp out = Redirect "expenses"
          /\ flashed out = [mkflash (Text "Expense deleted.") "success"]
          /\ get_expense (store out) i = None
          /\ (forall r, In r (expenses_table (store out))
                        <-> In r (expenses_table db) /\ Expense.id r <> i)
          /\ (List.length (expenses_table (store out))
              < List.length (expenses_table db))%nat
          /\ daily_sales_table (store out) = daily_sales_table db
          /\ resp (delete_expense i (store out)) = NotFound).
Proof.
  intros db i. split; [ | split; [ | split]].
  - intros H. unfold delete_sale. now rewrite H.
  - intros H. unfold delete_expense. now rewrite H.
  - intros s Hs out. subst out.
    destruct (get_sale_id db i s Hs) as [Hin Hid].
    unfold delete_sale. rewrite Hs. cbn [resp flashed store]. rewrite Hid.
    assert (get_sale (mkdb (delete_sale_row (daily_sales_table db) i)
                        (expenses_table db)) i = None) as Hgone
      by apply (find_filter_out DailySale.id).
    repeat split; try reflexivity; try exact Hgone.
    + cbn [daily_sales_table] in H. unfold delete_sale_row in H.
      apply filter_In in H. tauto.
    + cbn [daily_sales_table] in H. unfold delete_sale_row in H.
      apply filter_In in H. destruct H as [_ H].
      apply negb_true_iff, Z.eqb_neq in H. exact H.
    + intros [H1 H2]. cbn [daily_sales_table]. unfold delete_sale_row.
      apply filter_In. split; [exact H1 | ].
      now apply negb_true_iff, Z.eqb_neq.
    + cbn [daily_sales_table]. unfold delete_sale_row.
      apply (filter_shorter _ _ s Hin). rewrite Hid, Z.eqb_refl. reflexivity.
    + now rewrite Hgone.
  - intros e He out. subst out.
    destruct (get_expense_id db i e He) as [Hin Hid].
    unfold delete_expense. rewrite He. cbn [resp flashed store]. rewrite Hid.
    assert (get_expense (mkdb (daily_sales_table db)
                           (delete_expense_row (expenses_table db) i)) i = None)
      as Hgone by apply (find_filter_out Expense.id).
    repeat split; try reflexivity; try exact Hgone.
    + cbn [expenses_table] in H. unfold delete_expense_row in H.
      apply filter_In in H. tauto.
    + cbn [expenses_table] in H. unfold delete_expense_row in H.
      apply filter_In in H. destruct H as [_ H].
      apply negb_true_iff, Z.eqb_neq in H. exact H.
    + intros [H1 H2]. cbn [expenses_table]. unfold delete_expense_row.
      apply filter_In. split; [exact H1 | ].
      now apply negb_true_iff, Z.eqb_neq.
    + cbn [expenses_table]. unfold delete_expense_row.
      apply (filter_shorter _ _ e Hin). rewrite Hid, Z.eqb_refl. reflexivity.
    + now rewrite Hgone.
Qed.

(* ------------------------------------------------------------------ *)
(** ** Adding rows *)

Lemma filter_all {A : Type} (f : A -> bool) (l : list A) :
  (forall x, In x l -> f x = true) -> filter f l = l.
Proof.
  induction l as [ | x l IH]; cbn; [reflexivity | ].
  intros H. rewrite (H x) by now left. f_equal. apply IH.
  intros y Hy. apply H. now right.
Qed.

Lemma find_after_append {A : Type} (key : A -> Z) (l : list A) (x : A) :
  key x = next_id (map key l) ->
  find (fun r => key r =? key x) (l ++ [x]) = Some x
  /\ filter (fun r => negb (key r =? key x)) (l ++ [x]) = l
  /\ (forall r, In r l -> key r < key x).
Proof.
  intros Hx.
  assert (forall r, In r l -> key r < key x) as Hlt.
  { intros r Hr. rewrite Hx. apply next_id_above. now apply in_map. }
  split; [ | split; [ | exact Hlt]].
  - rewrite find_app_none.
    + cbn. now rewrite Z.eqb_refl.
    + destruct (find _ l) as [r | ] eqn:E; [ | reflexivity].
      apply find_some in E. destruct E as [Hr E]. apply Z.eqb_eq in E.
      specialize (Hlt r Hr). lia.
  - rewrite filter_app. cbn. rewrite Z.eqb_refl. cbn. rewrite app_nil_r.
    apply filter_all. intros r Hr. apply negb_true_iff, Z.eqb_neq.
    specialize (Hlt r Hr). lia.
Qed.

(** X10: a valid post to [/sales] for a date without a row, followed by the
    deletion of the identifier the new row got, gives back the store it
    started from; so does a valid post to [/expenses] followed by the
    deletion of the new expense.  The new identifier is larger than every
    identifier of the table and is found by it. *)
Theorem X10_post_then_delete_restores_the_store :
  forall (db : database),
    (forall (form : sale_form) (d : date) (ts dp : Q),
        parse_date (form_sale_date form) = Some d ->
        form_total_sales form = Some ts -> form_daily_profit form = Some dp ->
        (0 <= ts)%Q -> (0 <= dp)%Q ->
        sale_of_date d (daily_sales_table db) = None ->
        let i := next_id (map DailySale.id (daily_sales_table db)) in
        let db' := store (sales (POST form) db) in
        get_sale db' i = Some (DailySale.mk i d ts dp)
        /\ (forall r, In r (daily_sales_table db) -> DailySale.id r < i)
        /\ store (delete_sale i db') = db)
    /\ (forall (form : expense_form) (d : date) (amt : Q),
           parse_date (form_expense_date form) = Some d ->
           form_amount form = Some amt -> (0 <= amt)%Q ->
           PyStr.strip (form_description form) <> "" ->
           let i := next_id (map Expense.id (expenses_table db)) in
           let db' := store (expenses (POST form) db) in
           get_expense db' i
           = Some (Expense.mk i d (PyStr.strip (form_description form)) amt)
           /\ (forall r, In r (expenses_table db) -> Expense.id r < i)
           /\ store (delete_expense i db') = db).
Proof.
  intros [srows erows]. split.
  - intros form d ts dp Hd Hts Hdp Hts0 Hdp0 Hfree i db'. subst db'.
    rewrite (sales_post_valid _ form d ts dp) by assumption.
    cbn [daily_sales_table expenses_table] in *. rewrite Hfree. cbn [store].
    destruct (find_after_append DailySale.id srows (DailySale.mk i d ts dp) eq_refl)
      as (Hfind & Hfilter & Hlt).
    cbn [DailySale.id] in Hfind, Hfilter, Hlt. fold i.
    split; [exact Hfind | ]. split; [exact Hlt | ].
    unfold delete_sale, get_sale. cbn [daily_sales_table expenses_table].
    rewrite Hfind. cbn [store DailySale.id]. unfold delete_sale_row.
    now rewrite Hfilter.
  - intros form d amt Hd Hamt Hamt0 Hdesc i db'. subst db'.
    rewrite (expenses_post_accepted _ form d amt) by assumption.
    cbn [daily_sales_table expenses_table store] in *.
    destruct (find_after_append Expense.id erows
                (Expense.mk i d (PyStr.strip (form_description form)) amt) eq_refl)
      as (Hfind & Hfilter & Hlt).
    cbn [Expense.id] in Hfind, Hfilter, Hlt. fold i.
    split; [exact Hfind | ]. split; [exact Hlt | ].
    unfold delete_expense, get_expense. cbn [daily_sales_table expenses_table].
    rewrite Hfind. cbn [store Expense.id]. unfold delete_expense_row.
    now rewrite Hfilter.
Qed.

(** X11: a post to [/expenses] never updates a row: two valid posts of the
    same form append two rows that differ by their identifier only, the
    second identifier the larger; the rows that were there stay in place. *)
Theorem X11_expenses_are_always_inserted :
  forall (db : database) (form : expense_form) (d : date) (amt : Q),
    parse_date (form_expense_date form) = Some d ->
    form_amount form = Some amt -> (0 <= amt)%Q ->
    PyStr.strip (form_description form) <> "" ->
    let db1 := store (expenses (POST form) db) in
    let db2 := store (expenses (POST form) db1) in
    exists i1 i2,
      expenses_table db2
      = expenses_table db
        ++ [Expense.mk i1 d (PyStr.strip (form_description form)) amt;
            Expense.mk i2 d (PyStr.strip (form_description form)) amt]
      /\ i1 < i2
      /\ (forall r, In r (expenses_table db) -> Expense.id r < i1)
      /\ List.length (expenses_table db2)
         = (List.length (expenses_table db) + 2)%nat
      /\ daily_sales_table db2 = daily_sales_table db.
Proof.
  intros db form d amt Hd Hamt Hamt0 Hdesc db1 db2. subst db2 db1.
  rewrite (expenses_post_accepted db form d amt) by assumption.
  cbn [store].
  rewrite (expenses_post_accepted _ form d amt) by assumption.
  cbn [store expenses_table daily_sales_table].
  set (desc := PyStr.strip (form_description form)).
  set (i1 := next_id (map Expense.id (expenses_table db))).
  exists i1, (next_id (map Expense.id (expenses_table db ++ [Expense.mk i1 d desc amt]))).
  split; [now rewrite <- app_assoc | ]. split; [ | split; [ | split]].
  - apply next_id_above. rewrite map_app. apply in_or_app. right. now left.
  - intros r Hr. apply next_id_above. now apply in_map.
  - rewrite !length_app. cbn. lia.
  - reflexivity.
Qed.

Lemma X11_witness :
  let db := mkdb [] [Expense.mk 4 (mkdate 2024 2 9) "ice" 5] in
  let form := mkexpense_form "2024-02-09" "ice" (Some 5%Q) in
  (parse_date (form_expense_date form) = Some (mkdate 2024 2 9)
   /\ PyStr.strip (form_description form) <> "")
  /\ List.length
       (expenses_table
          (store (expenses (POST form) (store (expenses (POST form) db)))))
     = (List.length (expenses_table db) + 2)%nat.
Proof.
  intros db form.
  assert (0 <= 5)%Q as H0 by (unfold Qle; cbn; lia).
  assert (PyStr.strip (form_description form) <> "") as Hd by (cbv; discriminate).
  split; [split; [reflexivity | exact Hd] | ].
  destruct (X11_expenses_are_always_inserted db form (mkdate 2024 2 9) 5%Q
              eq_refl eq_refl H0 Hd) as (i1 & i2 & _ & _ & _ & H & _).
  exact H.
Defined.

(* ------------------------------------------------------------------ *)
(** ** Editing rows *)

(** X12: a valid post to the edit page of an expense rewrites the row of
    that identifier in place and nothing else: every position of the table
    keeps its row, the edited one apart, identifiers and their order are the
    same, and the sales are untouched. *)
Theorem X12_edit_expense_rewrites_one_row_in_place :
  forall (db : database) (i : Z) (e : Expense.t) (form : expense_form)
         (d : date) (amt : Q),
    get_expense db i = Some e ->
    parse_date (form_expense_date form) = Some d ->
    form_amount form = Some amt -> (0 <= amt)%Q ->
    PyStr.strip (form_description form) <> "" ->
    let out := edit_expense i (POST form) db in
    let edited := Expense.mk i d (PyStr.strip (form_description form)) amt in
    resp out = Redirect "expenses"
    /\ flashed out = [mkflash (Text "Expense updated.") "success"]
    /\ get_expense (store out) i = Some edited
    /\ map Expense.id (expenses_table (store out))
       = map Expense.id (expenses_table db)
    /\ (forall (k : nat) (r : Expense.t),
           nth_error (expenses_table db) k = Some r ->
           nth_error (expenses_table (store out)) k
           = Some (if Expense.id r =? i then edited else r))
    /\ daily_sales_table (store out) = daily_sales_table db.
Proof.
  intros db i e form d amt He Hd Hamt Hamt0 Hdesc out edited. subst out.
  destruct (get_expense_id db i e He) as [_ Hid].
  rewrite (edit_expense_accepted db i e form d amt) by assumption.
  cbn [resp flashed store expenses_table daily_sales_table].
  split; [reflexivity | ]. split; [reflexivity | ]. split; [ | split; [ | split]].
  - unfold get_expense, update_expense. cbn [expenses_table].
    rewrite (find_map_update Expense.id
               (fun r => Expense.mk (Expense.id r) d
                           (PyStr.strip (form_description form)) amt)
               (expenses_table db) i e); [ | reflexivity | exact He].
    now rewrite Hid.
  - unfold update_expense. rewrite map_map. apply map_ext.
    intros r. destruct (Expense.id r =? i); reflexivity.
  - intros k r Hk. unfold update_expense. rewrite nth_error_map, Hk. cbn.
    destruct (Z.eqb_spec (Expense.id r) i) as [-> | ]; reflexivity.
  - reflexivity.
Qed.

Lemma X12_witness :
  let db := mkdb [] [Expense.mk 1 (mkdate 2024 2 9) "ice" 5;
                     Expense.mk 2 (mkdate 2024 2 9) "rent" 700] in
  let form := mkexpense_form "2024-02-10" " limes " (Some (25 # 10)%Q) in
  get_expense db 1 = Some (Expense.mk 1 (mkdate 2024 2 9) "ice" 5)
  /\ get_expense (store (edit_expense 1 (POST form) db)) 1
     = Some (Expense.mk 1 (mkdate 2024 2 10) "limes" (25 # 10)).
Proof.
  intros db form.
  assert (0 <= 25 # 10)%Q as H0 by (unfold Qle; cbn; lia).
  assert (PyStr.strip (form_description form) <> "") as Hd by (cbv; discriminate).
  split; [reflexivity | ].
  apply (X12_edit_expense_rewrites_one_row_in_place db 1 _ form (mkdate 2024 2 10)
           (25 # 10)%Q eq_refl eq_refl eq_refl H0 Hd).
Defined.

Lemma in_update_sale_rows (rows : list DailySale.t) (i : Z) (d : date)
  (ts dp : Q) (y : DailySale.t) :
  In y (map (fun r => if DailySale.id r =? i
                      then DailySale.mk (DailySale.id r) d ts dp else r) rows) ->
  (DailySale.id y = i /\ y = DailySale.mk i d ts dp)
  \/ (DailySale.id y <> i /\ In y rows).
Proof.
  intros H. apply in_map_iff in H. destruct H as [r [E Hr]].
  destruct (Z.eqb_spec (DailySale.id r) i) as [Ei | Ni].
  - left. subst y. cbn. now rewrite Ei.
  - right. subst y. now split.
Qed.

(** X13: in a store that the schema allows, a post to the edit page of a
    sale with valid amounts succeeds when the date is the one the sale has
    or a date without a row: the sale then carries the new date and amounts
    and is the row of that date, the date it left is free, the other rows
    are as before and the sale dates are still distinct. *)
Theorem X13_edit_sale_keeps_or_moves_the_date :
  forall (db : database) (i : Z) (s : DailySale.t) (form : sale_form)
         (d : date) (ts dp : Q),
    store_ok db ->
    get_sale db i = Some s ->
    parse_date (form_sale_date form) = Some d ->
    form_total_sales form = Some ts -> form_daily_profit form = Some dp ->
    (0 <= ts)%Q -> (0 <= dp)%Q ->
    d = DailySale.sale_date s \/ sale_of_date d (daily_sales_table db) = None ->
    let out := edit_sale i (POST form) db in
    let edited := DailySale.mk i d ts dp in
    resp out = Redirect "sales"
    /\ flashed out = [mkflash (Text "Sale updated.") "success"]
    /\ get_sale (store out) i = Some edited
    /\ sale_of_date d (daily_sales_table (store out)) = Some edited
    /\ (d <> DailySale.sale_date s ->
        sale_of_date (DailySale.sale_date s) (daily_sales_table (store out)) = None)
    /\ (forall r, DailySale.id r <> i ->
                  (In r (daily_sales_table (store out))
                   <-> In r (daily_sales_table db)))
    /\ store_ok (store out).
Proof.
  intros db i s form d ts dp Hok Hs Hd Hts Hdp Hts0 Hdp0 Hdate out edited.
  subst out. destruct Hok as (Hpk & Hek & Hdates).
  destruct (get_sale_id db i s Hs) as [Hin Hid].
  assert (forall r, In r (daily_sales_table db) -> DailySale.sale_date r = d ->
                    DailySale.id r = i) as Hfree.
  { intros r Hr Er. destruct Hdate as [-> | Hnone].
    - rewrite <- Hid. f_equal.
      now apply (same_key_same_row DailySale.sale_date (daily_sales_table db)).
    - apply (find_none _ _ Hnone) in Hr. apply date_eqb_neq in Hr. contradiction. }
  rewrite (edit_sale_accepted db i s form d ts dp) by assumption.
  cbn [resp flashed store daily_sales_table expenses_table].
  set (rows' := map (fun r => if DailySale.id r =? i
                              then DailySale.mk (DailySale.id r) d ts dp else r)
                  (daily_sales_table db)).
  assert (find (fun r => DailySale.id r =? i) rows' = Some edited) as Hget.
  { unfold rows'.
    rewrite (find_map_update DailySale.id
               (fun r => DailySale.mk (DailySale.id r) d ts dp)
               (daily_sales_table db) i s); [ | reflexivity | exact Hs].
    now rewrite Hid. }
  assert (update_sale (daily_sales_table db) i d ts dp = Ok rows') as Hup.
  { unfold update_sale.
    destruct (existsb _ (daily_sales_table db)) eqn:E; [ | reflexivity].
    apply existsb_exists in E. destruct E as [r [Hr E]].
    apply andb_true_iff in E. destruct E as [E1 E2].
    apply date_eqb_eq in E1. apply negb_true_iff, Z.eqb_neq in E2.
    exfalso. apply E2. now apply Hfree. }
  assert (one_row_per_date rows') as Hdates'
    by (eapply update_sale_one_row_per_date; eassumption).
  assert (In edited rows') as Hedited by (apply find_some in Hget; tauto).
  split; [reflexivity | ]. split; [reflexivity | ]. split; [exact Hget | ].
  split; [ | split; [ | split]].
  - destruct (find_satisfied (fun r => date_eqb (DailySale.sale_date r) d) rows'
                edited Hedited (date_eqb_refl d)) as [y Hy].
    unfold sale_of_date. rewrite Hy. f_equal.
    apply find_some in Hy. destruct Hy as [Hy Ey]. apply date_eqb_eq in Ey.
    now apply (same_key_same_row DailySale.sale_date rows').
  - intros Hne.
    destruct (sale_of_date (DailySale.sale_date s) rows') as [y | ] eqn:E;
      [ | reflexivity].
    apply find_some in E. destruct E as [Hy Ey]. apply date_eqb_eq in Ey.
    apply in_update_sale_rows in Hy. destruct Hy as [[_ ->] | [Ny Hy]].
    + cbn in Ey. congruence.
    + exfalso. apply Ny. rewrite <- Hid. f_equal.
      now apply (same_key_same_row DailySale.sale_date (daily_sales_table db)).
  - intros r Hr. split.
    + intros H. apply in_update_sale_rows in H. tauto.
    + intros H. unfold rows'. apply in_map_iff. exists r. split; [ | exact H].
      apply Z.eqb_neq in Hr. now rewrite Hr.
  - unfold store_ok. cbn [daily_sales_table expenses_table].
    split; [ | split; [exact Hek | exact Hdates']].
    now rewrite (update_sale_ids _ _ _ _ _ _ Hup).
Qed.

Lemma X13_witness :
  let db := mkdb [DailySale.mk 1 (mkdate 2024 2 28) 100 40;
                  DailySale.mk 2 (mkdate 2024 2 29) 80 30] [] in
  let form := mksale_form "2024-03-01" (Some 90%Q) (Some 35%Q) in
  (store_ok db /\ sale_of_date (mkdate 2024 3 1) (daily_sales_table db) = None)
  /\ daily_sales_table (store (edit_sale 2 (POST form) db))
     = [DailySale.mk 1 (mkdate 2024 2 28) 100 40;
        DailySale.mk 2 (mkdate 2024 3 1) 90 35]
  /\ store_ok (store (edit_sale 2 (POST form) db)).
Proof.
  intros db form.
  assert (store_ok db) as Hok.
  { repeat split; cbn; repeat constructor; cbn; intuition (try discriminate; try lia).
  }
  assert (0 <= 90)%Q as H1 by (unfold Qle; cbn; lia).
  assert (0 <= 35)%Q as H2 by (unfold Qle; cbn; lia).
  split; [split; [exact Hok | reflexivity] | ]. split; [reflexivity | ].
  apply (X13_edit_sale_keeps_or_moves_the_date db 2
           (DailySale.mk 2 (mkdate 2024 2 29) 80 30) form (mkdate 2024 3 1) 90%Q 35%Q
           Hok eq_refl eq_refl eq_refl eq_refl H1 H2 (or_intror eq_refl)).
Defined.

(* ------------------------------------------------------------------ *)
(** ** Texts that the forms refuse *)

Lemma lstrip_chars_nil_iff (sp : ascii -> bool) (l : list ascii) :
  PyStr.lstrip_chars sp l = [] <-> forallb sp l = true.
Proof.
  induction l as [ | c l IH]; cbn; [tauto | ].
  destruct (sp c); cbn; [exact IH | ]. split; discriminate.
Qed.

Lemma forallb_rev {A : Type} (f : A -> bool) (l : list A) :
  forallb f (rev l) = forallb f l.
Proof.
  induction l as [ | x l IH]; cbn; [reflexivity | ].
  rewrite forallb_app, IH. cbn. rewrite andb_true_r. apply andb_comm.
Qed.

Lemma strip_chars_nil_iff (sp : ascii -> bool) (l : list ascii) :
  PyStr.strip_chars sp l = [] <-> forallb sp l = true.
Proof.
  unfold PyStr.strip_chars, PyStr.rstrip_chars. split.
  - intros H. apply (f_equal (@rev ascii)) in H. rewrite rev_involutive in H.
    cbn in H. apply lstrip_chars_nil_iff in H. rewrite forallb_rev in H.
    destruct (PyStr.lstrip_chars sp l) as [ | c a] eqn:Ea.
    + now apply lstrip_chars_nil_iff.
    + exfalso. cbn in H. apply andb_true_iff in H. destruct H as [Hc _].
      clear - Ea Hc. induction l as [ | x l IH]; cbn in Ea; [discriminate | ].
      destruct (sp x) eqn:Ex; [now apply IH | ]. congruence.
  - intros H. apply lstrip_chars_nil_iff in H. now rewrite H.
Qed.

(** A text is blank for [strip] when all its characters are white space. *)
Lemma strip_empty_iff (s : string) :
  PyStr.strip s = "" <-> forallb PyStr.is_space (list_ascii_of_string s) = true.
Proof.
  unfold PyStr.strip. rewrite <- strip_chars_nil_iff.
  destruct (PyStr.strip_chars PyStr.is_space (list_ascii_of_string s)); cbn;
    split; congruence.
Qed.

(** X14: a post to [/expenses] or to the edit page of an expense is refused,
    the store left as it was and one validation error flashed, when the date
    is not one [parse_date] reads, when the amount is not a number, or when
    the description is made of white space only (the empty one included);
    a post to [/sales] or to the edit page of a sale is refused in the same
    way for such a date or for an amount that is not a number. *)
Theorem X14_unreadable_fields_are_refused :
  forall (db : database) (i : Z),
    (forall form : expense_form,
        parse_date (form_expense_date form) = None
        \/ form_amount form = None
        \/ forallb PyStr.is_space (list_ascii_of_string (form_description form))
           = true ->
        rejected "Could not save expense: " db (expenses (POST form) db)
        /\ (get_expense db i <> None ->
            rejected "Could not update expense: " db
              (edit_expense i (POST form) db)))
    /\ (forall form : sale_form,
           parse_date (form_sale_date form) = None
           \/ form_total_sales form = None \/ form_daily_profit form = None ->
           rejected "Could not save sale: " db (sales (POST form) db)
           /\ (get_sale db i <> None ->
               rejected "Could not update sale: " db (edit_sale i (POST form) db))).
Proof.
  intros db i. split.
  - intros form H.
    assert (parse_date (form_expense_date form) = None
            \/ form_amount form = None
            \/ is_empty (PyStr.strip (form_description form)) = true) as H'.
    { destruct H as [H | [H | H]]; auto. right; right.
      apply strip_empty_iff in H. now rewrite H. }
    clear H. split.
    + unfold rejected, expenses.
      destruct (parse_date _) as [d | ].
      2:{ cbn. split; [reflexivity | ]. exists ConversionError. now split. }
      destruct (form_amount form) as [amt | ].
      2:{ cbn. split; [reflexivity | ]. exists ConversionError. now split. }
      destruct H' as [H | [H | H]]; try discriminate.
      cbn [conv bind ret]. rewrite H. cbn. split; [reflexivity | ].
      exists (ValueError "Description is required."). now split.
    + intros Hget. unfold rejected, edit_expense.
      destruct (get_expense db i) as [e | ]; [ | congruence].
      destruct (parse_date _) as [d | ].
      2:{ cbn. split; [reflexivity | ]. exists ConversionError. now split. }
      destruct (form_amount form) as [amt | ].
      2:{ cbn. split; [reflexivity | ]. exists ConversionError. now split. }
      destruct H' as [H | [H | H]]; try discriminate.
      cbn [conv bind ret]. rewrite H. cbn. split; [reflexivity | ].
      exists (ValueError "Description is required."). now split.
  - intros form H. split.
    + unfold rejected, sales.
      destruct (parse_date _) as [d | ].
      2:{ cbn. split; [reflexivity | ]. exists ConversionError. now split. }
      destruct (form_total_sales form) as [ts | ].
      2:{ cbn. split; [reflexivity | ]. exists ConversionError. now split. }
      destruct (form_daily_profit form) as [dp | ].
      2:{ cbn. split; [reflexivity | ]. exists ConversionError. now split. }
      destruct H as [H | [H | H]]; discriminate.
    + intros Hget. unfold rejected, edit_sale.
      destruct (get_sale db i) as [s | ]; [ | congruence].
      destruct (parse_date _) as [d | ].
      2:{ cbn. split; [reflexivity | ]. exists ConversionError. now split. }
      destruct (form_total_sales form) as [ts | ].
      2:{ cbn. split; [reflexivity | ]. exists ConversionError. now split. }
      destruct (form_daily_profit form) as [dp | ].
      2:{ cbn. split; [reflexivity | ]. exists ConversionError. now split. }
      destruct H as [H | [H | H]]; discriminate.
Qed.

(* ------------------------------------------------------------------ *)
(** ** The rows of every reachable store *)

Lemma Qltb_false_nonneg (x : Q) : Qltb x 0 = false -> (0 <= x)%Q.
Proof.
  unfold Qltb. intros H. apply negb_false_iff in H. now apply Qle_bool_iff.
Qed.

Lemma sales_post_rows_ok (db : database) (form : sale_form) :
  Forall sale_row_ok (daily_sales_table db) ->
  Forall sale_row_ok (daily_sales_table (store (sales (POST form) db))).
Proof.
  intros H. unfold sales.
  destruct (parse_date _) as [d | ] eqn:Ed; [ | exact H].
  destruct (form_total_sales form) as [ts | ]; [ | exact H].
  destruct (form_daily_profit form) as [dp | ]; [ | exact H].
  cbn [conv bind ret].
  destruct (Qltb ts 0) eqn:Ets; [exact H | ].
  destruct (Qltb dp 0) eqn:Edp; [exact H | ].
  apply Qltb_false_nonneg in Ets, Edp. apply parse_date_valid in Ed.
  cbn [orb bind ret].
  destruct (find _ (daily_sales_table db)) as [existing | ].
  - cbn. unfold update_sale_amounts. rewrite Forall_map.
    eapply Forall_impl; [ | exact H]. intros r Hr.
    destruct (DailySale.id r =? DailySale.id existing); [ | exact Hr].
    destruct Hr as (Hv & _). repeat split; assumption.
  - cbn. unfold insert_sale. destruct (existsb _ _); [exact H | ].
    cbn. apply Forall_app. split; [exact H | ].
    constructor; [ | constructor]. repeat split; assumption.
Qed.

Lemma edit_sale_rows_ok (db : database) (i : Z) (form : sale_form) :
  Forall sale_row_ok (daily_sales_table db) ->
  Forall sale_row_ok (daily_sales_table (store (edit_sale i (POST form) db))).
Proof.
  intros H. unfold edit_sale.
  destruct (get_sale db i) as [sale | ]; [ | exact H].
  destruct (parse_date _) as [d | ] eqn:Ed; [ | exact H].
  destruct (form_total_sales form) as [ts | ]; [ | exact H].
  destruct (form_daily_profit form) as [dp | ]; [ | exact H].
  cbn [conv bind ret].
  destruct (Qltb ts 0) eqn:Ets; [exact H | ].
  destruct (Qltb dp 0) eqn:Edp; [exact H | ].
  apply Qltb_false_nonneg in Ets, Edp. apply parse_date_valid in Ed.
  cbn [orb bind ret].
  destruct (find _ (daily_sales_table db)); [exact H | ].
  cbn [bind ret lift]. unfold update_sale.
  destruct (existsb _ _); [exact H | ].
  cbn. rewrite Forall_map. eapply Forall_impl; [ | exact H]. intros r Hr.
  destruct (DailySale.id r =? DailySale.id sale); [ | exact Hr].
  repeat split; assumption.
Qed.

Lemma expenses_post_rows_ok (db : database) (form : expense_form) :
  Forall expense_row_ok (expenses_table db) ->
  Forall expense_row_ok (expenses_table (store (expenses (POST form) db))).
Proof.
  intros H. unfold expenses.
  destruct (parse_date _) as [d | ] eqn:Ed; [ | exact H].
  destruct (form_amount form) as [amt | ]; [ | exact H].
  cbn [conv bind ret].
  destruct (is_empty _); [exact H | ]. cbn [bind ret].
  destruct (Qltb amt 0) eqn:Eamt; [exact H | ].
  apply Qltb_false_nonneg in Eamt. apply parse_date_valid in Ed.
  cbn. unfold insert_expense. apply Forall_app. split; [exact H | ].
  constructor; [ | constructor]. split; assumption.
Qed.

Lemma edit_expense_rows_ok (db : database) (i : Z) (form : expense_form) :
  Forall expense_row_ok (expenses_table db) ->
  Forall expense_row_ok (expenses_table (store (edit_expense i (POST form) db))).
Proof.
  intros H. unfold edit_expense.
  destruct (get_expense db i) as [exp | ]; [ | exact H].
  destruct (parse_date _) as [d | ] eqn:Ed; [ | exact H].
  destruct (form_amount form) as [amt | ]; [ | exact H].
  cbn [conv bind ret].
  destruct (is_empty _); [exact H | ]. cbn [bind ret].
  destruct (Qltb amt 0) eqn:Eamt; [exact H | ].
  apply Qltb_false_nonneg in Eamt. apply parse_date_valid in Ed.
  cbn. unfold update_expense. rewrite Forall_map.
  eapply Forall_impl; [ | exact H]. intros r Hr.
  destruct (Expense.id r =? Expense.id exp); [ | exact Hr]. split; assumption.
Qed.

Lemma Forall_filter {A : Type} (P : A -> Prop) (f : A -> bool) (l : list A) :
  Forall P l -> Forall P (filter f l).
Proof.
  intros H. apply Forall_forall. intros x Hx. apply filter_In in Hx.
  rewrite Forall_forall in H. now apply H.
Qed.

Lemma run_op_rows_ok (op : operation) (db : database) :
  rows_ok db -> rows_ok (store (run_op op db)).
Proof.
  intros [Hs He]. unfold rows_ok.
  destruct (sale_views_keep_expenses db) as (Ks1 & Ks2 & Ks3).
  destruct (expense_views_keep_sales db) as (Ke1 & Ke2 & Ke3).
  destruct op as [form | i form | i | form | i form | i]; cbn [run_op].
  - rewrite Ks1. split; [now apply sales_post_rows_ok | exact He].
  - rewrite Ks2. split; [now apply edit_sale_rows_ok | exact He].
  - rewrite Ks3. split; [ | exact He]. unfold delete_sale.
    destruct (get_sale db i); [ | exact Hs]. cbn. now apply Forall_filter.
  - rewrite Ke1. split; [exact Hs | now apply expenses_post_rows_ok].
  - rewrite Ke2. split; [exact Hs | now apply edit_expense_rows_ok].
  - rewrite Ke3. split; [exact Hs | ]. unfold delete_expense.
    destruct (get_expense db i); [ | exact He]. cbn. now apply Forall_filter.
Qed.

Lemma run_ops_rows_ok (ops : list operation) (db : database) :
  rows_ok db -> rows_ok (run_ops ops db).
Proof.
  revert db. induction ops as [ | op ops IH]; intros db H; cbn.
  - exact H.
  - apply IH. now apply run_op_rows_ok.
Qed.

Lemma total_nonneg (l : list Q) : Forall (fun x => (0 <= x)%Q) l -> (0 <= total l)%Q.
Proof.
  induction 1 as [ | x l Hx _ IH]; unfold total in *; cbn [fold_right].
  - apply Qle_refl.
  - replace 0%Q with (0 + 0)%Q by reflexivity. now apply Qplus_le_compat.
Qed.

Lemma aggregate_nonneg {A : Type} (f : A -> Q) (P : A -> Prop) (g : A -> bool)
  (l : list A) :
  (forall x, P x -> (0 <= f x)%Q) -> Forall P l ->
  (0 <= coalesce (sql_sum (map f (filter g l))) 0)%Q.
Proof.
  intros HP H. rewrite coalesce_sql_sum_total. apply total_nonneg.
  rewrite Forall_map. apply Forall_filter.
  eapply Forall_impl; [ | exact H]. exact HP.
Qed.

(** X15: in the store reached from the empty one by any sequence of posts
    to the six writing views, every date is a date of the calendar and no
    total_sales, daily_profit or amount is negative; so the three totals of
    any period are not negative (the net profit can be). *)
Theorem X15_reachable_rows_are_valid :
  forall (ops : list operation) (s e : date),
    let db := run_ops ops empty_db in
    Forall sale_row_ok (daily_sales_table db)
    /\ Forall expense_row_ok (expenses_table db)
    /\ (0 <= query_total_sales s e db)%Q
    /\ (0 <= query_total_profit s e db)%Q
    /\ (0 <= query_total_expenses s e db)%Q.
Proof.
  intros ops s e db.
  assert (rows_ok db) as [Hs He]
    by (apply run_ops_rows_ok; split; constructor).
  split; [exact Hs | ]. split; [exact He | ].
  unfold query_total_sales, query_total_profit, query_total_expenses.
  split; [ | split].
  - apply (aggregate_nonneg _ sale_row_ok); [ | exact Hs]. intros x Hx. apply Hx.
  - apply (aggregate_nonneg _ sale_row_ok); [ | exact Hs]. intros x Hx. apply Hx.
  - apply (aggregate_nonneg _ expense_row_ok); [ | exact He]. intros x Hx. apply Hx.
Qed.

(* ------------------------------------------------------------------ *)
(** ** Settings, login and the gate *)

Lemma login_admin_iff (cfg : settings) (req : request login_form)
  (next : option string) :
  is_admin (login cfg false req next) = true <-> credentials_ok cfg req.
Proof.
  unfold login, credentials_ok. destruct req as [ | form].
  - cbn. split; [discriminate | ]. intros (form & H & _). discriminate.
  - destruct (String.eqb _ (ADMIN_USERNAME cfg)) eqn:Eu;
      destruct (String.eqb _ (ADMIN_PASSWORD cfg)) eqn:Ep; cbn [andb is_admin].
    + apply String.eqb_eq in Eu, Ep. split; [intros _ | reflexivity].
      exists form. auto.
    + apply String.eqb_neq in Ep. split; [discriminate | ].
      intros (f & [= <-] & _ & H). contradiction.
    + apply String.eqb_neq in Eu. split; [discriminate | ].
      intros (f & [= <-] & H & _). contradiction.
    + apply String.eqb_neq in Eu. split; [discriminate | ].
      intros (f & [= <-] & H & _). contradiction.
Qed.

Lemma login_without_credentials (cfg : settings) (req : request login_form)
  (next : option string) :
  ~ credentials_ok cfg req ->
  is_admin (login cfg false req next) = false
  /\ auth_resp (login cfg false req next) = LoginPage
  /\ (req = GET -> auth_flashed (login cfg false req next) = [])
  /\ (req <> GET ->
      auth_flashed (login cfg false req next)
      = [mkflash (Text "Invalid username or password.") "error"]).
Proof.
  intros Hno. pose proof (login_admin_iff cfg req next) as Hiff.
  assert (is_admin (login cfg false req next) = false) as Hfalse.
  { destruct (is_admin (login cfg false req next)) eqn:E; [ | reflexivity].
    exfalso. now apply Hno, Hiff. }
  split; [exact Hfalse | ]. unfold login in *.
  destruct req as [ | form].
  - cbn. repeat split. congruence.
  - destruct (_ && _); [discriminate | ]. cbn. repeat split. discriminate.
Qed.

(** X16: a request to [/login] of a session that is not the administrator's
    makes it so exactly when it is a POST whose username, stripped, and
    whose password, as typed, are those of the settings; the browser is then
    sent to the [next] address of the request when there is one and it is
    not empty, to the summary otherwise.  The address is not checked by the
    view: any text without a carriage return or a line feed is the target,
    and one that holds either is refused as a header, the answer being an
    error while the session is the administrator's all the same.  Any other
    request shows the login page and leaves the session as it was, a POST
    with the error message and a GET with none; a session that is the
    administrator's is sent to the summary. *)
Theorem X16_login_needs_the_credentials :
  forall (cfg : settings) (req : request login_form) (next : option string),
    let out := login cfg false req next in
    (is_admin out = true <-> credentials_ok cfg req)
    /\ (credentials_ok cfg req ->
        auth_flashed out = [mkflash (Text "Logged in successfully.") "success"]
        /\ (forall url, next = Some url -> url <> "" ->
            auth_resp out
            = if has_newline url then RefusedTarget url else ToUrl url)
        /\ (next = None \/ next = Some "" -> auth_resp out = ToEndpoint "summary"))
    /\ (~ credentials_ok cfg req ->
        is_admin out = false /\ auth_resp out = LoginPage
        /\ (req = GET -> auth_flashed out = [])
        /\ (req <> GET ->
            auth_flashed out
            = [mkflash (Text "Invalid username or password.") "error"]))
    /\ login cfg true req next = mkauth (ToEndpoint "summary") [] true.
Proof.
  intros cfg req next out.
  pose proof (login_admin_iff cfg req next) as Hiff. fold out in Hiff.
  split; [exact Hiff | ]. split; [ | split; [ | reflexivity]].
  - intros Hok. apply Hiff in Hok. subst out. unfold login in *.
    destruct req as [ | form]; [discriminate | ].
    destruct (_ && _); [ | discriminate]. cbn [auth_flashed auth_resp].
    split; [reflexivity | ]. split.
    + intros url -> Hne. destruct url; [congruence | reflexivity].
    + intros [-> | ->]; reflexivity.
  - intros Hno. subst out. now apply login_without_credentials.
Qed.

Lemma credentials_ok_example :
  credentials_ok (mksettings "admin" "s3cret" "key")
    (POST (mklogin_form (Some " admin ") (Some "s3cret"))).
Proof. eexists. split; [reflexivity | split; reflexivity]. Qed.

(** X17: the username of the form is stripped and the one of the settings
    is not: when the username of the settings begins or ends with white
    space, no request logs in. *)
Theorem X17_padded_admin_username_locks_out :
  forall (cfg : settings) (req : request login_form) (next : option string),
    ~ no_space_at_ends (ADMIN_USERNAME cfg) ->
    is_admin (login cfg false req next) = false
    /\ auth_resp (login cfg false req next) = LoginPage.
Proof.
  intros cfg req next Hpad.
  assert (~ credentials_ok cfg req) as Hno.
  { intros (form & _ & Hu & _). apply Hpad. rewrite <- Hu.
    apply strip_no_space_at_ends. }
  destruct (login_without_credentials cfg req next Hno) as (H1 & H2 & _).
  now split.
Qed.

Lemma X17_witness :
  let cfg := mksettings " admin" "s3cret" "key" in
  ~ no_space_at_ends (ADMIN_USERNAME cfg)
  /\ is_admin (login cfg false (POST (mklogin_form (Some " admin") (Some "s3cret")))
                None) = false.
Proof.
  intros cfg.
  assert (~ no_space_at_ends (ADMIN_USERNAME cfg)) as Hpad.
  { unfold no_space_at_ends. cbn. intros [H _]. discriminate. }
  split; [exact Hpad | ].
  apply (X17_padded_admin_username_locks_out cfg _ None Hpad).
Defined.

Lemma missing_false (v : option string) :
  missing v = false -> exists s, v = Some s /\ s <> "".
Proof.
  destruct v as [[ | c s] | ]; cbn; try discriminate.
  intros _. eexists. split; [reflexivity | discriminate].
Qed.

(** X18: the module starts only when the username, the password and the
    secret key are all set and not empty, and the settings are then those
    values; so a login form without a password or with an empty one, or
    without a username or with one of white space only, never logs in. *)
Theorem X18_settings_are_set_and_blank_logins_fail :
  forall (u p k : option string),
    ((exists msg, load_settings u p k = inl msg)
     <-> missing u = true \/ missing p = true \/ missing k = true)
    /\ (forall cfg,
           load_settings u p k = inr cfg ->
           u = Some (ADMIN_USERNAME cfg) /\ p = Some (ADMIN_PASSWORD cfg)
           /\ k = Some (SECRET_KEY cfg)
           /\ ADMIN_USERNAME cfg <> "" /\ ADMIN_PASSWORD cfg <> ""
           /\ SECRET_KEY cfg <> ""
           /\ (forall (form : login_form) (next : option string),
                  form_password form = None \/ form_password form = Some ""
                  \/ form_username form = None
                  \/ (exists s, form_username form = Some s
                                /\ forallb PyStr.is_space (list_ascii_of_string s)
                                   = true) ->
                  is_admin (login cfg false (POST form) next) = false)).
Proof.
  intros u p k. unfold load_settings. split.
  - destruct (missing u) eqn:Eu; destruct (missing p) eqn:Ep;
      destruct (missing k) eqn:Ek; cbn [orb]; split; eauto;
      try (intros [msg H]; discriminate);
      intros [H | [H | H]]; discriminate.
  - intros cfg.
    destruct (missing u) eqn:Eu; [discriminate | ].
    destruct (missing p) eqn:Ep; [discriminate | ].
    destruct (missing k) eqn:Ek; [discriminate | ]. cbn [orb].
    destruct (missing_false u Eu) as (su & -> & Hu).
    destruct (missing_false p Ep) as (sp & -> & Hp).
    destruct (missing_false k Ek) as (sk & -> & Hk).
    intros [= <-]. cbn [ADMIN_USERNAME ADMIN_PASSWORD SECRET_KEY].
    repeat split; try assumption.
    intros form next Hblank.
    destruct (login_without_credentials (mksettings su sp sk) (POST form) next)
      as (H & _); [ | exact H].
    intros (f & [= <-] & Hname & Hpass).
    cbn [ADMIN_USERNAME ADMIN_PASSWORD] in Hname, Hpass.
    destruct Hblank as [E | [E | [E | (s & E & Hs)]]]; rewrite E in *.
    + now apply Hp.
    + now apply Hp.
    + apply Hu. rewrite <- Hname. reflexivity.
    + apply Hu. rewrite <- Hname. now apply strip_empty_iff.
Qed.

(** X19: a view behind the gate runs for a session of the administrator
    only: for any other session, as after a logout or a login that was
    refused, each of the six writing views, and any sequence of them, leaves
    the store as it was and answers with a redirect to the login page
    without a message; for the administrator the gate is the view. *)
Theorem X19_no_write_without_login :
  forall (cfg : settings) (req : request login_form) (next : option string)
         (ops : list operation) (op : operation) (db : database),
    login_required_simple (run_op op) (is_admin logout) db
    = mkoutcome (Redirect "login") [] db
    /\ fold_left
         (fun db op => store (login_required_simple (run_op op) (is_admin logout) db))
         ops db = db
    /\ (~ credentials_ok cfg req ->
        login_required_simple (run_op op) (is_admin (login cfg false req next)) db
        = mkoutcome (Redirect "login") [] db)
    /\ (credentials_ok cfg req ->
        login_required_simple (run_op op) (is_admin (login cfg false req next)) db
        = run_op op db)
    /\ login_required_simple home (is_admin logout) db
       = mkoutcome (Redirect "login") [] db.
Proof.
  intros cfg req next ops op db.
  split; [reflexivity | ]. split; [ | split; [ | split; [ | reflexivity]]].
  - induction ops as [ | o ops IH]; [reflexivity | exact IH].
  - intros Hno.
    destruct (login_without_credentials cfg req next Hno) as (-> & _).
    reflexivity.
  - intros Hok. apply (login_admin_iff cfg req next) in Hok. now rewrite Hok.
Qed.

(* ------------------------------------------------------------------ *)
(** ** Posting a sale twice *)

Lemma update_sale_amounts_same (rows : list DailySale.t) (e : DailySale.t) :
  NoDup (map DailySale.id rows) -> In e rows ->
  update_sale_amounts rows (DailySale.id e) (DailySale.total_sales e)
    (DailySale.daily_profit e) = rows.
Proof.
  intros Hpk Hin. unfold update_sale_amounts.
  rewrite <- (map_id rows) at 2. apply map_ext_in. intros r Hr.
  destruct (Z.eqb_spec (DailySale.id r) (DailySale.id e)) as [E | ]; [ | reflexivity].
  assert (r = e) as -> by now apply (same_key_same_row DailySale.id rows).
  now destruct e.
Qed.

(** X20: in a store that the schema allows, a valid post to [/sales] sent a
    second time changes nothing more: the store after the two posts is the
    store after the first, and the second post reports an update. *)
Theorem X20_posting_a_sale_twice_is_posting_it_once :
  forall (db : database) (form : sale_form) (d : date) (ts dp : Q),
    store_ok db ->
    parse_date (form_sale_date form) = Some d ->
    form_total_sales form = Some ts -> form_daily_profit form = Some dp ->
    (0 <= ts)%Q -> (0 <= dp)%Q ->
    let db1 := store (sales (POST form) db) in
    store (sales (POST form) db1) = db1
    /\ flashed (sales (POST form) db1)
       = [mkflash (Text ("Updated sale for " ++ isoformat d ++ ".")) "info"]
    /\ store_ok db1.
Proof.
  intros db form d ts dp Hok Hd Hts Hdp Hts0 Hdp0 db1.
  assert (store_ok db1) as Hok1 by apply (run_op_store_ok (OpSales form) db Hok).
  destruct (sale_of_date_after_post db form d ts dp Hd Hts Hdp Hts0 Hdp0)
    as [i Hi]. fold db1 in Hi.
  rewrite (sales_post_valid db1 form d ts dp) by assumption. rewrite Hi.
  cbn [store flashed DailySale.id].
  split; [ | split; [reflexivity | exact Hok1]].
  destruct Hok1 as (Hpk & _ & _).
  unfold sale_of_date in Hi. apply find_some in Hi. destruct Hi as [Hin _].
  pose proof (update_sale_amounts_same (daily_sales_table db1)
                (DailySale.mk i d ts dp) Hpk Hin) as E.
  cbn [DailySale.id DailySale.total_sales DailySale.daily_profit] in E.
  rewrite E. now destruct db1.
Qed.

Lemma X20_witness :
  let db := mkdb [DailySale.mk 1 (mkdate 2024 2 28) 100 40] [] in
  let form := mksale_form "2024-02-28" (Some 120%Q) (Some 50%Q) in
  store_ok db
  /\ store (sales (POST form) (store (sales (POST form) db)))
     = store (sales (POST form) db).
Proof.
  intros db form.
  assert (store_ok db) as Hok.
  { repeat split; cbn; repeat constructor; cbn; intuition. }
  assert (0 <= 120)%Q as H1 by (unfold Qle; cbn; lia).
  assert (0 <= 50)%Q as H2 by (unfold Qle; cbn; lia).
  split; [exact Hok | ].
  apply (X20_posting_a_sale_twice_is_posting_it_once db form (mkdate 2024 2 28)
           120%Q 50%Q Hok eq_refl eq_refl eq_refl H1 H2).
Defined.


(* ------------------------------------------------------------------ *)
(** ** One sale line per day *)

Lemma NoDup_days_of_month (y m : Z) (l : list date) :
  (forall d, In d l -> year d = y /\ month d = m) ->
  NoDup l -> NoDup (map day l).
Proof.
  intros Hm H. induction H as [ | d l Hnotin Hnodup IH]; cbn; constructor.
  - intros Hin. apply in_map_iff in Hin. destruct Hin as [d' [Ed Hd']].
    apply Hnotin.
    destruct (Hm d (or_introl eq_refl)) as [Hy1 Hm1].
    destruct (Hm d' (or_intror Hd')) as [Hy2 Hm2].
    destruct d as [a b c], d' as [a' b' c']. cbn in *. subst. exact Hd'.
  - apply IH. intros d' Hd'. apply Hm. now right.
Qed.

Lemma days_up_to (n : nat) (x : Z) :
  1 <= x <= Z.of_nat n -> In x (map Z.of_nat (seq 1 n)).
Proof.
  intros H. apply in_map_iff. exists (Z.to_nat x). split; [lia | ].
  apply in_seq. lia.
Qed.

(** X22: for a store reached from the empty one, the summary page lists at
    most one sale row per day of its month: the dates of the rows listed
    are distinct and there are no more rows than the month has days. *)
Theorem X22_summary_has_one_sale_per_day :
  forall (ops : list operation) (month_arg : option string) (today : date)
         (ctx : summary_context),
    resp (summary month_arg today (run_ops ops empty_db)) = SummaryPage ctx ->
    NoDup (map DailySale.sale_date (ctx_sales_rows ctx))
    /\ (Z.of_nat (List.length (ctx_sales_rows ctx)) <= day (ctx_end ctx) <= 31).
Proof.
  intros ops month_arg today ctx H.
  set (db := run_ops ops empty_db) in *.
  assert (store_ok db) as (_ & _ & Hdates)
    by apply (run_ops_store_ok ops empty_db empty_db_store_ok).
  assert (rows_ok db) as [Hrows _]
    by (apply run_ops_rows_ok; split; constructor).
  destruct (summary_page_month month_arg today db ctx H) as [Hb _].
  destruct (month_bounds_inv _ _ _ Hb) as (y & m & Hy & Hm & Es & Ee).
  apply summary_page_inv in H. destruct H as [mo H].
  pose proof (f_equal ctx_sales_rows H) as Er. cbn [ctx_sales_rows] in Er.
  rewrite Er, Ee, Es. cbn [day]. clear H Er Hb.
  unfold query_sales_rows.
  set (rows := filter (fun r => between (mkdate y m 1)
                                  (mkdate y m (last_day_of_month y m))
                                  (DailySale.sale_date r))
                 (daily_sales_table db)).
  pose proof (order_by_perm sale_date_asc rows) as Hperm.
  assert (NoDup (map DailySale.sale_date rows)) as Hnd
    by (apply NoDup_map_filter; exact Hdates).
  assert (forall d, In d (map DailySale.sale_date rows) ->
                    (year d = y /\ month d = m)
                    /\ 1 <= day d <= last_day_of_month y m) as Hin.
  { intros d Hd. apply in_map_iff in Hd. destruct Hd as [r [<- Hr]].
    apply filter_In in Hr. destruct Hr as [Hr Hbt].
    rewrite Forall_forall in Hrows. destruct (Hrows r Hr) as (Hv & _).
    apply (between_month y m _ Hv) in Hbt. split; [exact Hbt | ].
    apply valid_date_bounds in Hv. destruct Hbt as [<- <-]. tauto. }
  pose proof (last_day_bounds y m) as Hl.
  split.
  - eapply Permutation_NoDup; [ | exact Hnd]. now apply Permutation_map.
  - split; [ | lia].
    rewrite <- (Permutation_length Hperm).
    assert (List.length (map day (map DailySale.sale_date rows))
            <= List.length (map Z.of_nat (seq 1 (Z.to_nat (last_day_of_month y m)))))%nat
      as Hle.
    { apply NoDup_incl_length.
      - apply (NoDup_days_of_month y m); [ | exact Hnd]. intros d Hd. now apply Hin.
      - intros x Hx. apply in_map_iff in Hx. destruct Hx as [d [<- Hd]].
        apply days_up_to. destruct (Hin d Hd) as [_ Hday]. lia. }
    rewrite !length_map, length_seq in Hle. lia.
Qed.

Lemma X22_witness :
  let ops := [OpSales (mksale_form "2024-02-03" (Some 100%Q) (Some 40%Q));
              OpSales (mksale_form "2024-02-03" (Some 110%Q) (Some 45%Q));
              OpSales (mksale_form "2024-02-04" (Some 90%Q) (Some 30%Q))] in
  let ctx := mksummary "2024-02" (mkdate 2024 2 1) (mkdate 2024 2 29)
               (110 + 90) (45 + 30) 0 (45 + 30 - 0)
               [DailySale.mk 1 (mkdate 2024 2 3) 110 45;
                DailySale.mk 2 (mkdate 2024 2 4) 90 30] [] in
  resp (summary (Some "2024-02") (mkdate 2026 11 4) (run_ops ops empty_db))
  = SummaryPage ctx
  /\ NoDup (map DailySale.sale_date (ctx_sales_rows ctx)).
Proof.
  intros ops ctx.
  assert (resp (summary (Some "2024-02") (mkdate 2026 11 4) (run_ops ops empty_db))
          = SummaryPage ctx) as H by (vm_compute; reflexivity).
  split; [exact H | ].
  apply (X22_summary_has_one_sale_per_day ops _ _ ctx H).
Defined.

(* ------------------------------------------------------------------ *)
(** ** Amounts printed with two decimals *)

Lemma round_half_even_comp (x y : Q) :
  (x == y)%Q -> round_half_even x = round_half_even y.
Proof.
  intros H. unfold round_half_even. cbv zeta.
  assert (Qfloor x = Qfloor y) as E1 by now rewrite H.
  assert (Qcompare (x - inject_Z (Qfloor x)) (1 # 2)
          = Qcompare (y - inject_Z (Qfloor y)) (1 # 2)) as E2
    by (rewrite E1; now rewrite H).
  now rewrite E2, E1.
Qed.

Lemma round_half_even_integer (k : Z) : round_half_even (inject_Z k) = k.
Proof.
  unfold round_half_even. cbv zeta. rewrite Qfloor_Z.
  assert (inject_Z k - inject_Z k == 0)%Q as E by ring.
  rewrite E. reflexivity.
Qed.

(** X23: an amount that is a whole number [k] of hundredths, not negative,
    is printed as the integer part of [k / 100], a point and the two digits
    of [k mod 100]; a negative amount is printed as a minus sign followed by
    the print of its opposite. *)
Theorem X23_format_2f_of_hundredths_and_of_negatives :
  forall (x : Q) (k : Z),
    (0 <= k ->
     (x == k # 100)%Q ->
     format_2f x = (decimal (k / 100) ++ "." ++ PyStr.pad2 (k mod 100))%string)
    /\ ((x < 0)%Q -> format_2f x = ("-" ++ format_2f (- x))%string).
Proof.
  intros x k. split.
  - intros Hk Hx. unfold format_2f. cbv zeta.
    assert (0 <= x)%Q as H0 by (rewrite Hx; unfold Qle; cbn; lia).
    rewrite (Qltb_nonneg x H0).
    assert (Qabs x * inject_Z 100 == inject_Z k)%Q as E.
    { rewrite (Qabs_pos x H0), Hx. unfold Qeq, Qmult, inject_Z. cbn. lia. }
    rewrite (round_half_even_comp _ _ E), round_half_even_integer. reflexivity.
  - intros Hneg. unfold format_2f. cbv zeta.
    rewrite (Qltb_neg x Hneg).
    assert (0 <= - x)%Q as H0.
    { apply Qlt_le_weak in Hneg. apply Qopp_le_compat in Hneg. exact Hneg. }
    rewrite (Qltb_nonneg (- x) H0).
    assert (Qabs x * inject_Z 100 == Qabs (- x) * inject_Z 100)%Q as E
      by now rewrite Qabs_opp.
    rewrite (round_half_even_comp _ _ E). reflexivity.
Qed.
